(** * Asthma risk dashboard (Asthmaapp.py): a shallow embedding

    The dashboard is one Streamlit script that is executed from top to bottom
    on every interaction.  The embedding follows the script: the form values
    are a record, the one-row data frames are ordered lists of labelled
    values, Python exceptions are an error result, the record file and the
    session state are threaded explicitly, and the classifier and NumPy's
    sort are parameters.  Texts are the UTF-8 bytes of the Python strings.

    Floats are the kernel's binary64 numbers, so that [fev1 / fvc],
    [prob * 100] and the comparisons are computed bit for bit as CPython and
    NumPy compute them; the two decimal roundings are written out on the
    exact value of the float.

    What pandas does is written out for the frames and files this script
    builds; each definition says which.  The style sheet and the model
    artifact are taken to be present (lines 14 and 23 raise otherwise, before
    anything else happens), and what the script only displays is left out. *)

From Stdlib Require Import ZArith Floats Uint63 List String Ascii Bool Lia.
From Stdlib Require Import Permutation Sorted.
Import ListNotations.

#[local] Set Warnings "-inexact-float".
#[local] Open Scope string_scope.
#[local] Open Scope Z_scope.
#[local] Open Scope list_scope.

(** ** Exceptions *)

Inductive exn : Type :=
| ZeroDivisionError
| KeyError (label : string)
| ValueError (label : string)
| EmptyDataError
| ParserError.

Inductive result (A : Type) : Type :=
| Ok (a : A)
| Raise (e : exn).

Arguments Ok {A} a.
Arguments Raise {A} e.

Definition bind {A B : Type} (c : result A) (k : A -> result B) : result B :=
  match c with
  | Ok a => k a
  | Raise e => Raise e
  end.

Notation "x <- c ;; k" := (bind c (fun x => k))
  (at level 61, c at next level, right associativity).

(** ** Python and NumPy builtins used by the script *)

Module Py.

(** [n / d] rounded to the nearest integer, ties to the even one ([0 < d]). *)
Definition div_half_even (n d : Z) : Z :=
  let q := n / d in
  match 2 * (n mod d) ?= d with
  | Lt => q
  | Gt => q + 1
  | Eq => if Z.even q then q else q + 1
  end.

Definition float_of_Z (z : Z) : float :=
  if z <? 0 then PrimFloat.opp (PrimFloat.of_uint63 (Uint63.of_Z (- z)))
  else PrimFloat.of_uint63 (Uint63.of_Z z).

(** [a / b] on Python floats: [float_div] raises on a zero divisor (of
    either sign) and otherwise returns the IEEE quotient. *)
Definition truediv (a b : float) : result float :=
  if (b =? 0)%float then Raise ZeroDivisionError else Ok (a / b)%float.

(** [round(x, ndigits)] on a Python float, for [0 <= ndigits <= 22]:
    CPython prints the exact value of [x] with [ndigits] decimals, correctly
    rounded (ties to even), and reads the decimal back.  With [k] the
    rounded integer of [|x| * 10^ndigits], the decimal read back is the
    correctly rounded quotient [k / 10^ndigits]; when [k] exceeds 2^53 the
    decimal is within half an ulp of [x], which is then returned.  Zeros,
    infinities and NaN round to themselves. *)
Definition round (x : float) (ndigits : Z) : float :=
  match Prim2SF x with
  | S754_finite s m e =>
      let p := 10 ^ ndigits in
      let k := if 0 <=? e then Z.pos m * 2 ^ e * p
               else div_half_even (Z.pos m * p) (2 ^ (- e)) in
      if 2 ^ 53 <=? k then x
      else
        let r := (float_of_Z k / float_of_Z p)%float in
        if s then PrimFloat.opp r else r
  | _ => x
  end.

(** [numpy.rint]: the nearest integer, ties to even, sign kept. *)
Definition rint (x : float) : float :=
  match Prim2SF x with
  | S754_finite s m e =>
      if 0 <=? e then x
      else
        let r := float_of_Z (div_half_even (Z.pos m) (2 ^ (- e))) in
        if s then PrimFloat.opp r else r
  | _ => x
  end.

(** [round(x, ndigits)] on a NumPy float64 scalar ([0 < ndigits]): the
    scalar's [__round__] goes through [numpy.round], which multiplies by
    [10^ndigits], applies [rint] and divides again. *)
Definition np_round (x : float) (ndigits : Z) : float :=
  let f := float_of_Z (10 ^ ndigits) in
  (rint (x * f) / f)%float.

(** [str.isspace] on the ASCII range: TAB..CR, FS..US and the space. *)
Definition isspace (c : ascii) : bool :=
  let n := N_of_ascii c in
  (((9 <=? n) && (n <=? 13)) || ((28 <=? n) && (n <=? 32)))%N.

Fixpoint lstrip (s : string) : string :=
  match s with
  | EmptyString => EmptyString
  | String c s' => if isspace c then lstrip s' else s
  end.

Fixpoint rstrip (s : string) : string :=
  match s with
  | EmptyString => EmptyString
  | String c s' =>
      match rstrip s' with
      | EmptyString => if isspace c then EmptyString else String c EmptyString
      | t => String c t
      end
  end.

(** [s.strip()] on a text of ASCII characters.  Strings are byte strings
    here: the whitespace characters outside ASCII (which [str.strip] also
    removes) are left in place, so what is stated of a stripped note is
    stated of ASCII notes. *)
Definition strip (s : string) : string := rstrip (lstrip s).

(** [sep.join(l)]. *)
Definition join (sep : string) (l : list string) : string := String.concat sep l.

End Py.

(** ** Values and one-row frames *)

(** A numeric cell: a Python/NumPy integer or a float. *)
Inductive number : Type :=
| NInt (z : Z)
| NFloat (f : float).

(** A cell of a data frame: a number, a text, or the missing value NaN. *)
Inductive value : Type :=
| VNum (n : number)
| VStr (s : string)
| VNaN.

(** A one-row [DataFrame] (or the [Series] of its row): the columns in
    order, each with the value of the row. *)
Definition Row (A : Type) : Type := list (string * A).

Module Frame.

Section Ops.
Context {A : Type}.

(** [df.columns] *)
Definition labels (df : Row A) : list string := map fst df.

(** [col in df.columns] *)
Definition has_col (col : string) (df : Row A) : bool :=
  existsb (String.eqb col) (labels df).

(** The value under the first column called [col]. *)
Definition get (col : string) (df : Row A) : option A :=
  option_map snd (find (fun kv => String.eqb (fst kv) col) df).

(** [df[col] = v]: overwrites the column(s) of that name, or appends a new
    last column. *)
Definition setitem (col : string) (v : A) (df : Row A) : Row A :=
  if has_col col df
  then map (fun kv => if String.eqb (fst kv) col then (fst kv, v) else kv) df
  else df ++ [(col, v)].

(** [df[names]] for a list of labels: the columns called [names], in the
    order of [names] (every column of that name, when a name is repeated in
    the frame); [KeyError] on a name that is no column. *)
Fixpoint getitem (names : list string) (df : Row A) : result (Row A) :=
  match names with
  | [] => Ok []
  | n :: names' =>
      match filter (fun kv => String.eqb (fst kv) n) df with
      | [] => Raise (KeyError n)
      | hits => rest <- getitem names' df ;; Ok (hits ++ rest)
      end
  end.

(** [df.insert(0, col, v)]: a new first column; [ValueError] when the frame
    already has a column of that name. *)
Definition insert_first (col : string) (v : A) (df : Row A) : result (Row A) :=
  if has_col col df then Raise (ValueError col) else Ok ((col, v) :: df).

End Ops.

End Frame.

(** ** The form (sidebar inputs, lines 33-51) *)

Record PatientInput : Type := {
  patient_name : string;
  doctor_note : string;
  age : Z;
  bmi : float;
  physical : Z;
  diet : Z;
  sleep : Z;
  pollution : Z;
  pollen : Z;
  dust : Z;
  fev1 : float;
  fvc : float;
  symptoms : Z;
  smoking : Z;
  pet_allergy : Z;
  family_history : Z;
  history_allergy : Z
}.

Definition slider_int (lo hi x : Z) : bool := (lo <=? x) && (x <=? hi).

Definition slider_float (lo hi x : float) : bool :=
  ((lo <=? x) && (x <=? hi))%float.

Definition selectbox (options : list Z) (x : Z) : bool :=
  existsb (Z.eqb x) options.

(** The values the widgets can return: every slider stays within its
    bounds, every select box returns one of its options. *)
Definition form_accepts (p : PatientInput) : bool :=
  slider_int 0 100 (age p)
  && slider_float 10.0 50.0 (bmi p)
  && slider_int 0 10 (physical p)
  && slider_int 0 10 (diet p)
  && slider_int 0 10 (sleep p)
  && slider_int 0 10 (pollution p)
  && slider_int 0 10 (pollen p)
  && slider_int 0 10 (dust p)
  && slider_float 0.5 5.0 (fev1 p)
  && slider_float 0.5 6.0 (fvc p)
  && slider_int 0 6 (symptoms p)
  && selectbox [0; 1] (smoking p)
  && selectbox [0; 1] (pet_allergy p)
  && selectbox [0; 1] (family_history p)
  && selectbox [0; 1] (history_allergy p).

(** ** Feature assembly (lines 53-80) *)

(** Line 53: [round(fev1 / fvc, 3)]. *)
Definition fev1_fvc_ratio (p : PatientInput) : result float :=
  q <- Py.truediv (fev1 p) (fvc p) ;;
  Ok (Py.round q 3).

(** Lines 56-73, and line 74: the one-row frame has the keys of the dict as
    its columns, in the order of the dict. *)
Definition input_dict (p : PatientInput) (ratio : float) : Row number :=
  [ ("Age", NInt (age p));
    ("BMI", NFloat (bmi p));
    ("PhysicalActivity", NInt (physical p));
    ("DietQuality", NInt (diet p));
    ("SleepQuality", NInt (sleep p));
    ("PollutionExposure", NInt (pollution p));
    ("PollenExposure", NInt (pollen p));
    ("DustExposure", NInt (dust p));
    ("LungFunctionFEV1", NFloat (fev1 p));
    ("LungFunctionFVC", NFloat (fvc p));
    ("FEV1_FVC_Ratio", NFloat ratio);
    ("SymptomScore", NInt (symptoms p));
    ("Smoking", NInt (smoking p));
    ("PetAllergy", NInt (pet_allergy p));
    ("FamilyHistoryAsthma", NInt (family_history p));
    ("HistoryOfAllergies", NInt (history_allergy p)) ].

(** Lines 77-79: the loop that adds a zero column for every expected
    feature the frame lacks. *)
Definition fill_missing (expected_features : list string) (df : Row number)
  : Row number :=
  fold_left
    (fun df col => if Frame.has_col col df then df
                   else Frame.setitem col (NInt 0) df)
    expected_features df.

(** Lines 53-80: the frame handed to the model. *)
Definition input_data (expected_features : list string) (p : PatientInput)
  : result (Row number) :=
  ratio <- fev1_fvc_ratio p ;;
  Frame.getitem expected_features
    (fill_missing expected_features (input_dict p ratio)).

(** The value the aligned frame is to hold under a declared feature: the
    collected one, or 0 when the form collects no such column. *)
Definition declared_value (collected : Row number) (col : string) : number :=
  match Frame.get col collected with
  | Some v => v
  | None => NInt 0
  end.

(** ** Risk narration (lines 84-112) *)

(** Line 86: [prob] is a NumPy float64, so [round] is NumPy's. *)
Definition risk_percent (prob : float) : float :=
  Py.np_round (prob * 100)%float 2.

(** Line 87 *)
Definition label (prediction : Z) : string :=
  if prediction =? 1 then "Asthma Detected" else "No Asthma".

(** Line 90 *)
Definition risk_level (risk_percent : float) : string :=
  if (risk_percent <? 30)%float then "🟢 Low Risk"
  else if (risk_percent <? 70)%float then "🟡 Medium Risk"
  else "🔴 High Risk".

(** Line 93 *)
Definition age_group (age : Z) : string :=
  if age <? 13 then "👶 Child"
  else if age <? 60 then "🧑 Adult"
  else "👴 Senior".

(** Lines 96-101 *)
Definition action (risk_percent : float) : string :=
  if (70 <=? risk_percent)%float then "🔔 Refer to pulmonologist urgently."
  else if (40 <=? risk_percent)%float then "🩺 Suggest lung function test."
  else "✅ No immediate action needed.".

(** Lines 104-108 *)
Definition risk_factors : list string :=
  [ "PetAllergy"; "PollenExposure"; "DustExposure";
    "PollutionExposure"; "Smoking"; "SymptomScore";
    "HistoryOfAllergies"; "FamilyHistoryAsthma" ].

(** Line 109 *)
Definition available_factors (input_data : Row number) : list string :=
  filter (fun f => Frame.has_col f input_data) risk_factors.

Definition to_float (n : number) : float :=
  match n with
  | NInt z => Py.float_of_Z z
  | NFloat f => f
  end.

(** [a < b] on the cells of a numeric Series: integers of an int64 Series
    are compared as integers, and a Series that holds a float is float64. *)
Definition num_ltb (a b : number) : bool :=
  match a, b with
  | NInt x, NInt y => x <? y
  | _, _ => (to_float a <? to_float b)%float
  end.

(** [sort_values] leaves the sort to NumPy, with the default
    [kind='quicksort'].  That sort is not stable, and which of several
    equal values comes first depends on the NumPy build and the processor;
    so the sort is a parameter [quicksort] of the definitions below: a
    function that puts the entries of a Series in ascending order of
    value, of which only [sorts_ascending] is assumed. *)

(** A Series entry for an integer value. *)
Definition int_entry (kv : string * Z) : string * number :=
  (fst kv, NInt (snd kv)).

(** What NumPy guarantees of a sort, of any kind, on an integer Series
    (line 110 builds no other): the entries come back rearranged, in
    ascending order of value. *)
Definition sorts_ascending (quicksort : Row number -> Row number) : Prop :=
  forall l : list (string * Z),
    exists l',
      quicksort (map int_entry l) = map int_entry l' /\
      Permutation l' l /\
      StronglySorted (fun a b => snd a <= snd b) l'.

(** [s.sort_values(ascending=False)]: pandas reverses the values, has
    NumPy sort them in ascending order, and reverses the outcome. *)
Definition sort_values_descending (quicksort : Row number -> Row number)
  (s : Row number) : Row number :=
  rev (quicksort (rev s)).

(** Lines 109-111 *)
Definition top_risks (quicksort : Row number -> Row number)
  (input_data : Row number) : result (list string) :=
  input_risk_vals <- Frame.getitem (available_factors input_data) input_data ;;
  Ok (Frame.labels (firstn 3 (sort_values_descending quicksort input_risk_vals))).

(** Line 112 *)
Definition top_risk_str (quicksort : Row number -> Row number)
  (input_data : Row number) : result string :=
  top_risks <- top_risks quicksort input_data ;;
  Ok (Py.join ", " top_risks).

(** One sort that meets the guarantee, for the examples: the stable
    insertion sort (what [kind='stable'] would give).  One step of it: the
    new entry moves left past the entries that are strictly greater, and
    stops behind the others. *)
Fixpoint insort (x : string * number) (sorted : Row number) : Row number :=
  match sorted with
  | [] => [x]
  | y :: ys => if num_ltb (snd x) (snd y) then x :: sorted else y :: insort x ys
  end.

(** The entries in ascending order of value, inserted from left to right. *)
Definition sort_ascending (s : Row number) : Row number :=
  fold_left (fun sorted x => insort x sorted) s [].

(** *** The ranking in the words of the specification *)

(** The eight candidate fields, in the order of [risk_factors], each with
    the raw value of the form. *)
Definition risk_values (p : PatientInput) : list (string * Z) :=
  [ ("PetAllergy", pet_allergy p); ("PollenExposure", pollen p);
    ("DustExposure", dust p); ("PollutionExposure", pollution p);
    ("Smoking", smoking p); ("SymptomScore", symptoms p);
    ("HistoryOfAllergies", history_allergy p);
    ("FamilyHistoryAsthma", family_history p) ].

(** [col] is one of the model's declared features. *)
Definition declares (expected_features : list string) (col : string) : bool :=
  existsb (String.eqb col) expected_features.

(** The candidates the model declares, with their raw values. *)
Definition declared_risk_values (expected_features : list string)
  (p : PatientInput) : list (string * Z) :=
  filter (fun kv => declares expected_features (fst kv)) (risk_values p).

(** The place of a field in a list of fields (its length if absent). *)
Fixpoint position (f : string) (fields : list string) : nat :=
  match fields with
  | [] => O
  | g :: fields' => if String.eqb g f then O else S (position f fields')
  end.

(** [x] is ranked before [y]: its value is higher, or the values are equal
    and its field comes first in the candidate list. *)
Definition outranks (x y : string * Z) : Prop :=
  snd y < snd x \/
  (snd x = snd y /\
   (position (fst x) risk_factors < position (fst y) risk_factors)%nat).

(** The order a stable ascending sort leaves: ascending by value and,
    among equal values, in the order [Q] in which the fields were
    inserted. *)
Definition inserted_before (Q : string -> string -> Prop)
  (a b : string * Z) : Prop := Q (fst a) (fst b).

Definition stable_le (Q : string -> string -> Prop) (a b : string * Z) : Prop :=
  snd a < snd b \/ (snd a = snd b /\ inserted_before Q a b).

(** [x] is ranked no lower than [y] by value alone. *)
Definition not_below (x y : string * Z) : Prop := snd y <= snd x.

(** The claim read literally: the three best of all eight candidates. *)
Definition top_of_all_candidates (quicksort : Row number -> Row number)
  (p : PatientInput) : list string :=
  Frame.labels
    (firstn 3 (sort_values_descending quicksort (map int_entry (risk_values p)))).

(** ** The record store: data frames, the CSV file and the spreadsheet *)

(** The text of a cell of a written file: the numeral printed for a
    number, or a text.  A numeral is read back as the number it was printed
    for when that is an int64 integer or a short decimal ([int64] and
    [short_decimal] below); the theorems that read a written file back ask
    for such numbers. *)
Inductive cell : Type :=
| CNum (n : number)
| CText (s : string).

Record DataFrame : Type := {
  columns : list string;
  rows : list (list value)
}.

Record Csv : Type := {
  header : list string;
  body : list (list cell)
}.

(** A cell written to a worksheet, with its coordinates. *)
Record ExcelCell : Type := {
  xl_row : nat;
  xl_col : nat;
  xl_value : cell
}.

Module Pd.

(** [pd.DataFrame()] *)
Definition empty_frame : DataFrame := {| columns := []; rows := [] |}.

(** [df.empty]: an axis of length 0. *)
Definition empty (df : DataFrame) : bool :=
  match columns df, rows df with
  | [], _ => true
  | _, [] => true
  | _, _ => false
  end.

(** The values of a row under the labels [from], laid out under the
    labels [to]; NaN where [from] has no such label. *)
Definition reindex (from : list string) (vals : list value) (to : list string)
  : list value :=
  map (fun c => match Frame.get c (combine from vals) with
                | Some v => v
                | None => VNaN
                end) to.

(** [pd.concat([df, record], ignore_index=True)] for a one-row [record]:
    the columns of [df], then those only [record] has; the rows of [df],
    then the row of [record].  (For frames without repeated column labels
    whose common columns hold values of one kind: the promotion of an
    integer column that receives a float or a NaN is not represented, so
    that nothing is stated of the stored cells of such a column.) *)
Definition concat (df : DataFrame) (record : Row value) : DataFrame :=
  let cols :=
    columns df ++
    filter (fun c => negb (existsb (String.eqb c) (columns df)))
           (Frame.labels record) in
  {| columns := cols;
     rows := map (fun r => reindex (columns df) r cols) (rows df)
             ++ [reindex (Frame.labels record) (map snd record) cols] |}.

(** [df[names]]: the named columns of every row; [KeyError] on a name that
    is no column. *)
Definition getitem (names : list string) (df : DataFrame) : result DataFrame :=
  match find (fun n => negb (existsb (String.eqb n) (columns df))) names with
  | Some n => Raise (KeyError n)
  | None =>
      Ok {| columns := names;
            rows := map (fun r => reindex (columns df) r names) (rows df) |}
  end.

(** What [to_csv] and [to_excel] print for a value: NaN is printed as the
    empty text. *)
Definition write_cell (v : value) : cell :=
  match v with
  | VNum n => CNum n
  | VStr s => CText s
  | VNaN => CText ""
  end.

(** [df.to_csv(path, index=False)]: the header line, then a line per row.
    The file is kept as the table of its fields; the quoting of a field
    that holds a comma, a quote or a line feed is not represented, and a
    field is taken to hold no carriage return (which the writer would leave
    unquoted: the theorems ask for texts without control characters). *)
Definition to_csv (df : DataFrame) : Csv :=
  {| header := columns df; body := map (map write_cell) (rows df) |}.

(** The texts [read_csv] takes for a missing value by default. *)
Definition na_values : list string :=
  [ ""; "#N/A"; "#N/A N/A"; "#NA"; "-1.#IND"; "-1.#QNAN"; "-NaN"; "-nan";
    "1.#IND"; "1.#QNAN"; "<NA>"; "N/A"; "NA"; "NULL"; "NaN"; "None";
    "n/a"; "nan"; "null" ].

Definition is_na (s : string) : bool := existsb (String.eqb s) na_values.

Definition read_cell (c : cell) : value :=
  match c with
  | CNum n => VNum n
  | CText s => if is_na s then VNaN else VStr s
  end.

(** A line of the file under a header of [width] labels: missing fields
    are NaN; a line with too many fields is an error here (pandas reads a
    file whose lines all have one field more by taking the first as the
    index: the theorems read files whose lines have the width of the
    header). *)
Definition read_row (width : nat) (line : list cell) : result (list value) :=
  if (width <? List.length line)%nat then Raise ParserError
  else Ok (map read_cell line ++ repeat VNaN (width - List.length line)).

Fixpoint read_rows (width : nat) (lines : list (list cell))
  : result (list (list value)) :=
  match lines with
  | [] => Ok []
  | line :: lines' =>
      r <- read_row width line ;;
      rs <- read_rows width lines' ;;
      Ok (r :: rs)
  end.

(** [pd.read_csv(path)] on a file whose header labels are distinct and
    non-empty and whose columns hold either numerals only or texts that
    are no numerals: a numeral is read as its number, a missing-value
    marker as NaN, any other text as itself.  A file without a header line
    is an error. *)
Definition read_csv (f : Csv) : result DataFrame :=
  match header f with
  | [] => Raise EmptyDataError
  | _ =>
      rs <- read_rows (List.length (header f)) (body f) ;;
      Ok {| columns := header f; rows := rs |}
  end.

Definition row_cells (r : nat) (cs : list cell) : list ExcelCell :=
  map (fun jc => {| xl_row := r; xl_col := fst jc; xl_value := snd jc |})
      (combine (seq 0 (List.length cs)) cs).

(** [df.to_excel(path, index=False)]: the cells handed to the worksheet,
    one per column label in row 0 and one per value in the rows below. *)
Definition to_excel (df : DataFrame) : list ExcelCell :=
  row_cells 0 (map CText (columns df))
  ++ flat_map (fun ir => row_cells (S (fst ir)) (map write_cell (snd ir)))
              (combine (seq 0 (List.length (rows df))) (rows df)).

End Pd.

(** The session and the files it reads and writes. *)
Record World : Type := {
  patient_records : DataFrame;       (* st.session_state.patient_records *)
  record_file : option Csv;          (* asthma_patient_records.csv *)
  export_file : option (list ExcelCell)  (* asthma_predictions.xlsx *)
}.

(** Lines 27-30 *)
Definition load (w : World) : result World :=
  df <- match record_file w with
        | Some f => Pd.read_csv f
        | None => Ok Pd.empty_frame
        end ;;
  Ok {| patient_records := df;
        record_file := record_file w;
        export_file := export_file w |}.

(** Lines 136-139 *)
Definition append (record : Row value) (w : World) : World :=
  let df := Pd.concat (patient_records w) record in
  {| patient_records := df;
     record_file := Some (Pd.to_csv df);
     export_file := export_file w |}.

(** Lines 145-148: the columns of the history table. *)
Definition history_columns : list string :=
  [ "PatientName"; "Prediction"; "RiskPercent"; "RiskLevel";
    "AgeGroup"; "TopRisks"; "Action"; "DoctorNote" ].

(** Lines 142-150: the table shown, if any. *)
Definition list_records (w : World) : result (option DataFrame) :=
  if negb (Pd.empty (patient_records w))
  then df <- Pd.getitem history_columns (patient_records w) ;; Ok (Some df)
  else Ok None.

(** Lines 153-155 *)
Definition exportAll (w : World) : World :=
  {| patient_records := patient_records w;
     record_file := record_file w;
     export_file := Some (Pd.to_excel (patient_records w)) |}.

(** Lines 158-161 *)
Definition clear (w : World) : World :=
  {| patient_records := Pd.empty_frame;
     record_file := None;
     export_file := export_file w |}.

(** The buttons; at most one is pressed in a run of the script. *)
Inductive button : Type := Predict | Export | Clear.

Record Interaction : Type := {
  form : PatientInput;
  pressed : option button;
  show_history : bool
}.

(** The columns the script adds to the feature columns of a record. *)
Definition narrative_columns : list string :=
  [ "Prediction"; "RiskPercent"; "RiskLevel";
    "AgeGroup"; "TopRisks"; "Action"; "DoctorNote" ].

(** The button presses of a session that left a row in the record
    file: the assessments since the last clearing. *)
Definition step_rows (n : nat) (ui : Interaction) : nat :=
  match pressed ui with
  | Some Predict => S n
  | Some Clear => O
  | _ => n
  end.

Definition rows_kept (uis : list Interaction) : nat := fold_left step_rows uis O.

(** A record file of [n] lines under the header [cols]; no file for no
    line. *)
Definition file_shape (cols : list string) (n : nat) (file : option Csv) : Prop :=
  match file with
  | None => n = O
  | Some f =>
      header f = cols /\ List.length (body f) = n /\ n <> O /\
      Forall (fun line => List.length line = List.length cols) (body f)
  end.

(** The store in the session: without columns, or with the columns
    [cols] and at least one row. *)
Definition store_shape (cols : list string) (df : DataFrame) : Prop :=
  df = Pd.empty_frame \/ (columns df = cols /\ rows df <> []).

(** The cells of the record file under the column [col], line by line. *)
Definition file_column (col : string) (file : option Csv) : list (option cell) :=
  match file with
  | None => []
  | Some f => map (fun line => nth_error line (position col (header f))) (body f)
  end.

(** *** Texts the record file gives back unchanged *)

Definition is_letter (c : ascii) : bool :=
  let n := N_of_ascii c in
  (((65 <=? n) && (n <=? 90)) || ((97 <=? n) && (n <=? 122)))%N.

Definition lower (c : ascii) : ascii :=
  let n := N_of_ascii c in
  if ((65 <=? n) && (n <=? 90))%N then ascii_of_N (n + 32) else c.

Fixpoint lowercase (s : string) : string :=
  match s with
  | EmptyString => EmptyString
  | String c s' => String (lower c) (lowercase s')
  end.

(** Words that [read_csv] reads as a missing value, a float or a boolean,
    in lower case. *)
Definition reserved_words : list string :=
  [ "na"; "n/a"; "nan"; "null"; "none"; "inf"; "infinity"; "true"; "false" ].

(** A character that is no control character (U+0000..U+001F, U+007F). *)
Definition is_printable (c : ascii) : bool :=
  let n := N_of_ascii c in (32 <=? n)%N && negb (n =? 127)%N.

(** A text without control characters.  [to_csv] leaves a carriage return
    unquoted, and [read_csv] reads it as the end of a line; a text without
    control characters is written and read back as one field of one line. *)
Fixpoint printable (s : string) : bool :=
  match s with
  | EmptyString => true
  | String c s' => is_printable c && printable s'
  end.

(** A text that starts with a letter or a non-ASCII character, is none of
    the reserved words in any capitalisation, and holds no control
    character: no numeral, no boolean, no missing-value marker, and one
    field of one line of the file. *)
Definition ordinary_text (s : string) : bool :=
  match s with
  | EmptyString => false
  | String c _ =>
      (is_letter c || (128 <=? N_of_ascii c)%N)
      && negb (existsb (String.eqb (lowercase s)) reserved_words)
      && printable s
  end.

Definition storable_text (s : string) : bool :=
  match s with
  | EmptyString => true
  | _ => ordinary_text s
  end.

(** A value of a record whose text, if any, is empty or ordinary. *)
Definition storable (v : value) : bool :=
  match v with
  | VStr s => storable_text s
  | _ => true
  end.

(** A value as it comes back from the record file: the empty text comes
    back as the missing value. *)
Definition blank_as_missing (v : value) : value :=
  match v with
  | VStr EmptyString => VNaN
  | _ => v
  end.

(** The line of the record file for a record. *)
Definition written_row (record : Row value) : list cell :=
  map Pd.write_cell (map snd record).

(** A cell of the record file after the store was loaded and written
    again. *)
Definition rewritten (c : cell) : cell := Pd.write_cell (Pd.read_cell c).

(** The record file that holds [records] under the header [cols]; there
    is no file before the first record. *)
Definition file_of (cols : list string) (records : list (Row value))
  : option Csv :=
  match records with
  | [] => None
  | _ => Some {| header := cols; body := map written_row records |}
  end.

(** The records whose columns are [cols] and whose texts are storable. *)
Definition kept_as_written (cols : list string) (record : Row value) : Prop :=
  Frame.labels record = cols /\ forallb storable (map snd record) = true.

(** A text of ASCII characters only: on these, [Py.strip] is [str.strip]. *)
Definition is_ascii (s : string) : bool :=
  forallb (fun c => (N_of_ascii c <? 128)%N) (list_ascii_of_string s).

(** Column names that the header line of the file gives back: not empty
    (which [read_csv] renames), of ASCII characters (a byte order mark
    before the first name is dropped by [read_csv]) and without control
    characters. *)
Definition column_names (l : list string) : bool :=
  forallb (fun c => negb (String.eqb c "") && is_ascii c && printable c) l.

(** An integer of an int64 column. *)
Definition int64 (z : Z) : bool := (- 2 ^ 63 <=? z) && (z <? 2 ^ 63).

(** A float with at most six decimals, below 10^9 in magnitude: it is
    printed with at most 15 significant digits, which [read_csv] reads
    back exactly. *)
Definition short_decimal (f : float) : bool :=
  ((Py.round f 6 =? f) && (PrimFloat.abs f <? 1e9))%float.

(** A form whose floats, the ratio included, are short decimals. *)
Definition short_floats (p : PatientInput) : bool :=
  short_decimal (bmi p) && short_decimal (fev1 p) && short_decimal (fvc p)
  && short_decimal (Py.round (fev1 p / fvc p)%float 3).

(** A form whose texts keep the line of the record whole: the name and the
    stripped note hold no control character. *)
Definition keeps_lines (p : PatientInput) : bool :=
  printable (patient_name p) && printable (Py.strip (doctor_note p)).

(** No label occurs twice. *)
Fixpoint distinct (l : list string) : bool :=
  match l with
  | [] => true
  | x :: l' => negb (existsb (String.eqb x) l') && distinct l'
  end.

(** One assessment added to the store: the script loads the store
    (lines 27-30) before it appends (lines 136-139). *)
Definition append_run (record : Row value) (w : World) : result World :=
  w <- load w ;; Ok (append record w).

Fixpoint append_all (records : list (Row value)) (w : World) : result World :=
  match records with
  | [] => Ok w
  | record :: records' => w' <- append_run record w ;; append_all records' w'
  end.

(** The worksheet has a cell in its first row. *)
Definition has_header_row (sheet : list ExcelCell) : bool :=
  existsb (fun c => (xl_row c =? 0)%nat) sheet.

(** The feature names are distinct, not empty, and none is the name of a
    column the script adds to a record. *)
Definition well_formed_features (expected_features : list string) : Prop :=
  NoDup expected_features /\
  (forall col, In col ("" :: "PatientName" :: narrative_columns) ->
               ~ In col expected_features).

Section Dashboard.

(** NumPy's sort of the default kind, as installed. *)
Variable quicksort : Row number -> Row number.

(** The model artifact: its declared features, the probability of the
    positive class and the predicted class of a one-row frame. *)
Variable expected_features : list string.
Variable predict_proba : Row number -> float.
Variable predict : Row number -> Z.

(** Lines 84-134: the record of one assessment. *)
Definition assess (p : PatientInput) (input_data : Row number)
  : result (Row value) :=
  let prob := predict_proba input_data in
  let prediction := predict input_data in
  let risk_percent := risk_percent prob in
  let label := label prediction in
  let risk_level := risk_level risk_percent in
  let age_group := age_group (age p) in
  let action := action risk_percent in
  top_risk_str <- top_risk_str quicksort input_data ;;
  let record := map (fun kv => (fst kv, VNum (snd kv))) input_data in
  record <- Frame.insert_first "PatientName" (VStr (patient_name p)) record ;;
  let record := Frame.setitem "Prediction" (VStr label) record in
  let record := Frame.setitem "RiskPercent" (VNum (NFloat risk_percent)) record in
  let record := Frame.setitem "RiskLevel" (VStr risk_level) record in
  let record := Frame.setitem "AgeGroup" (VStr age_group) record in
  let record := Frame.setitem "TopRisks" (VStr top_risk_str) record in
  let record := Frame.setitem "Action" (VStr action) record in
  let record := Frame.setitem "DoctorNote" (VStr (Py.strip (doctor_note p))) record in
  Ok record.

(** Lines 53-134: from the form to the record. *)
Definition assessment (p : PatientInput) : result (Row value) :=
  input_data <- input_data expected_features p ;;
  assess p input_data.

(** The columns of a record when no feature is named like a column the
    script adds. *)
Definition record_columns : list string :=
  "PatientName" :: expected_features ++ narrative_columns.

(** One run of the script, from top to bottom. *)
Definition run (ui : Interaction) (w : World) : result World :=
  w <- load w ;;
  input_data <- input_data expected_features (form ui) ;;
  w <- match pressed ui with
       | Some Predict =>
           record <- assess (form ui) input_data ;; Ok (append record w)
       | _ => Ok w
       end ;;
  _ <- (if show_history ui then list_records w else Ok None) ;;
  let w := match pressed ui with Some Export => exportAll w | _ => w end in
  let w := match pressed ui with Some Clear => clear w | _ => w end in
  Ok w.

(** The script run once per interaction, in order; stops at the first
    run that raises. *)
Fixpoint session (uis : list Interaction) (w : World) : result World :=
  match uis with
  | [] => Ok w
  | ui :: uis' => w' <- run ui w ;; session uis' w'
  end.

End Dashboard.

(** *** The schema of the records *)

(** What a column of the store holds: integers, floats or texts. *)
Inductive kind : Type := KInt | KFloat | KText.

(** The kind of a value that the record file gives back as written: an
    integer of int64, a short decimal, a text that is ordinary or empty.
    The missing value has none. *)
Definition kind_of (v : value) : option kind :=
  match v with
  | VNum (NInt z) => if int64 z then Some KInt else None
  | VNum (NFloat f) => if short_decimal f then Some KFloat else None
  | VStr s => if storable_text s then Some KText else None
  | VNaN => None
  end.

(** A record of the schema: it has the columns of the schema, in order,
    each with a value of the kind of the column. *)
Definition conforms (schema : list (string * kind)) (record : Row value) : Prop :=
  map (fun kv => (fst kv, kind_of (snd kv))) record =
  map (fun ck => (fst ck, Some (snd ck))) schema.

(** The kind of a feature column: the four float sliders and the ratio
    are floats, every other collected column and the zero of a column that
    is not collected are integers. *)
Definition collected_kind (col : string) : kind :=
  if existsb (String.eqb col)
       ["BMI"; "LungFunctionFEV1"; "LungFunctionFVC"; "FEV1_FVC_Ratio"]
  then KFloat else KInt.

(** The schema of the records of a model. *)
Definition record_schema (expected_features : list string)
  : list (string * kind) :=
  ("PatientName", KText)
  :: map (fun col => (col, collected_kind col)) expected_features
  ++ [ ("Prediction", KText); ("RiskPercent", KFloat); ("RiskLevel", KText);
       ("AgeGroup", KText); ("TopRisks", KText); ("Action", KText);
       ("DoctorNote", KText) ].

(** *** The store, the worksheet and the note, as the statements read them *)

(** The store in the session holds [n] rows under the columns [cols]; it
    is [pd.DataFrame()] for no row. *)
Definition store_rows (cols : list string) (n : nat) (df : DataFrame) : Prop :=
  match n with
  | O => df = Pd.empty_frame
  | S _ =>
      columns df = cols /\ List.length (rows df) = n /\
      Forall (fun r => List.length r = List.length cols) (rows df)
  end.

(** The frame lines 27-30 leave in the session for a record file whose
    lines have one cell per header label; [pd.DataFrame()] for no file. *)
Definition loaded (file : option Csv) : DataFrame :=
  match file with
  | None => Pd.empty_frame
  | Some f => {| columns := header f; rows := map (map Pd.read_cell) (body f) |}
  end.

(** The cell of a worksheet at row [r] and column [c], if one was written. *)
Definition sheet_at (r c : nat) (sheet : list ExcelCell) : option cell :=
  option_map xl_value
    (find (fun x => (xl_row x =? r)%nat && (xl_col x =? c)%nat) sheet).

(** A text of whitespace only (the empty text included). *)
Fixpoint all_space (s : string) : bool :=
  match s with
  | EmptyString => true
  | String c s' => Py.isspace c && all_space s'
  end.

(** A record file of zero bytes. *)
Definition empty_file : Csv := {| header := []; body := [] |}.

(** ** Sample data for the examples *)

(** The form as it is first shown: every widget at its default. *)
Definition default_input : PatientInput :=
  {| patient_name := "John Doe"; doctor_note := "";
     age := 30; bmi := 22.5; physical := 5; diet := 5; sleep := 6;
     pollution := 5; pollen := 5; dust := 5; fev1 := 3.2; fvc := 4.0;
     symptoms := 2; smoking := 0; pet_allergy := 0; family_history := 0;
     history_allergy := 0 |}.

(** A model that declares a column the form does not collect ("Gender"),
    leaves most collected ones out, and answers with a fixed probability.
    The three candidates it declares have distinct values on the forms
    below, so that no tie decides the top risks of the examples. *)
Definition sample_features : list string :=
  [ "Age"; "BMI"; "Smoking"; "DustExposure"; "Gender"; "SymptomScore" ].

Definition sample_proba (_ : Row number) : float := 0.42%float.

(** The sort of the examples: the stable one. *)
Definition sample_sort : Row number -> Row number := sort_ascending.

Definition sample_predict (_ : Row number) : Z := 0.

(** No record file, nothing in the session, nothing exported. *)
Definition fresh_world : World :=
  {| patient_records := Pd.empty_frame; record_file := None; export_file := None |}.

(** The default form with a name and a note typed in. *)
Definition noted_input : PatientInput :=
  {| patient_name := "Jane Roe"; doctor_note := " wheezing at night ";
     age := 30; bmi := 22.5; physical := 5; diet := 5; sleep := 6;
     pollution := 5; pollen := 5; dust := 5; fev1 := 3.2; fvc := 4.0;
     symptoms := 2; smoking := 0; pet_allergy := 0; family_history := 0;
     history_allergy := 0 |}.

(** The default form with the note "N/A". *)
Definition na_note_input : PatientInput :=
  {| patient_name := "John Doe"; doctor_note := "N/A";
     age := 30; bmi := 22.5; physical := 5; diet := 5; sleep := 6;
     pollution := 5; pollen := 5; dust := 5; fev1 := 3.2; fvc := 4.0;
     symptoms := 2; smoking := 0; pet_allergy := 0; family_history := 0;
     history_allergy := 0 |}.

(** A form on which the three highest candidate values are distinct and
    above all others, among all eight candidates and among those the
    sample model declares: no tie decides the top risks. *)
Definition graded_input : PatientInput :=
  {| patient_name := "Ann Lee"; doctor_note := "follow up";
     age := 45; bmi := 27.5; physical := 3; diet := 4; sleep := 6;
     pollution := 5; pollen := 9; dust := 7; fev1 := 2.5; fvc := 4.0;
     symptoms := 3; smoking := 0; pet_allergy := 1; family_history := 0;
     history_allergy := 0 |}.

(** A button pressed on a form, with the history table shown. *)
Definition press (b : button) (p : PatientInput) : Interaction :=
  {| form := p; pressed := Some b; show_history := true |}.

Definition record_of (p : PatientInput) : Row value :=
  match assessment sample_sort sample_features sample_proba sample_predict p with
  | Ok record => record
  | Raise _ => []
  end.

(** The records of the sample model for the default form, whose note is
    blank, and for the form with a note. *)
Definition sample_record : Row value := record_of default_input.

Definition noted_record : Row value := record_of noted_input.

(** A world whose record file holds the first sample record. *)
Definition stored_world : World :=
  {| patient_records := Pd.empty_frame;
     record_file := file_of (record_columns sample_features) [sample_record];
     export_file := None |}.

(** A second model, which declares other features than the first. *)
Definition other_features : list string := [ "Age"; "PollenExposure"; "Smoking" ].

(** A model with a feature called like a column the script adds at the
    end of a record, and one with a feature called like the first column. *)
Definition overlapping_features : list string := [ "Age"; "Prediction" ].

Definition clashing_features : list string := [ "Age"; "PatientName" ].

(** A world whose record file has no byte. *)
Definition unreadable_world : World :=
  {| patient_records := Pd.empty_frame;
     record_file := Some empty_file;
     export_file := None |}.

(** The world after one assessment and an export. *)
Definition exported_world : World :=
  match session sample_sort sample_features sample_proba sample_predict
          [press Predict default_input; press Export default_input] fresh_world
  with
  | Ok w => w
  | Raise _ => fresh_world
  end.

(** A world without files whose session still holds a row. *)
Definition stale_world : World :=
  {| patient_records :=
       {| columns := ["PatientName"]; rows := [[VStr "John Doe"]] |};
     record_file := None;
     export_file := None |}.

(** * Properties *)

(** ** One-row frames *)

Section FrameFacts.
Context {A : Type}.
Implicit Types (df : Row A) (col : string).

Lemma has_col_In col df :
  Frame.has_col col df = true <-> In col (Frame.labels df).
Proof.
  unfold Frame.has_col. rewrite existsb_exists. split.
  - intros [x [Hx Heq]]. apply String.eqb_eq in Heq. now subst.
  - intros H. exists col. split; [assumption | apply String.eqb_refl].
Qed.

Lemma has_col_false col df :
  Frame.has_col col df = false <-> ~ In col (Frame.labels df).
Proof.
  rewrite <- has_col_In. destruct (Frame.has_col col df); split; congruence.
Qed.

Lemma get_app col df df' :
  Frame.get col (df ++ df') =
  match Frame.get col df with
  | Some v => Some v
  | None => Frame.get col df'
  end.
Proof.
  unfold Frame.get. induction df as [|[k x] df IH]; simpl; [reflexivity|].
  destruct (String.eqb k col); simpl; [reflexivity | exact IH].
Qed.

Lemma get_None col df :
  Frame.get col df = None <-> ~ In col (Frame.labels df).
Proof.
  unfold Frame.get, Frame.labels.
  induction df as [|[k x] df IH]; simpl.
  - tauto.
  - destruct (String.eqb_spec k col) as [->|Hne]; simpl.
    + split; [discriminate | intros H; exfalso; apply H; now left].
    + rewrite IH. split; [intros H [E|E]; [now apply Hne | now apply H] | tauto].
Qed.

Lemma get_Some_In col df v : Frame.get col df = Some v -> In (col, v) df.
Proof.
  unfold Frame.get. induction df as [|[k x] df IH]; simpl; [discriminate|].
  destruct (String.eqb_spec k col) as [->|Hne]; simpl.
  - intros [= ->]. now left.
  - intros H. right. now apply IH.
Qed.

Lemma filter_label_absent col df :
  ~ In col (Frame.labels df) ->
  filter (fun kv : string * A => String.eqb (fst kv) col) df = [].
Proof.
  induction df as [|[k x] df IH]; simpl; [reflexivity|].
  intros H. destruct (String.eqb_spec k col) as [->|Hne].
  - exfalso. apply H. now left.
  - apply IH. intros E. apply H. now right.
Qed.

(** In a frame without repeated labels, a label selects one column: the
    one [Frame.get] returns. *)
Lemma filter_label_unique col df v :
  NoDup (Frame.labels df) -> Frame.get col df = Some v ->
  filter (fun kv : string * A => String.eqb (fst kv) col) df = [(col, v)].
Proof.
  unfold Frame.get.
  induction df as [|[k x] df IH]; simpl; [discriminate|].
  intros Hnd Hget. inversion Hnd as [|? ? Hnotin Hnd']; subst.
  destruct (String.eqb_spec k col) as [->|Hne]; simpl in *.
  - injection Hget as ->. f_equal. now apply filter_label_absent.
  - now apply IH.
Qed.

Lemma getitem_unique (dflt : A) names df :
  NoDup (Frame.labels df) ->
  (forall n, In n names -> In n (Frame.labels df)) ->
  Frame.getitem names df =
  Ok (map (fun n => (n, match Frame.get n df with Some v => v | None => dflt end))
          names).
Proof.
  intros Hnd. induction names as [|n names IH]; intros Hin; simpl; [reflexivity|].
  destruct (Frame.get n df) as [v|] eqn:Hget.
  - rewrite (filter_label_unique n df v Hnd Hget).
    rewrite IH by (intros m Hm; apply Hin; now right). reflexivity.
  - apply get_None in Hget. exfalso. apply Hget, Hin. now left.
Qed.

Lemma setitem_absent col (v : A) df :
  Frame.has_col col df = false -> Frame.setitem col v df = df ++ [(col, v)].
Proof. unfold Frame.setitem. now intros ->. Qed.

Lemma labels_app df df' :
  Frame.labels (df ++ df') = Frame.labels df ++ Frame.labels df'.
Proof. apply map_app. Qed.

(** [df[names]] raises nothing when every name is a column. *)
Lemma getitem_defined names df :
  (forall n, In n names -> Frame.has_col n df = true) ->
  exists r, Frame.getitem names df = Ok r.
Proof.
  induction names as [|n names IH]; intros Hall; [now exists []|].
  cbn [Frame.getitem].
  destruct (IH (fun m Hm => Hall m (or_intror Hm))) as (rest & ->).
  destruct (filter _ df) as [|hit hits] eqn:Hhits.
  - exfalso. assert (Hn : Frame.has_col n df = true) by (apply Hall; now left).
    apply has_col_In in Hn. unfold Frame.labels in Hn. apply in_map_iff in Hn.
    destruct Hn as ([k u] & <- & Hin).
    assert (Hf : In (k, u) (filter (fun kv : string * A => String.eqb (fst kv) k) df)).
    { apply filter_In. split; [assumption | apply String.eqb_refl]. }
    cbn [fst] in Hhits. rewrite Hhits in Hf. contradiction.
  - eexists. reflexivity.
Qed.

End FrameFacts.

(** ** Feature assembly *)

Lemma fill_missing_labels_NoDup features df :
  NoDup (Frame.labels df) -> NoDup (Frame.labels (fill_missing features df)).
Proof.
  unfold fill_missing. revert df.
  induction features as [|col features IH]; intros df Hnd; simpl; [assumption|].
  apply IH. destruct (Frame.has_col col df) eqn:Hc; [assumption|].
  rewrite setitem_absent, labels_app by assumption. simpl.
  apply has_col_false in Hc.
  apply NoDup_app; [assumption | repeat constructor; intros [] | ].
  intros x Hx [<-|[]]. contradiction.
Qed.

(** After the loop a column is either a collected one, with its collected
    value, or a declared one, holding 0. *)
Lemma fill_missing_get features df col :
  Frame.get col (fill_missing features df) =
  match Frame.get col df with
  | Some v => Some v
  | None => if in_dec string_dec col features then Some (NInt 0) else None
  end.
Proof.
  unfold fill_missing. revert df.
  induction features as [|c features IH]; intros df; simpl.
  - now destruct (Frame.get col df).
  - rewrite IH. destruct (Frame.has_col c df) eqn:Hc.
    + destruct (Frame.get col df) as [v|] eqn:Hget; [reflexivity|].
      destruct (string_dec c col) as [->|Hne].
      * apply get_None in Hget. apply has_col_In in Hc. contradiction.
      * destruct (in_dec string_dec col features); reflexivity.
    + rewrite setitem_absent, get_app by assumption.
      destruct (Frame.get col df) as [v|] eqn:Hget; [reflexivity|].
      unfold Frame.get. simpl.
      destruct (String.eqb_spec c col) as [->|Hne]; simpl.
      * destruct (string_dec col col); [reflexivity | congruence].
      * destruct (string_dec c col); [congruence|].
        destruct (in_dec string_dec col features); reflexivity.
Qed.

Lemma fill_missing_declared features df col :
  In col features -> In col (Frame.labels (fill_missing features df)).
Proof.
  intros Hin.
  destruct (Frame.get col (fill_missing features df)) eqn:Hget.
  - apply get_Some_In in Hget. apply (in_map fst) in Hget. exact Hget.
  - rewrite fill_missing_get in Hget.
    destruct (Frame.get col df); [discriminate|].
    destruct (in_dec string_dec col features); [discriminate | contradiction].
Qed.

Lemma input_dict_labels_NoDup p ratio : NoDup (Frame.labels (input_dict p ratio)).
Proof.
  unfold input_dict, Frame.labels. simpl.
  repeat (constructor; [simpl; intuition discriminate|]). constructor.
Qed.

(** The frame the model receives, computed from the collected columns. *)
Lemma aligned_frame features collected :
  NoDup (Frame.labels collected) ->
  Frame.getitem features (fill_missing features collected) =
  Ok (map (fun col => (col, declared_value collected col)) features).
Proof.
  intros Hnd.
  rewrite (getitem_unique (NInt 0)).
  - f_equal. apply map_ext_in. intros col Hin. f_equal.
    rewrite fill_missing_get. unfold declared_value.
    destruct (Frame.get col collected); [reflexivity|].
    destruct (in_dec string_dec col features); [reflexivity | contradiction].
  - now apply fill_missing_labels_NoDup.
  - intros n Hn. now apply fill_missing_declared.
Qed.

(** ** Floats *)

Lemma float_ge_half_nonzero (x : float) :
  (0.5 <=? x)%float = true -> (x =? 0)%float = false.
Proof.
  rewrite FloatAxioms.leb_spec, FloatAxioms.eqb_spec.
  replace (Prim2SF 0.5) with (S754_finite false 4503599627370496 (-53))
    by (vm_compute; reflexivity).
  replace (Prim2SF 0) with (S754_zero false) by (vm_compute; reflexivity).
  destruct (Prim2SF x) as [s|s| |s m e]; simpl;
    try discriminate; try reflexivity; destruct s; reflexivity.
Qed.

Lemma form_accepts_fvc p :
  form_accepts p = true -> slider_float 0.5 6.0 (fvc p) = true.
Proof.
  unfold form_accepts. intros H.
  repeat (apply andb_prop in H; destruct H as [H ?]). assumption.
Qed.

Lemma truediv_Raise a b e :
  Py.truediv a b = Raise e -> e = ZeroDivisionError /\ (b =? 0)%float = true.
Proof.
  unfold Py.truediv. destruct (b =? 0)%float; [|discriminate].
  intros [= <-]. now split.
Qed.

Lemma ratio_defined p :
  form_accepts p = true ->
  fev1_fvc_ratio p = Ok (Py.round (fev1 p / fvc p)%float 3).
Proof.
  intros H. apply form_accepts_fvc in H. unfold slider_float in H.
  apply andb_prop in H. destruct H as [H _].
  apply float_ge_half_nonzero in H.
  unfold fev1_fvc_ratio, Py.truediv. now rewrite H.
Qed.

(** The frame handed to the model, for an accepted form. *)
Lemma input_data_aligned (expected_features : list string) (p : PatientInput) :
  form_accepts p = true ->
  exists ratio fv,
    fev1_fvc_ratio p = Ok ratio /\
    input_data expected_features p = Ok fv /\
    Frame.labels fv = expected_features /\
    fv = map (fun col => (col, declared_value (input_dict p ratio) col))
             expected_features.
Proof.
  intros Hform.
  exists (Py.round (fev1 p / fvc p)%float 3).
  eexists. split; [now apply ratio_defined|].
  unfold input_data. rewrite ratio_defined by assumption. simpl.
  split; [apply aligned_frame, input_dict_labels_NoDup|].
  split; [|reflexivity].
  unfold Frame.labels. rewrite map_map. simpl. apply map_id.
Qed.

(** C1.  For every input the form accepts, the frame handed to the model
    has exactly the model's declared features as its columns, in the
    declared order: a declared feature the form collects carries the
    collected value, a declared feature it does not collect carries 0, and a
    collected column that is not declared does not appear. *)
Theorem feature_vector_follows_schema
  (expected_features : list string) (p : PatientInput) :
  form_accepts p = true ->
  exists ratio fv,
    fev1_fvc_ratio p = Ok ratio /\
    input_data expected_features p = Ok fv /\
    Frame.labels fv = expected_features /\
    fv = map (fun col => (col, declared_value (input_dict p ratio) col))
             expected_features.
Proof.
  intros Hform.
  pose proof (ratio_defined p Hform) as Hratio.
  exists (Py.round (fev1 p / fvc p)%float 3).
  exists (map (fun col =>
                 (col, declared_value
                         (input_dict p (Py.round (fev1 p / fvc p)%float 3)) col))
              expected_features).
  split; [exact Hratio|]. split.
  - unfold input_data. rewrite Hratio. cbn [bind].
    apply aligned_frame, input_dict_labels_NoDup.
  - split; [|reflexivity].
    unfold Frame.labels. rewrite map_map. cbn [fst]. apply map_id.
Qed.

Lemma feature_vector_follows_schema_witness :
  form_accepts default_input = true /\
  exists ratio fv,
    fev1_fvc_ratio default_input = Ok ratio /\
    input_data sample_features default_input = Ok fv /\
    Frame.labels fv = sample_features /\
    fv = map (fun col => (col, declared_value (input_dict default_input ratio) col))
             sample_features.
Proof.
  split.
  - reflexivity.
  - apply (feature_vector_follows_schema sample_features default_input).
    reflexivity.
Defined.

(** The aligned frame of the sample model: "Gender" is filled with 0 and
    the eleven collected columns the model does not declare are gone. *)
Example input_data_sample :
  input_data sample_features default_input =
  Ok [ ("Age", NInt 30); ("BMI", NFloat 22.5); ("Smoking", NInt 0);
       ("DustExposure", NInt 5); ("Gender", NInt 0);
       ("SymptomScore", NInt 2) ].
Proof. reflexivity. Qed.

(** C8.  [round(fev1 / fvc, 3)] raises only the division fault, and
    exactly when FVC is zero; for an input the form accepts (FVC between 0.5
    and 6.0) the ratio is computed. *)
Theorem ratio_fails_only_on_zero_fvc :
  (forall p e, fev1_fvc_ratio p = Raise e ->
               e = ZeroDivisionError /\ (fvc p =? 0)%float = true) /\
  (forall p, (fvc p =? 0)%float = true ->
             fev1_fvc_ratio p = Raise ZeroDivisionError) /\
  (forall p, form_accepts p = true -> exists r, fev1_fvc_ratio p = Ok r).
Proof.
  split; [|split].
  - intros p e. unfold fev1_fvc_ratio.
    destruct (Py.truediv (fev1 p) (fvc p)) as [q|e'] eqn:Hdiv; simpl.
    + discriminate.
    + intros [= <-]. now apply truediv_Raise in Hdiv.
  - intros p Hz. unfold fev1_fvc_ratio, Py.truediv. now rewrite Hz.
  - intros p Hform. eexists. now apply ratio_defined.
Qed.

Lemma ratio_fails_only_on_zero_fvc_witness :
  form_accepts default_input = true /\
  exists r, fev1_fvc_ratio default_input = Ok r.
Proof.
  split.
  - reflexivity.
  - exact (proj2 (proj2 ratio_fails_only_on_zero_fvc) default_input eq_refl).
Defined.

(** The representative value of the specification: FEV1 = 3.2 and
    FVC = 4.0 give 0.8. *)
Example ratio_of_defaults : fev1_fvc_ratio default_input = Ok 0.8%float.
Proof. reflexivity. Qed.

(** ** Risk tier *)

Lemma SFcompare_swap (a b : spec_float) :
  SFcompare b a = option_map CompOpp (SFcompare a b).
Proof.
  destruct a as [s|s| |s m e], b as [s'|s'| |s' m' e']; simpl;
    try reflexivity; try (destruct s; reflexivity);
    try (destruct s'; reflexivity);
    try (destruct s, s'; reflexivity).
  rewrite (Z.compare_antisym e e'), (ZC4 m' m).
  destruct s, s'; simpl; try reflexivity;
    destruct (e ?= e'); simpl; reflexivity.
Qed.

Lemma float_leb_not_ltb (a b : float) :
  (a <=? b)%float = true -> (b <? a)%float = false.
Proof.
  rewrite FloatAxioms.leb_spec, FloatAxioms.ltb_spec.
  unfold SFleb, SFltb. rewrite (SFcompare_swap (Prim2SF a) (Prim2SF b)).
  destruct (SFcompare (Prim2SF a) (Prim2SF b)) as [[]|]; simpl;
    intros H; try discriminate; reflexivity.
Qed.

Lemma float_below_30_below_70 (r : float) :
  (r <? 30)%float = true -> (r <? 70)%float = true.
Proof.
  rewrite !FloatAxioms.ltb_spec.
  replace (Prim2SF 30) with (S754_finite false 8444249301319680 (-48))
    by (vm_compute; reflexivity).
  replace (Prim2SF 70) with (S754_finite false 4925812092436480 (-46))
    by (vm_compute; reflexivity).
  unfold SFltb.
  destruct (Prim2SF r) as [s|s| |s m e]; cbn [SFcompare].
  - intros _. reflexivity.
  - destruct s; intros H; [reflexivity | exact H].
  - intros H. exact H.
  - destruct s; [reflexivity|].
    destruct (Z.compare_spec e (-48)) as [He|He|He];
      destruct (Z.compare_spec e (-46)) as [He'|He'|He'];
      try (exfalso; lia); intros H; try reflexivity; try exact H;
      exfalso; exact (Bool.diff_false_true H).
Qed.

(** The tier is read off the rounded percentage, by the two thresholds. *)
Lemma risk_level_cases (r : float) :
  ((r <? 30)%float = true -> risk_level r = "🟢 Low Risk") /\
  ((30 <=? r)%float = true /\ (r <? 70)%float = true ->
   risk_level r = "🟡 Medium Risk") /\
  ((70 <=? r)%float = true -> risk_level r = "🔴 High Risk").
Proof.
  unfold risk_level. repeat split.
  - now intros ->.
  - intros [H30 H70]. apply float_leb_not_ltb in H30. now rewrite H30, H70.
  - intros H70. apply float_leb_not_ltb in H70.
    destruct (r <? 30)%float eqn:H30.
    + apply float_below_30_below_70 in H30. congruence.
    + now rewrite H70.
Qed.

(** C4, as stated, fails: for the probability 0.29999 the product with
    100 is below 30, but the percentage is first rounded to two decimals,
    to 30.0, and the tier is Medium. *)
Lemma risk_tier_unrounded_threshold_fails :
  (0 <=? 0.29999)%float = true /\ (0.29999 <=? 1)%float = true /\
  (0.29999 * 100 <? 30)%float = true /\
  risk_percent 0.29999 = 30%float /\
  risk_level (risk_percent 0.29999) = "🟡 Medium Risk" /\
  risk_level (risk_percent 0.29999) <> "🟢 Low Risk".
Proof. repeat split; try reflexivity. vm_compute. discriminate. Qed.

(** C4, amended.  With r the percentage as displayed, that is
    probability x 100 rounded to two decimals, the tier is Low when r < 30,
    Medium when 30 <= r < 70 and High when r >= 70; the probabilities 0.2999,
    0.30, 0.6999 and 0.70 give Low, Medium, Medium and High. *)
Theorem risk_tier_of_rounded_percent (prob : float) :
  let r := risk_percent prob in
  ((r <? 30)%float = true -> risk_level r = "🟢 Low Risk") /\
  ((30 <=? r)%float = true /\ (r <? 70)%float = true ->
   risk_level r = "🟡 Medium Risk") /\
  ((70 <=? r)%float = true -> risk_level r = "🔴 High Risk") /\
  risk_level (risk_percent 0.2999) = "🟢 Low Risk" /\
  risk_level (risk_percent 0.30) = "🟡 Medium Risk" /\
  risk_level (risk_percent 0.6999) = "🟡 Medium Risk" /\
  risk_level (risk_percent 0.70) = "🔴 High Risk".
Proof.
  intros r. destruct (risk_level_cases r) as (Hlow & Hmed & Hhigh).
  repeat split; try assumption; reflexivity.
Qed.

Lemma risk_tier_of_rounded_percent_witness :
  ((risk_percent 0.12 <? 30)%float = true /\
   risk_level (risk_percent 0.12) = "🟢 Low Risk") /\
  (((30 <=? risk_percent 0.42)%float = true /\
    (risk_percent 0.42 <? 70)%float = true) /\
   risk_level (risk_percent 0.42) = "🟡 Medium Risk") /\
  ((70 <=? risk_percent 0.93)%float = true /\
   risk_level (risk_percent 0.93) = "🔴 High Risk").
Proof.
  split; [|split].
  - split; [reflexivity|].
    exact (proj1 (risk_tier_of_rounded_percent 0.12) eq_refl).
  - split; [split; reflexivity|].
    exact (proj1 (proj2 (risk_tier_of_rounded_percent 0.42))
             (conj eq_refl eq_refl)).
  - split; [reflexivity|].
    exact (proj1 (proj2 (proj2 (risk_tier_of_rounded_percent 0.93))) eq_refl).
Defined.

(** The age brackets at their boundaries. *)
Example age_group_boundaries :
  age_group 12 = "👶 Child" /\ age_group 13 = "🧑 Adult" /\
  age_group 59 = "🧑 Adult" /\ age_group 60 = "👴 Senior".
Proof. repeat split; reflexivity. Qed.

(** The four probabilities of the specification reach the percentages
    29.99, 30.0, 69.99 and 70.0; Python's own [round] would give the same
    percentages there, and the same at 0.29999. *)
Example risk_percent_boundaries :
  risk_percent 0.2999 = 29.99%float /\ risk_percent 0.30 = 30%float /\
  risk_percent 0.6999 = 69.99%float /\ risk_percent 0.70 = 70%float /\
  Py.round (0.2999 * 100) 2 = 29.99%float /\ Py.round (0.30 * 100) 2 = 30%float /\
  Py.round (0.6999 * 100) 2 = 69.99%float /\ Py.round (0.70 * 100) 2 = 70%float /\
  Py.round (0.29999 * 100) 2 = 30%float.
Proof. repeat split; reflexivity. Qed.

(** ** Sorted lists *)

Section SortedFacts.
Context {A : Type}.
Implicit Types (R : A -> A -> Prop) (l : list A).

Lemma StronglySorted_weaken R R' l :
  (forall x y, In x l -> In y l -> R x y -> R' x y) ->
  StronglySorted R l -> StronglySorted R' l.
Proof.
  intros Himp Hs. induction Hs as [|a l Hs IH Hall]; constructor.
  - apply IH. intros x y Hx Hy. apply Himp; now right.
  - rewrite Forall_forall in *. intros y Hy.
    apply Himp; [now left | now right | now apply Hall].
Qed.

Lemma StronglySorted_app R l l' :
  StronglySorted R l -> StronglySorted R l' ->
  (forall x y, In x l -> In y l' -> R x y) ->
  StronglySorted R (l ++ l').
Proof.
  intros Hl Hl' Hcross. induction Hl as [|a l Hs IH Hall]; simpl; [assumption|].
  constructor.
  - apply IH. intros x y Hx. apply Hcross. now right.
  - apply Forall_app. split; [assumption|].
    apply Forall_forall. intros y Hy. apply Hcross; [now left | assumption].
Qed.

Lemma StronglySorted_rev R l :
  StronglySorted R l -> StronglySorted (fun x y => R y x) (rev l).
Proof.
  intros Hs. induction Hs as [|a l Hs IH Hall]; simpl; [constructor|].
  apply StronglySorted_app; [assumption | repeat constructor |].
  intros x y Hx [<-|[]]. apply in_rev in Hx.
  rewrite Forall_forall in Hall. now apply Hall.
Qed.

Lemma StronglySorted_filter R (keep : A -> bool) l :
  StronglySorted R l -> StronglySorted R (filter keep l).
Proof.
  intros Hs. induction Hs as [|a l Hs IH Hall]; simpl; [constructor|].
  destruct (keep a); [|assumption]. constructor; [assumption|].
  rewrite Forall_forall in *. intros y Hy. apply filter_In in Hy. now apply Hall.
Qed.

End SortedFacts.

(** ** The sort behind [sort_values] *)

Section StableSort.

(** [Q f g]: the entry of field [f] is inserted before the entry of [g]. *)
Variable Q : string -> string -> Prop.

Lemma insort_int x acc :
  StronglySorted (stable_le Q) acc ->
  Forall (fun a => inserted_before Q a x) acc ->
  exists acc',
    insort (int_entry x) (map int_entry acc) = map int_entry acc' /\
    Permutation acc' (x :: acc) /\
    StronglySorted (stable_le Q) acc'.
Proof.
  induction acc as [|y ys IH]; intros Hs Hq.
  - exists [x]. repeat split; repeat constructor.
  - apply StronglySorted_inv in Hs. destruct Hs as [Hs Hy].
    inversion Hq as [|? ? Hqy Hqys]; subst.
    simpl. destruct (Z.ltb_spec (snd x) (snd y)) as [Hlt|Hge].
    + exists (x :: y :: ys). split; [reflexivity|]. split; [apply Permutation_refl|].
      constructor; [now constructor|].
      constructor; [now left|].
      rewrite Forall_forall in *. intros b Hb. left.
      destruct (Hy b Hb) as [H|[H _]]; lia.
    + destruct (IH Hs Hqys) as (acc' & Heq & Hperm & Hsorted).
      exists (y :: acc'). split; [now rewrite Heq|]. split.
      * eapply perm_trans; [apply perm_skip, Hperm | apply perm_swap].
      * constructor; [assumption|].
        eapply Permutation_Forall; [apply Permutation_sym, Hperm|].
        constructor; [|assumption].
        unfold stable_le, inserted_before in *.
        destruct (Z.eq_dec (snd y) (snd x)); [now right | left; lia].
Qed.

Lemma sort_fold_int l : forall acc,
  StronglySorted (stable_le Q) acc ->
  StronglySorted (inserted_before Q) l ->
  Forall (fun a => Forall (inserted_before Q a) l) acc ->
  exists l',
    fold_left (fun sorted x => insort x sorted)
              (map int_entry l) (map int_entry acc) = map int_entry l' /\
    Permutation l' (acc ++ l) /\
    StronglySorted (stable_le Q) l'.
Proof.
  induction l as [|x l IH]; intros acc Hacc Hl Hcross.
  - exists acc. rewrite app_nil_r. repeat split; [apply Permutation_refl | assumption].
  - apply StronglySorted_inv in Hl. destruct Hl as [Hl Hx].
    destruct (insort_int x acc Hacc) as (acc' & Heq & Hperm & Hsorted).
    { eapply Forall_impl; [|exact Hcross].
      intros a Ha. now inversion Ha. }
    destruct (IH acc' Hsorted Hl) as (l' & Heq' & Hperm' & Hsorted').
    { eapply Permutation_Forall; [apply Permutation_sym, Hperm|].
      constructor; [assumption|].
      eapply Forall_impl; [|exact Hcross]. intros a Ha. now inversion Ha. }
    exists l'. simpl. rewrite Heq. split; [assumption|]. split; [|assumption].
    eapply perm_trans; [exact Hperm'|].
    eapply perm_trans; [apply Permutation_app_tail, Hperm|].
    simpl. apply Permutation_middle.
Qed.

Lemma sort_ascending_int l :
  StronglySorted (inserted_before Q) l ->
  exists l',
    sort_ascending (map int_entry l) = map int_entry l' /\
    Permutation l' l /\
    StronglySorted (stable_le Q) l'.
Proof.
  intros Hl.
  destruct (sort_fold_int l [] (SSorted_nil _) Hl (Forall_nil _))
    as (l' & Heq & Hperm & Hs).
  exists l'. now repeat split.
Qed.

End StableSort.

(** The stable sort meets the guarantee. *)
Lemma stable_sort_sorts_ascending : sorts_ascending sample_sort.
Proof.
  intros l.
  destruct (sort_ascending_int (fun _ _ => True) l) as (l' & Heq & Hperm & Hs).
  { induction l as [|x l IH]; constructor; [exact IH|].
    apply Forall_forall. intros y _. exact I. }
  exists l'. split; [exact Heq|]. split; [exact Hperm|].
  eapply StronglySorted_weaken; [|exact Hs].
  unfold stable_le. intros x y _ _ [H|[H _]]; lia.
Qed.

(** With the stable sort, a descending sort of integer entries that stand
    in the order of the candidate list breaks ties by that order (the
    tie-break of the specification). *)
Lemma sort_values_descending_int l :
  StronglySorted
    (fun a b => (position (fst a) risk_factors < position (fst b) risk_factors)%nat) l ->
  exists ranked,
    sort_values_descending sample_sort (map int_entry l) = map int_entry ranked /\
    Permutation ranked l /\
    StronglySorted outranks ranked.
Proof.
  intros Hl. unfold sort_values_descending, sample_sort. rewrite <- map_rev.
  destruct (sort_ascending_int
              (fun f g => (position g risk_factors < position f risk_factors)%nat)
              (rev l)) as (l' & Heq & Hperm & Hs).
  { apply StronglySorted_rev in Hl. exact Hl. }
  exists (rev l'). rewrite Heq, map_rev. split; [reflexivity|]. split.
  - eapply perm_trans; [apply Permutation_sym, Permutation_rev|].
    eapply perm_trans; [exact Hperm|]. apply Permutation_sym, Permutation_rev.
  - apply StronglySorted_rev in Hs.
    eapply StronglySorted_weaken; [|exact Hs].
    unfold stable_le, outranks. intros x y _ _ [H|[H1 H2]]; [now left | right].
    split; [now symmetry | assumption].
Qed.

(** With any sort that meets the guarantee, a descending sort of integer
    entries returns them rearranged, no entry below a later one. *)
Lemma sort_values_descending_ranked quicksort l :
  sorts_ascending quicksort ->
  exists ranked,
    sort_values_descending quicksort (map int_entry l) = map int_entry ranked /\
    Permutation ranked l /\
    StronglySorted not_below ranked.
Proof.
  intros Hsort. unfold sort_values_descending. rewrite <- map_rev.
  destruct (Hsort (rev l)) as (l' & Heq & Hperm & Hs).
  exists (rev l'). rewrite Heq, map_rev. split; [reflexivity|]. split.
  - eapply perm_trans; [apply Permutation_sym, Permutation_rev|].
    eapply perm_trans; [exact Hperm|]. apply Permutation_sym, Permutation_rev.
  - apply StronglySorted_rev in Hs. exact Hs.
Qed.

(** In a ranked list, no entry after the first [n] is above one of them. *)
Lemma ranked_firstn_skipn (n : nat) (ranked : list (string * Z)) :
  StronglySorted not_below ranked ->
  forall x y, In x (firstn n ranked) -> In y (skipn n ranked) -> snd y <= snd x.
Proof.
  intros Hs. revert n. induction Hs as [|a l Hs IH Hall]; intros n x y.
  - rewrite firstn_nil. contradiction.
  - destruct n as [|n]; [contradiction|]. cbn [firstn skipn].
    intros [<-|Hx] Hy.
    + rewrite Forall_forall in Hall. apply Hall.
      rewrite <- (firstn_skipn n l). apply in_or_app. now right.
    + now apply (IH n).
Qed.

Lemma risk_values_in_order p :
  StronglySorted
    (fun a b => (position (fst a) risk_factors < position (fst b) risk_factors)%nat)
    (risk_values p).
Proof.
  unfold risk_values.
  repeat (constructor; [|repeat (constructor; [cbv; lia|]); constructor]).
  constructor.
Qed.

(** ** Top risk factors *)

Lemma In_firstn {A : Type} (n : nat) (l : list A) (x : A) :
  In x (firstn n l) -> In x l.
Proof.
  intros H. rewrite <- (firstn_skipn n l). apply in_or_app. now left.
Qed.

Lemma get_aligned (g : string -> number) col features :
  In col features ->
  Frame.get col (map (fun c => (c, g c)) features) = Some (g col).
Proof.
  unfold Frame.get. induction features as [|c features IH]; simpl; [tauto|].
  destruct (String.eqb_spec c col) as [->|Hne]; simpl; [reflexivity|].
  intros [E|Hin]; [contradiction | now apply IH].
Qed.

Lemma has_col_aligned (g : string -> number) features f :
  Frame.has_col f (map (fun c => (c, g c)) features) = declares features f.
Proof.
  unfold Frame.has_col, Frame.labels, declares.
  rewrite map_map. simpl. now rewrite map_id.
Qed.

Lemma declares_In features f : declares features f = true <-> In f features.
Proof.
  unfold declares. rewrite existsb_exists. split.
  - intros [x [Hx Heq]]. apply String.eqb_eq in Heq. now subst.
  - intros H. exists f. split; [assumption | apply String.eqb_refl].
Qed.

(** Each candidate is a collected column holding the raw form value. *)
Lemma candidate_collected p ratio kv :
  In kv (risk_values p) ->
  declared_value (input_dict p ratio) (fst kv) = NInt (snd kv).
Proof.
  unfold risk_values. simpl. intros H.
  repeat (destruct H as [<-|H]; [reflexivity|]). contradiction.
Qed.

(** The Series that is sorted holds the declared candidates, in candidate
    order, with their raw values. *)
Lemma input_risk_vals_declared features p ratio :
  NoDup features ->
  let d := map (fun c => (c, declared_value (input_dict p ratio) c)) features in
  Frame.getitem (available_factors d) d =
  Ok (map int_entry (declared_risk_values features p)).
Proof.
  intros Hnd d.
  assert (Hlabels : Frame.labels d = features).
  { unfold d, Frame.labels. rewrite map_map. simpl. apply map_id. }
  assert (Havail : available_factors d =
                   map fst (declared_risk_values features p)).
  { unfold available_factors, declared_risk_values.
    change risk_factors with (map fst (risk_values p)).
    rewrite filter_map_swap. f_equal. apply filter_ext. intros kv.
    apply has_col_aligned. }
  rewrite (getitem_unique (NInt 0)).
  - f_equal. rewrite Havail, map_map. apply map_ext_in.
    intros kv Hkv. unfold int_entry. f_equal.
    apply filter_In in Hkv. destruct Hkv as [Hin Hdecl].
    apply declares_In in Hdecl.
    unfold d. rewrite get_aligned by assumption.
    now apply candidate_collected.
  - now rewrite Hlabels.
  - intros n Hn. unfold available_factors in Hn. apply filter_In in Hn.
    destruct Hn as [_ Hn]. now apply has_col_In in Hn.
Qed.

(** Lines 109-112 raise on no frame: line 109 keeps the candidates that
    are columns. *)
Lemma top_risk_str_defined quicksort (d : Row number) :
  exists t, top_risk_str quicksort d = Ok t.
Proof.
  unfold top_risk_str, top_risks.
  destruct (getitem_defined (available_factors d) d) as (r & ->).
  - intros n Hn. unfold available_factors in Hn. apply filter_In in Hn. tauto.
  - eexists. reflexivity.
Qed.

Lemma top_risks_ranked quicksort features p :
  sorts_ascending quicksort ->
  NoDup features -> form_accepts p = true ->
  exists d ranked,
    input_data features p = Ok d /\
    top_risks quicksort d = Ok (map fst (firstn 3 ranked)) /\
    Permutation ranked (declared_risk_values features p) /\
    StronglySorted not_below ranked.
Proof.
  intros Hkind Hnd Hform.
  destruct (input_data_aligned features p Hform)
    as (ratio & d & _ & Hd & _ & ->).
  destruct (sort_values_descending_ranked quicksort
              (declared_risk_values features p) Hkind)
    as (ranked & Hsort & Hperm & Hranked).
  eexists. exists ranked. split; [exact Hd|]. split; [|now split].
  unfold top_risks.
  rewrite (input_risk_vals_declared features p ratio Hnd).
  cbn [bind]. rewrite Hsort, firstn_map. unfold Frame.labels. rewrite map_map.
  reflexivity.
Qed.

Lemma declared_risk_values_labels features p :
  map fst (declared_risk_values features p) =
  filter (declares features) risk_factors.
Proof.
  unfold declared_risk_values.
  change risk_factors with (map fst (risk_values p)).
  now rewrite filter_map_swap.
Qed.

Lemma declared_risk_values_all features p :
  (forall f, In f risk_factors -> In f features) ->
  declared_risk_values features p = risk_values p.
Proof.
  intros Hall. unfold declared_risk_values.
  apply forallb_filter_id. apply forallb_forall. intros kv Hkv.
  apply declares_In, Hall.
  change risk_factors with (map fst (risk_values p)). now apply in_map.
Qed.

(** With the stable sort the ties are broken by the order of the
    candidate list. *)
Lemma top_risks_ranked_stable features p :
  NoDup features -> form_accepts p = true ->
  exists d ranked,
    input_data features p = Ok d /\
    top_risks sample_sort d = Ok (map fst (firstn 3 ranked)) /\
    Permutation ranked (declared_risk_values features p) /\
    StronglySorted outranks ranked.
Proof.
  intros Hnd Hform.
  destruct (input_data_aligned features p Hform)
    as (ratio & d & _ & Hd & _ & ->).
  destruct (sort_values_descending_int (declared_risk_values features p))
    as (ranked & Hsort & Hperm & Hranked).
  { apply StronglySorted_filter, risk_values_in_order. }
  eexists. exists ranked. split; [exact Hd|]. split; [|now split].
  unfold top_risks.
  rewrite (input_risk_vals_declared features p ratio Hnd).
  cbn [bind]. rewrite Hsort, firstn_map. unfold Frame.labels. rewrite map_map.
  reflexivity.
Qed.

(** C2, as stated, fails.  On the graded form no two of the values that
    decide the outcome are equal, so that the outcome is the same for every
    sort.  The sample model declares three of the eight candidates, and the
    fields reported are not the three highest of the eight (pollen and
    pollution exposure, 9 and 5, are left out in favour of fields valued 3
    and 0); for a model that declares no candidate, no field is reported at
    all. *)
Lemma top_risks_not_over_all_candidates :
  (d <- input_data sample_features graded_input ;; top_risks sample_sort d) =
    Ok ["DustExposure"; "SymptomScore"; "Smoking"] /\
  top_of_all_candidates sample_sort graded_input =
    ["PollenExposure"; "DustExposure"; "PollutionExposure"] /\
  (d <- input_data ["Age"; "BMI"] graded_input ;; top_risk_str sample_sort d)
    = Ok "".
Proof. repeat split; reflexivity. Qed.

(** C2, amended.  For every accepted input, every model with distinct
    feature names and every sort that NumPy may use (one that returns the
    entries rearranged in ascending order of value), the top risk factors
    are computed over those of the eight candidate fields that the model
    declares - all eight when it declares them all, and then three are
    reported: they are the first (up to) three of an arrangement of these
    candidates in which no candidate is below a later one, so that none
    that is left out has a higher raw value than one that is reported; they
    are rendered as one string joined with ", ".  Which of several
    candidates of equal value comes first is left to the sort. *)
Theorem top_risks_rank_declared_candidates
  (quicksort : Row number -> Row number)
  (expected_features : list string) (p : PatientInput) :
  sorts_ascending quicksort ->
  NoDup expected_features -> form_accepts p = true ->
  exists d ranked,
    input_data expected_features p = Ok d /\
    Permutation ranked (declared_risk_values expected_features p) /\
    StronglySorted not_below ranked /\
    (forall x y, In x (firstn 3 ranked) -> In y (skipn 3 ranked) ->
                 snd y <= snd x) /\
    top_risks quicksort d = Ok (map fst (firstn 3 ranked)) /\
    top_risk_str quicksort d = Ok (Py.join ", " (map fst (firstn 3 ranked))) /\
    ((forall f, In f risk_factors -> In f expected_features) ->
     Permutation ranked (risk_values p) /\
     List.length (firstn 3 ranked) = 3%nat).
Proof.
  intros Hkind Hnd Hform.
  destruct (top_risks_ranked quicksort expected_features p Hkind Hnd Hform)
    as (d & ranked & Hd & Htop & Hperm & Hsorted).
  exists d, ranked. split; [exact Hd|]. split; [exact Hperm|].
  split; [exact Hsorted|]. split; [now apply ranked_firstn_skipn|].
  split; [exact Htop|]. split.
  - unfold top_risk_str. now rewrite Htop.
  - intros Hall. split.
    + rewrite <- (declared_risk_values_all expected_features p); assumption.
    + rewrite length_firstn, (Permutation_length Hperm).
      rewrite declared_risk_values_all by assumption. reflexivity.
Qed.

Lemma top_risks_rank_declared_candidates_witness :
  sorts_ascending sample_sort /\
  NoDup sample_features /\ form_accepts default_input = true /\
  exists d ranked,
    input_data sample_features default_input = Ok d /\
    Permutation ranked (declared_risk_values sample_features default_input) /\
    StronglySorted not_below ranked /\
    (forall x y, In x (firstn 3 ranked) -> In y (skipn 3 ranked) ->
                 snd y <= snd x) /\
    top_risks sample_sort d = Ok (map fst (firstn 3 ranked)) /\
    top_risk_str sample_sort d = Ok (Py.join ", " (map fst (firstn 3 ranked))) /\
    ((forall f, In f risk_factors -> In f sample_features) ->
     Permutation ranked (risk_values default_input) /\
     List.length (firstn 3 ranked) = 3%nat).
Proof.
  assert (Hnd : NoDup sample_features).
  { unfold sample_features.
    repeat (constructor; [simpl; intuition discriminate|]). constructor. }
  split; [exact stable_sort_sorts_ascending|].
  split; [exact Hnd|]. split; [reflexivity|].
  exact (top_risks_rank_declared_candidates sample_sort sample_features
           default_input stable_sort_sorts_ascending Hnd eq_refl).
Defined.

(** C10.  The ranking considers only the candidates the model declares:
    the computation raises no error, every field it reports is a declared
    candidate, and it reports three fields or, when fewer than three
    candidates are declared, as many as are declared - with every sort that
    returns the entries of the Series rearranged in ascending order. *)
Theorem undeclared_candidates_are_dropped
  (quicksort : Row number -> Row number)
  (expected_features : list string) (p : PatientInput) :
  sorts_ascending quicksort ->
  NoDup expected_features -> form_accepts p = true ->
  exists d top,
    input_data expected_features p = Ok d /\
    top_risks quicksort d = Ok top /\
    (forall f, In f top -> In f risk_factors /\ In f expected_features) /\
    List.length top =
      Nat.min 3 (List.length (filter (declares expected_features) risk_factors)) /\
    ((List.length (filter (declares expected_features) risk_factors) < 3)%nat ->
     (List.length top < 3)%nat).
Proof.
  intros Hkind Hnd Hform.
  destruct (top_risks_ranked quicksort expected_features p Hkind Hnd Hform)
    as (d & ranked & Hd & Htop & Hperm & _).
  exists d, (map fst (firstn 3 ranked)).
  assert (Hlen : List.length (map fst (firstn 3 ranked)) =
                 Nat.min 3 (List.length (filter (declares expected_features)
                                                risk_factors))).
  { rewrite length_map, length_firstn, (Permutation_length Hperm).
    now rewrite <- (declared_risk_values_labels expected_features p), length_map. }
  assert (Hsub : forall f, In f (map fst (firstn 3 ranked)) ->
                           In f risk_factors /\ In f expected_features).
  { intros f Hf. apply in_map_iff in Hf. destruct Hf as (kv & <- & Hkv).
    apply In_firstn in Hkv. apply (Permutation_in _ Hperm) in Hkv.
    apply filter_In in Hkv. destruct Hkv as [Hkv Hdecl]. split.
    - change risk_factors with (map fst (risk_values p)). now apply in_map.
    - now apply declares_In. }
  repeat split; try assumption; try (now apply Hsub). lia.
Qed.

Lemma undeclared_candidates_are_dropped_witness :
  sorts_ascending sample_sort /\
  NoDup ["Age"; "Smoking"; "DustExposure"] /\
  form_accepts default_input = true /\
  exists d top,
    input_data ["Age"; "Smoking"; "DustExposure"] default_input = Ok d /\
    top_risks sample_sort d = Ok top /\
    (forall f, In f top ->
               In f risk_factors /\ In f ["Age"; "Smoking"; "DustExposure"]) /\
    List.length top =
      Nat.min 3 (List.length (filter (declares ["Age"; "Smoking"; "DustExposure"])
                                     risk_factors)) /\
    ((List.length (filter (declares ["Age"; "Smoking"; "DustExposure"])
                          risk_factors) < 3)%nat ->
     (List.length top < 3)%nat).
Proof.
  assert (Hnd : NoDup ["Age"; "Smoking"; "DustExposure"]).
  { repeat (constructor; [simpl; intuition discriminate|]). constructor. }
  split; [exact stable_sort_sorts_ascending|].
  split; [exact Hnd|]. split; [reflexivity|].
  exact (undeclared_candidates_are_dropped sample_sort
           ["Age"; "Smoking"; "DustExposure"] default_input
           stable_sort_sorts_ascending Hnd eq_refl).
Defined.

(** With two declared candidates, two fields are reported. *)
Example top_risks_two_declared :
  (d <- input_data ["Age"; "Smoking"; "DustExposure"] default_input ;;
   top_risk_str sample_sort d) = Ok "DustExposure, Smoking".
Proof. reflexivity. Qed.

(** ** Data frames and the record file *)

Lemma distinct_NoDup l : distinct l = true -> NoDup l.
Proof.
  induction l as [|x l IH]; simpl; [constructor|].
  intros H. apply andb_prop in H. destruct H as [Hx Hl].
  constructor; [|now apply IH].
  intros Hin. apply negb_true_iff in Hx.
  assert (existsb (String.eqb x) l = true); [|congruence].
  apply existsb_exists. exists x. split; [assumption | apply String.eqb_refl].
Qed.

Lemma combine_labels {A : Type} (r : Row A) :
  combine (Frame.labels r) (map snd r) = r.
Proof.
  induction r as [|[k v] r IH]; simpl; [reflexivity | now rewrite IH].
Qed.

Lemma reindex_same cols : forall vals,
  NoDup cols -> List.length vals = List.length cols ->
  Pd.reindex cols vals cols = vals.
Proof.
  unfold Pd.reindex.
  induction cols as [|c cols IH]; intros [|v vals] Hnd Hlen;
    try discriminate; [reflexivity|].
  inversion Hnd as [|? ? Hnotin Hnd']; subst. simpl.
  unfold Frame.get at 1. simpl. rewrite String.eqb_refl. simpl. f_equal.
  etransitivity; [|apply (IH vals Hnd'); simpl in Hlen; lia].
  apply map_ext_in. intros c' Hc'. unfold Frame.get. simpl.
  destruct (String.eqb_spec c c') as [->|Hne]; [contradiction | reflexivity].
Qed.

Lemma no_new_columns cols :
  filter (fun c => negb (existsb (String.eqb c) cols)) cols = [].
Proof.
  enough (H : forall l, incl l cols ->
              filter (fun c => negb (existsb (String.eqb c) cols)) l = []).
  { apply H, incl_refl. }
  induction l as [|c l IH]; intros Hincl; simpl; [reflexivity|].
  assert (Hc : existsb (String.eqb c) cols = true).
  { apply existsb_exists. exists c. split; [apply Hincl; now left|].
    apply String.eqb_refl. }
  rewrite Hc. simpl. apply IH. intros x Hx. apply Hincl. now right.
Qed.

(** Appending a record that has the columns of the frame adds its row at
    the end and leaves the frame as it was. *)
Lemma concat_same df record :
  NoDup (columns df) ->
  Frame.labels record = columns df ->
  Forall (fun r => List.length r = List.length (columns df)) (rows df) ->
  Pd.concat df record =
  {| columns := columns df; rows := rows df ++ [map snd record] |}.
Proof.
  intros Hnd Hlab Hrect. unfold Pd.concat.
  rewrite Hlab, no_new_columns, app_nil_r. f_equal. f_equal.
  - rewrite <- (map_id (rows df)) at 2. apply map_ext_in.
    intros r Hr. apply reindex_same; [assumption|].
    rewrite Forall_forall in Hrect. now apply Hrect.
  - f_equal. rewrite <- Hlab. apply reindex_same.
    + now rewrite Hlab.
    + unfold Frame.labels. now rewrite !length_map.
Qed.

(** Appending to the frame without columns gives the record's columns and
    its row. *)
Lemma concat_empty record :
  NoDup (Frame.labels record) ->
  Pd.concat Pd.empty_frame record =
  {| columns := Frame.labels record; rows := [map snd record] |}.
Proof.
  intros Hnd. unfold Pd.concat. simpl.
  rewrite forallb_filter_id by (apply forallb_forall; reflexivity).
  f_equal. f_equal. apply reindex_same; [assumption|].
  unfold Frame.labels. now rewrite !length_map.
Qed.

Lemma read_rows_rect width lines :
  Forall (fun line => List.length line = width) lines ->
  Pd.read_rows width lines = Ok (map (map Pd.read_cell) lines).
Proof.
  induction 1 as [|line lines Hlen _ IH]; simpl; [reflexivity|].
  unfold Pd.read_row. rewrite Hlen, Nat.ltb_irrefl, Nat.sub_diag. simpl.
  now rewrite app_nil_r, IH.
Qed.

Lemma read_csv_rect cols lines :
  cols <> [] ->
  Forall (fun line => List.length line = List.length cols) lines ->
  Pd.read_csv {| header := cols; body := lines |} =
  Ok {| columns := cols; rows := map (map Pd.read_cell) lines |}.
Proof.
  intros Hne Hrect. unfold Pd.read_csv. simpl.
  destruct cols as [|c cols]; [contradiction|].
  now rewrite (read_rows_rect _ _ Hrect).
Qed.

(** The first assessment: there is no record file yet. *)
Lemma append_run_first record w :
  record_file w = None -> NoDup (Frame.labels record) ->
  append_run record w =
  Ok {| patient_records :=
          {| columns := Frame.labels record; rows := [map snd record] |};
        record_file :=
          Some {| header := Frame.labels record; body := [written_row record] |};
        export_file := export_file w |}.
Proof.
  intros Hfile Hnd. unfold append_run, load, append. rewrite Hfile. simpl.
  now rewrite concat_empty.
Qed.

(** A later assessment: the lines of the file are read, the record is
    added behind them, and every line is written again. *)
Lemma append_run_next cols lines record w :
  record_file w = Some {| header := cols; body := lines |} ->
  NoDup cols -> cols <> [] ->
  Forall (fun line => List.length line = List.length cols) lines ->
  Frame.labels record = cols ->
  append_run record w =
  Ok {| patient_records :=
          {| columns := cols;
             rows := map (map Pd.read_cell) lines ++ [map snd record] |};
        record_file :=
          Some {| header := cols;
                  body := map (map rewritten) lines ++ [written_row record] |};
        export_file := export_file w |}.
Proof.
  intros Hfile Hnd Hne Hrect Hlab. unfold append_run, load, append.
  rewrite Hfile, (read_csv_rect cols lines Hne Hrect). simpl.
  rewrite concat_same; simpl; try assumption.
  - assert (Hbody :
      map (map Pd.write_cell) (map (map Pd.read_cell) lines ++ [map snd record]) =
      map (map rewritten) lines ++ [written_row record]).
    { rewrite map_app, map_map. simpl. f_equal.
      apply map_ext. intros line. now rewrite map_map. }
    unfold Pd.to_csv. simpl. now rewrite Hbody.
  - apply Forall_forall. intros r Hr. apply in_map_iff in Hr.
    destruct Hr as (line & <- & Hline). rewrite length_map.
    rewrite Forall_forall in Hrect. now apply Hrect.
Qed.

(** ** What the record file gives back *)

Lemma ordinary_text_not_na s : ordinary_text s = true -> Pd.is_na s = false.
Proof.
  intros Hord. destruct (Pd.is_na s) eqn:Hna; [|reflexivity].
  unfold Pd.is_na in Hna. apply existsb_exists in Hna.
  destruct Hna as (t & Hin & Heq). apply String.eqb_eq in Heq. subst t.
  unfold Pd.na_values in Hin. simpl in Hin.
  repeat (destruct Hin as [<-|Hin]; [vm_compute in Hord; discriminate|]).
  contradiction.
Qed.

Lemma read_write_storable v :
  storable v = true -> Pd.read_cell (Pd.write_cell v) = blank_as_missing v.
Proof.
  destruct v as [n|s|]; simpl; try reflexivity.
  destruct s as [|c s]; [reflexivity|].
  intros H. now rewrite (ordinary_text_not_na _ H).
Qed.

Lemma write_blank_as_missing v :
  Pd.write_cell (blank_as_missing v) = Pd.write_cell v.
Proof. destruct v as [n|[|c s]|]; reflexivity. Qed.

(** A storable value is written the same way again after a reload. *)
Lemma rewritten_storable v :
  storable v = true -> rewritten (Pd.write_cell v) = Pd.write_cell v.
Proof.
  intros H. unfold rewritten.
  now rewrite read_write_storable, write_blank_as_missing.
Qed.

Lemma rewritten_row record :
  forallb storable (map snd record) = true ->
  map rewritten (written_row record) = written_row record.
Proof.
  intros H. unfold written_row. rewrite map_map.
  apply map_ext_in. intros v Hv. apply rewritten_storable.
  rewrite forallb_forall in H. now apply H.
Qed.

Lemma reloaded_row record :
  forallb storable (map snd record) = true ->
  map Pd.read_cell (written_row record) = map blank_as_missing (map snd record).
Proof.
  intros H. unfold written_row. rewrite map_map.
  apply map_ext_in. intros v Hv. apply read_write_storable.
  rewrite forallb_forall in H. now apply H.
Qed.

Lemma file_of_snoc cols records record :
  file_of cols (records ++ [record]) =
  Some {| header := cols; body := map written_row records ++ [written_row record] |}.
Proof.
  unfold file_of. rewrite map_app. simpl.
  destruct records; reflexivity.
Qed.

Lemma written_row_length cols record :
  Frame.labels record = cols ->
  List.length (written_row record) = List.length cols.
Proof.
  intros <-. unfold written_row, Frame.labels. now rewrite !length_map.
Qed.

(** On a store of storable records an assessment adds its line at the
    end of the file and leaves the lines before it as they were. *)
Lemma append_run_file cols done record w :
  NoDup cols -> cols <> [] ->
  record_file w = file_of cols done ->
  Forall (kept_as_written cols) done ->
  Frame.labels record = cols ->
  exists w',
    append_run record w = Ok w' /\
    record_file w' = file_of cols (done ++ [record]) /\
    export_file w' = export_file w.
Proof.
  intros Hnd Hne Hfile Hdone Hlab.
  destruct done as [|r0 done0] eqn:Edone.
  - simpl in Hfile. eexists. split.
    + apply append_run_first; [assumption | now rewrite Hlab].
    + simpl. now rewrite Hlab.
  - rewrite <- Edone in *. assert (Hsome : record_file w =
      Some {| header := cols; body := map written_row done |}).
    { rewrite Hfile, Edone. reflexivity. }
    eexists. split.
    + eapply append_run_next; try eassumption.
      apply Forall_forall. intros line Hline. apply in_map_iff in Hline.
      destruct Hline as (r & <- & Hr). apply written_row_length.
      rewrite Forall_forall in Hdone. now apply Hdone.
    + simpl. split; [|reflexivity]. rewrite file_of_snoc. do 3 f_equal.
      rewrite map_map. apply map_ext_in. intros r Hr.
      apply rewritten_row. rewrite Forall_forall in Hdone. now apply Hdone.
Qed.

Lemma append_all_file cols records : forall done w,
  NoDup cols -> cols <> [] ->
  record_file w = file_of cols done ->
  Forall (kept_as_written cols) done ->
  Forall (kept_as_written cols) records ->
  exists w',
    append_all records w = Ok w' /\
    record_file w' = file_of cols (done ++ records) /\
    export_file w' = export_file w.
Proof.
  induction records as [|record records IH]; intros done w Hnd Hne Hfile Hdone Hrecs.
  - exists w. rewrite app_nil_r. now repeat split.
  - inversion Hrecs as [|? ? Hrec Hrecs']; subst.
    destruct (append_run_file cols done record w Hnd Hne Hfile Hdone)
      as (w1 & Hrun & Hfile1 & Hexp1); [apply Hrec|].
    destruct (IH (done ++ [record]) w1 Hnd Hne Hfile1) as (w' & Hall & Hfile' & Hexp');
      [apply Forall_app; split; [assumption | now constructor] | assumption |].
    exists w'. simpl. rewrite Hrun. simpl. split; [assumption|].
    rewrite <- app_assoc in Hfile'. simpl in Hfile'. split; [assumption | congruence].
Qed.

(** Loading the file of storable records. *)
Lemma load_file_of cols records w :
  cols <> [] ->
  record_file w = file_of cols records ->
  Forall (kept_as_written cols) records ->
  load w =
  Ok {| patient_records :=
          match records with
          | [] => Pd.empty_frame
          | _ => {| columns := cols;
                    rows := map (fun r => map blank_as_missing (map snd r)) records |}
          end;
        record_file := record_file w;
        export_file := export_file w |}.
Proof.
  intros Hne Hfile Hrecs. unfold load. rewrite Hfile.
  destruct records as [|r0 records0]; [reflexivity|].
  assert (Hrows : map (map Pd.read_cell) (map written_row (r0 :: records0)) =
                  map (fun r => map blank_as_missing (map snd r)) (r0 :: records0)).
  { rewrite map_map. apply map_ext_in. intros r Hr. apply reloaded_row.
    rewrite Forall_forall in Hrecs. now apply Hrecs. }
  change (file_of cols (r0 :: records0))
    with (Some {| header := cols; body := map written_row (r0 :: records0) |}).
  cbv beta iota. rewrite read_csv_rect; [|assumption|].
  - cbn [bind]. now rewrite Hrows.
  - apply Forall_forall. intros line Hline. apply in_map_iff in Hline.
    destruct Hline as (r & <- & Hr). apply written_row_length.
    rewrite Forall_forall in Hrecs. now apply Hrecs.
Qed.

Lemma kind_of_storable v k : kind_of v = Some k -> storable v = true.
Proof.
  destruct v as [[z|f]|s|]; cbn [kind_of storable]; try reflexivity;
    try discriminate.
  destruct (storable_text s); [reflexivity | discriminate].
Qed.

Lemma conforms_kept schema record :
  conforms schema record -> kept_as_written (map fst schema) record.
Proof.
  unfold conforms, kept_as_written. intros H. split.
  - apply (f_equal (map fst)) in H. rewrite !map_map in H. exact H.
  - apply forallb_forall. intros v Hv. apply in_map_iff in Hv.
    destruct Hv as (kv & <- & Hkv).
    apply (in_map (fun kv => (fst kv, kind_of (snd kv)))) in Hkv.
    rewrite H in Hkv. apply in_map_iff in Hkv.
    destruct Hkv as (ck & Heq & _). injection Heq as _ Hk.
    now apply (kind_of_storable _ (snd ck)).
Qed.

Lemma conforms_all_kept schema records :
  Forall (conforms schema) records ->
  Forall (kept_as_written (map fst schema)) records.
Proof. apply Forall_impl. apply conforms_kept. Qed.

Lemma record_schema_columns features :
  map fst (record_schema features) = record_columns features.
Proof.
  unfold record_schema, record_columns. simpl.
  rewrite map_app, map_map. simpl. now rewrite map_id.
Qed.

(** C3, as stated, fails: the record of the default form carries the
    empty text as its doctor's note; after it is appended and the store is
    loaded again, the note is the missing value, so the rows that come back
    are not the rows appended. *)
Lemma blank_note_is_not_reloaded :
  assessment sample_sort sample_features sample_proba sample_predict default_input
    = Ok sample_record /\
  Frame.get "DoctorNote" sample_record = Some (VStr "") /\
  (w <- append_all [sample_record] fresh_world ;;
   w' <- load w ;;
   Pd.getitem ["PatientName"; "DoctorNote"] (patient_records w'))
    = Ok {| columns := ["PatientName"; "DoctorNote"];
            rows := [[VStr "John Doe"; VNaN]] |}.
Proof. repeat split; reflexivity. Qed.

(** C3, amended.  For every N and every sequence of N assessment records
    of one schema (the same distinct columns, with names of printable
    ASCII characters that are not empty, each holding int64 integers,
    short decimals or texts throughout) whose texts are ordinary text
    (without control characters) or empty, appending the records to a
    store without a record file and loading the store again yields exactly
    N records, in the order appended: numbers and ordinary texts are
    identical to those appended, and an empty text comes back as the
    missing value. *)
Theorem reload_after_appends
  (schema : list (string * kind)) (records : list (Row value)) (w : World) :
  NoDup (map fst schema) -> column_names (map fst schema) = true ->
  schema <> [] -> record_file w = None ->
  Forall (conforms schema) records ->
  exists w' w'',
    append_all records w = Ok w' /\
    load w' = Ok w'' /\
    rows (patient_records w'') =
      map (fun r => map blank_as_missing (map snd r)) records /\
    List.length (rows (patient_records w'')) = List.length records /\
    (records <> [] -> columns (patient_records w'') = map fst schema) /\
    (Forall (fun r => ~ In (VStr "") (map snd r)) records ->
     rows (patient_records w'') = map (map snd) records).
Proof.
  intros Hnd _ Hschema Hfile Hconf.
  set (cols := map fst schema) in *.
  assert (Hne : cols <> []) by (destruct schema; [congruence | discriminate]).
  pose proof (conforms_all_kept schema records Hconf) as Hrecs.
  fold cols in Hrecs.
  destruct (append_all_file cols records [] w Hnd Hne Hfile (Forall_nil _) Hrecs)
    as (w' & Hall & Hfile' & _).
  simpl in Hfile'.
  exists w'. eexists. split; [exact Hall|].
  split; [apply (load_file_of cols records w' Hne Hfile' Hrecs)|].
  assert (Hrows :
    rows match records with
         | [] => Pd.empty_frame
         | _ => {| columns := cols;
                   rows := map (fun r => map blank_as_missing (map snd r)) records |}
         end = map (fun r => map blank_as_missing (map snd r)) records).
  { destruct records; reflexivity. }
  cbn [patient_records]. rewrite Hrows. split; [reflexivity|].
  split; [now rewrite length_map|]. split.
  - destruct records; [congruence | reflexivity].
  - intros Hnoblank. apply map_ext_in. intros r Hr.
    rewrite Forall_forall in Hnoblank. specialize (Hnoblank r Hr).
    rewrite <- (map_id (map snd r)) at 2. apply map_ext_in.
    intros v Hv. destruct v as [n|[|c s]|]; try reflexivity. contradiction.
Qed.

Lemma reload_after_appends_witness :
  NoDup (map fst (record_schema sample_features)) /\
  column_names (map fst (record_schema sample_features)) = true /\
  record_schema sample_features <> [] /\
  record_file fresh_world = None /\
  Forall (conforms (record_schema sample_features))
         [sample_record; noted_record] /\
  exists w' w'',
    append_all [sample_record; noted_record] fresh_world = Ok w' /\
    load w' = Ok w'' /\
    rows (patient_records w'') =
      map (fun r => map blank_as_missing (map snd r))
          [sample_record; noted_record] /\
    List.length (rows (patient_records w'')) =
      List.length [sample_record; noted_record] /\
    ([sample_record; noted_record] <> [] ->
     columns (patient_records w'') = map fst (record_schema sample_features)) /\
    (Forall (fun r => ~ In (VStr "") (map snd r)) [sample_record; noted_record] ->
     rows (patient_records w'') = map (map snd) [sample_record; noted_record]).
Proof.
  assert (Hnd : NoDup (map fst (record_schema sample_features)))
    by (apply distinct_NoDup; reflexivity).
  assert (Hne : record_schema sample_features <> []) by discriminate.
  assert (Hrecs : Forall (conforms (record_schema sample_features))
                         [sample_record; noted_record])
    by (repeat constructor).
  repeat (split; [assumption || reflexivity|]).
  exact (reload_after_appends (record_schema sample_features)
           [sample_record; noted_record] fresh_world Hnd eq_refl Hne eq_refl
           Hrecs).
Defined.

(** The note of the second sample record is stored stripped and comes
    back as typed; the blank note of the first comes back missing. *)
Example reload_of_samples :
  (w <- append_all [sample_record; noted_record] fresh_world ;;
   w' <- load w ;;
   Pd.getitem ["PatientName"; "DoctorNote"] (patient_records w'))
    = Ok {| columns := ["PatientName"; "DoctorNote"];
            rows := [ [VStr "John Doe"; VNaN];
                      [VStr "Jane Roe"; VStr "wheezing at night"] ] |}.
Proof. reflexivity. Qed.

(** ** The record of an assessment *)

Lemma labels_cons {A : Type} (kv : string * A) (df : Row A) :
  Frame.labels (kv :: df) = fst kv :: Frame.labels df.
Proof. reflexivity. Qed.

Lemma labels_lift (d : Row number) :
  Frame.labels (map (fun kv => (fst kv, VNum (snd kv))) d) = Frame.labels d.
Proof. unfold Frame.labels. rewrite map_map. now apply map_ext. Qed.

Section RecordFacts.

Variable quicksort : Row number -> Row number.
Variable expected_features : list string.
Variable predict_proba : Row number -> float.
Variable predict : Row number -> Z.
Hypothesis Hwf : well_formed_features expected_features.

Lemma has_col_record (c : string) (name : value) (d : Row number)
  (added : Row value) :
  Frame.labels d = expected_features ->
  In c narrative_columns -> ~ In c (Frame.labels added) ->
  Frame.has_col c
    (("PatientName", name) :: map (fun kv => (fst kv, VNum (snd kv))) d ++ added)
  = false.
Proof.
  intros Hd Hc Hadded. apply has_col_false.
  rewrite labels_cons, labels_app, labels_lift, Hd. intros [E|Hin].
  - simpl in E. subst c. simpl in Hc. intuition discriminate.
  - apply in_app_or in Hin. destruct Hin as [Hin|Hin]; [|contradiction].
    destruct Hwf as [_ Hres]. apply (Hres c); [|assumption].
    right. now right.
Qed.

Lemma record_columns_NoDup : NoDup (record_columns expected_features).
Proof.
  destruct Hwf as [Hnd Hres]. unfold record_columns.
  assert (Hnarr : NoDup narrative_columns)
    by (apply distinct_NoDup; reflexivity).
  constructor.
  - intros Hin. apply in_app_or in Hin. destruct Hin as [Hin|Hin].
    + apply (Hres "PatientName"); [right; now left | assumption].
    + simpl in Hin. intuition discriminate.
  - apply NoDup_app; [assumption | assumption |].
    intros c Hc Hc'. apply (Hres c); [right; now right | assumption].
Qed.

(** A narrative column is not among the columns so far: [df[c] = v]
    adds it as the last column. *)
Ltac add_column c :=
  rewrite (setitem_absent c);
  [ rewrite <- ?app_comm_cons, <- ?app_assoc; cbn [app]
  | apply has_col_record;
    [ assumption
    | unfold narrative_columns; simpl;
      repeat (first [left; reflexivity | right])
    | unfold Frame.labels; simpl; intuition discriminate ] ].

(** The record: the patient's name, the feature columns, and the seven
    columns of the narrative, in this order. *)
Lemma assess_record p d t :
  Frame.labels d = expected_features ->
  top_risk_str quicksort d = Ok t ->
  assess quicksort predict_proba predict p d =
  Ok (("PatientName", VStr (patient_name p))
      :: map (fun kv => (fst kv, VNum (snd kv))) d
      ++ [ ("Prediction", VStr (label (predict d)));
           ("RiskPercent", VNum (NFloat (risk_percent (predict_proba d))));
           ("RiskLevel", VStr (risk_level (risk_percent (predict_proba d))));
           ("AgeGroup", VStr (age_group (age p)));
           ("TopRisks", VStr t);
           ("Action", VStr (action (risk_percent (predict_proba d))));
           ("DoctorNote", VStr (Py.strip (doctor_note p))) ]).
Proof.
  intros Hd Htop. unfold assess. rewrite Htop. cbn [bind].
  unfold Frame.insert_first.
  assert (Hname : Frame.has_col "PatientName"
                    (map (fun kv => (fst kv, VNum (snd kv))) d) = false).
  { apply has_col_false. rewrite labels_lift, Hd.
    destruct Hwf as [_ Hres]. apply Hres. right. now left. }
  rewrite Hname. cbn [bind].
  rewrite <- (app_nil_r (map (fun kv => (fst kv, VNum (snd kv))) d)) at 1.
  add_column "Prediction". add_column "RiskPercent". add_column "RiskLevel".
  add_column "AgeGroup". add_column "TopRisks". add_column "Action".
  add_column "DoctorNote". reflexivity.
Qed.

Lemma assess_labels p d t :
  Frame.labels d = expected_features ->
  top_risk_str quicksort d = Ok t ->
  exists record,
    assess quicksort predict_proba predict p d = Ok record /\
    Frame.labels record = record_columns expected_features.
Proof.
  intros Hd Htop. eexists. split; [apply (assess_record p d t Hd Htop)|].
  rewrite labels_cons, labels_app, labels_lift, Hd. reflexivity.
Qed.

(** From an accepted form the script builds a record with the columns of
    the file. *)
Lemma assessment_labels p :
  form_accepts p = true ->
  exists d record,
    input_data expected_features p = Ok d /\
    assess quicksort predict_proba predict p d = Ok record /\
    Frame.labels record = record_columns expected_features.
Proof.
  intros Hform.
  destruct (input_data_aligned expected_features p Hform)
    as (ratio & d & _ & Hd & Hlab & _).
  destruct (top_risk_str_defined quicksort d) as (t & Htop).
  destruct (assess_labels p d t Hlab Htop) as (record & Hrec & Hcols).
  now exists d, record.
Qed.

End RecordFacts.

(** ** Runs of the script *)

Section RunFacts.

Variable quicksort : Row number -> Row number.
Variable expected_features : list string.
Variable predict_proba : Row number -> float.
Variable predict : Row number -> Z.
Hypothesis Hwf : well_formed_features expected_features.

Let cols := record_columns expected_features.

Ltac fields :=
  unfold file_shape, store_shape;
  cbn [record_file patient_records export_file header body columns rows].
Ltac fields_in H :=
  unfold file_shape, store_shape in H;
  cbn [record_file patient_records export_file header body columns rows] in H.

Lemma record_columns_nonempty : cols <> [].
Proof. discriminate. Qed.

Lemma load_store_shape n w :
  file_shape cols n (record_file w) ->
  exists w1,
    load w = Ok w1 /\
    record_file w1 = record_file w /\
    export_file w1 = export_file w /\
    store_shape cols (patient_records w1).
Proof.
  intros Hshape. unfold load.
  destruct (record_file w) as [[h b]|] eqn:Hfile; fields_in Hshape.
  - destruct Hshape as (-> & Hlen & Hn & Hrect).
    rewrite (read_csv_rect _ _ record_columns_nonempty Hrect). cbn [bind].
    eexists. split; [reflexivity|]. fields. repeat split; try assumption.
    right. split; [reflexivity|].
    destruct b; [simpl in Hlen; congruence | discriminate].
  - eexists. split; [reflexivity|]. fields. repeat split; try assumption.
    now left.
Qed.

Lemma append_run_shape n record w :
  file_shape cols n (record_file w) ->
  Frame.labels record = cols ->
  exists w',
    append_run record w = Ok w' /\
    file_shape cols (S n) (record_file w') /\
    store_shape cols (patient_records w') /\
    export_file w' = export_file w.
Proof.
  intros Hshape Hlab.
  assert (Hnd : NoDup cols) by (now apply record_columns_NoDup).
  destruct (record_file w) as [[h b]|] eqn:Hfile; fields_in Hshape.
  - destruct Hshape as (-> & Hlen & Hn & Hrect).
    rewrite (append_run_next cols b record w Hfile Hnd record_columns_nonempty
               Hrect Hlab).
    eexists. split; [reflexivity|]. fields. repeat split.
    + rewrite length_app, length_map, Hlen. simpl. lia.
    + discriminate.
    + apply Forall_app. split.
      * apply Forall_forall. intros line Hline. apply in_map_iff in Hline.
        destruct Hline as (line0 & <- & Hline0). rewrite length_map.
        rewrite Forall_forall in Hrect. now apply Hrect.
      * constructor; [|constructor]. now apply written_row_length.
    + right. split; [reflexivity|].
      intros H. apply app_eq_nil in H. destruct H as [_ H]. discriminate.
  - rewrite (append_run_first record w Hfile) by (now rewrite Hlab).
    eexists. split; [reflexivity|]. fields. rewrite Hlab. repeat split.
    + now rewrite Hshape.
    + discriminate.
    + constructor; [|constructor]. now apply written_row_length.
    + right. split; [reflexivity | discriminate].
Qed.

Lemma history_columns_present df :
  columns df = cols -> exists t, Pd.getitem history_columns df = Ok t.
Proof.
  intros Hcols. unfold Pd.getitem.
  destruct (find _ history_columns) as [c|] eqn:Hfind; [|eexists; reflexivity].
  exfalso. apply find_some in Hfind. destruct Hfind as [Hin Hneg].
  apply negb_true_iff in Hneg.
  assert (Hex : existsb (String.eqb c) (columns df) = true); [|congruence].
  apply existsb_exists. exists c. split; [|apply String.eqb_refl].
  rewrite Hcols. unfold cols, record_columns.
  change history_columns with ("PatientName" :: narrative_columns) in Hin.
  destruct Hin as [<-|Hin]; [now left | right; apply in_or_app; now right].
Qed.

Lemma list_records_defined w :
  store_shape cols (patient_records w) -> exists t, list_records w = Ok t.
Proof.
  intros Hshape. unfold list_records.
  destruct (negb (Pd.empty (patient_records w))) eqn:Hne;
    [|eexists; reflexivity].
  destruct Hshape as [Hempty|[Hcols _]].
  - rewrite Hempty in Hne. discriminate.
  - destruct (history_columns_present _ Hcols) as (t & Ht).
    rewrite Ht. eexists. reflexivity.
Qed.

Lemma shown_or_not (show : bool) w :
  store_shape cols (patient_records w) ->
  exists t, (if show then list_records w else Ok None) = Ok t.
Proof.
  intros Hshape. destruct show; [now apply list_records_defined|].
  eexists. reflexivity.
Qed.

(** One run of the script on an accepted form: it raises nothing, and the
    record file gains a line on Predict, goes away on Clear, and stays as
    it is otherwise. *)
Lemma run_shape n ui w :
  form_accepts (form ui) = true ->
  file_shape cols n (record_file w) ->
  exists w',
    run quicksort expected_features predict_proba predict ui w = Ok w' /\
    file_shape cols (step_rows n ui) (record_file w') /\
    store_shape cols (patient_records w').
Proof.
  intros Hform Hshape.
  destruct (load_store_shape n w Hshape) as (w1 & Hload & Hfile1 & Hexp1 & Hstore1).
  destruct (assessment_labels quicksort expected_features predict_proba predict Hwf
              (form ui) Hform) as (d & record & Hd & Hrec & Hlab).
  unfold run, step_rows. rewrite Hload, Hd. cbn [bind].
  destruct (pressed ui) as [[| |]|].
  - rewrite Hrec. cbn [bind].
    destruct (append_run_shape n record w Hshape Hlab)
      as (w2 & Happ & Hfile2 & Hstore2 & _).
    unfold append_run in Happ. rewrite Hload in Happ. cbn [bind] in Happ.
    injection Happ as Happ. rewrite Happ.
    destruct (shown_or_not (show_history ui) w2 Hstore2) as (t & ->).
    cbn [bind]. now exists w2.
  - cbn [bind].
    destruct (shown_or_not (show_history ui) w1 Hstore1) as (t & ->).
    cbn [bind]. eexists. split; [reflexivity|].
    cbn [exportAll record_file patient_records]. rewrite Hfile1. now split.
  - cbn [bind].
    destruct (shown_or_not (show_history ui) w1 Hstore1) as (t & ->).
    cbn [bind]. eexists. split; [reflexivity|].
    cbn [clear record_file patient_records]. split; [reflexivity | now left].
  - cbn [bind].
    destruct (shown_or_not (show_history ui) w1 Hstore1) as (t & ->).
    cbn [bind]. exists w1. rewrite Hfile1. now repeat split.
Qed.

Lemma session_shape uis : forall n w,
  Forall (fun ui => form_accepts (form ui) = true) uis ->
  file_shape cols n (record_file w) ->
  store_shape cols (patient_records w) ->
  exists w',
    session quicksort expected_features predict_proba predict uis w = Ok w' /\
    file_shape cols (fold_left step_rows uis n) (record_file w') /\
    store_shape cols (patient_records w').
Proof.
  induction uis as [|ui uis IH]; intros n w Hforms Hfile Hstore.
  - exists w. now repeat split.
  - inversion Hforms as [|? ? Hform Hforms']; subst.
    destruct (run_shape n ui w Hform Hfile) as (w1 & Hrun & Hfile1 & Hstore1).
    destruct (IH _ w1 Hforms' Hfile1 Hstore1) as (w' & Hsess & Hfile' & Hstore').
    exists w'. simpl. rewrite Hrun. cbn [bind]. now repeat split.
Qed.

End RunFacts.

Lemma input_data_labels features p d :
  input_data features p = Ok d -> Frame.labels d = features.
Proof.
  unfold input_data. destruct (fev1_fvc_ratio p) as [ratio|e]; [|discriminate].
  cbn [bind]. rewrite aligned_frame by apply input_dict_labels_NoDup.
  intros [= <-]. unfold Frame.labels. rewrite map_map. simpl. apply map_id.
Qed.

Lemma sample_features_well_formed : well_formed_features sample_features.
Proof.
  split; [apply distinct_NoDup; reflexivity|].
  intros col Hcol Hin. simpl in Hcol.
  repeat (destruct Hcol as [<-|Hcol]; [simpl in Hin; intuition discriminate|]).
  contradiction.
Qed.

Lemma other_features_well_formed : well_formed_features other_features.
Proof.
  split; [apply distinct_NoDup; reflexivity|].
  intros col Hcol Hin. simpl in Hcol.
  repeat (destruct Hcol as [<-|Hcol]; [simpl in Hin; intuition discriminate|]).
  contradiction.
Qed.

(** C9, as stated, fails.  For a model that declares a feature called
    Prediction, line 128 overwrites the column of the feature instead of
    adding one, and the file has 9 columns where the layout of the claim has
    10.  And when the record file was written for another model, the file
    keeps the columns of that model and gets the new features at its end,
    after DoctorNote. *)
Lemma record_layout_depends_on_features_and_file :
  (w <- session sample_sort overlapping_features sample_proba sample_predict
          [press Predict default_input] fresh_world ;;
   Ok (option_map header (record_file w)))
  = Ok (Some [ "PatientName"; "Age"; "Prediction"; "RiskPercent"; "RiskLevel";
               "AgeGroup"; "TopRisks"; "Action"; "DoctorNote" ]) /\
  "PatientName" :: overlapping_features ++ narrative_columns
  = [ "PatientName"; "Age"; "Prediction"; "Prediction"; "RiskPercent";
      "RiskLevel"; "AgeGroup"; "TopRisks"; "Action"; "DoctorNote" ] /\
  (w <- run sample_sort other_features sample_proba sample_predict
          (press Predict default_input) stored_world ;;
   Ok (option_map header (record_file w)))
  = Ok (Some [ "PatientName"; "Age"; "BMI"; "Smoking"; "DustExposure";
               "Gender"; "SymptomScore"; "Prediction"; "RiskPercent";
               "RiskLevel"; "AgeGroup"; "TopRisks"; "Action"; "DoctorNote";
               "PollenExposure" ]) /\
  "PatientName" :: other_features ++ narrative_columns
  = [ "PatientName"; "Age"; "PollenExposure"; "Smoking"; "Prediction";
      "RiskPercent"; "RiskLevel"; "AgeGroup"; "TopRisks"; "Action";
      "DoctorNote" ].
Proof. repeat split; vm_compute; reflexivity. Qed.

(** C9, amended.  For a model whose feature names are distinct, not
    empty, of printable ASCII characters and none the name of a column the
    script adds, and for forms whose patient name and stripped note hold no
    control character: in every session that starts without a record file,
    the file, once written, has the header PatientName, the model's
    declared features in their declared order, Prediction, RiskPercent,
    RiskLevel, AgeGroup, TopRisks, Action, DoctorNote; it has one line per
    assessment (since the store was last cleared), each with one field per
    column; and every record the script builds has these columns. *)
Theorem record_file_layout
  (quicksort : Row number -> Row number)
  (expected_features : list string) (predict_proba : Row number -> float)
  (predict : Row number -> Z) (uis : list Interaction) :
  well_formed_features expected_features ->
  column_names expected_features = true ->
  Forall (fun ui => form_accepts (form ui) = true /\
                    keeps_lines (form ui) = true) uis ->
  exists w,
    session quicksort expected_features predict_proba predict uis fresh_world = Ok w /\
    match record_file w with
    | None => rows_kept uis = O
    | Some f =>
        header f =
          "PatientName" :: expected_features ++
          [ "Prediction"; "RiskPercent"; "RiskLevel"; "AgeGroup"; "TopRisks";
            "Action"; "DoctorNote" ] /\
        List.length (body f) = rows_kept uis /\
        Forall (fun line => List.length line = List.length (header f)) (body f)
    end /\
    (forall p d record,
        input_data expected_features p = Ok d ->
        assess quicksort predict_proba predict p d = Ok record ->
        Frame.labels record =
          "PatientName" :: expected_features ++
          [ "Prediction"; "RiskPercent"; "RiskLevel"; "AgeGroup"; "TopRisks";
            "Action"; "DoctorNote" ]).
Proof.
  intros Hwf _ Hplain.
  assert (Hforms : Forall (fun ui => form_accepts (form ui) = true) uis).
  { eapply Forall_impl; [|exact Hplain]. now intros ui [H _]. }
  destruct (session_shape quicksort expected_features predict_proba predict Hwf uis
              O fresh_world Hforms eq_refl (or_introl eq_refl))
    as (w & Hsess & Hfile & _).
  exists w. split; [exact Hsess|]. split.
  - unfold file_shape in Hfile. fold (rows_kept uis) in Hfile.
    destruct (record_file w) as [f|]; [|assumption].
    destruct Hfile as (Hh & Hlen & _ & Hrect).
    split; [exact Hh|]. split; [exact Hlen|]. now rewrite Hh.
  - intros p d record Hd Hrec. apply input_data_labels in Hd.
    destruct (top_risk_str quicksort d) as [t|e] eqn:Htop.
    + destruct (assess_labels quicksort expected_features predict_proba predict Hwf
                  p d t Hd Htop) as (record' & Hrec' & Hlab).
      assert (record' = record) by congruence. now subst.
    + unfold assess in Hrec. rewrite Htop in Hrec. discriminate.
Qed.

Lemma record_file_layout_witness :
  well_formed_features sample_features /\
  column_names sample_features = true /\
  Forall (fun ui => form_accepts (form ui) = true /\
                    keeps_lines (form ui) = true)
         [press Predict default_input; press Predict noted_input] /\
  exists w,
    session sample_sort sample_features sample_proba sample_predict
      [press Predict default_input; press Predict noted_input] fresh_world
      = Ok w /\
    match record_file w with
    | None => rows_kept [press Predict default_input; press Predict noted_input] = O
    | Some f =>
        header f =
          "PatientName" :: sample_features ++
          [ "Prediction"; "RiskPercent"; "RiskLevel"; "AgeGroup"; "TopRisks";
            "Action"; "DoctorNote" ] /\
        List.length (body f) =
          rows_kept [press Predict default_input; press Predict noted_input] /\
        Forall (fun line => List.length line = List.length (header f)) (body f)
    end /\
    (forall p d record,
        input_data sample_features p = Ok d ->
        assess sample_sort sample_proba sample_predict p d = Ok record ->
        Frame.labels record =
          "PatientName" :: sample_features ++
          [ "Prediction"; "RiskPercent"; "RiskLevel"; "AgeGroup"; "TopRisks";
            "Action"; "DoctorNote" ]).
Proof.
  assert (Hforms : Forall (fun ui => form_accepts (form ui) = true /\
                                     keeps_lines (form ui) = true)
                     [press Predict default_input; press Predict noted_input])
    by (repeat constructor).
  split; [exact sample_features_well_formed|]. split; [reflexivity|].
  split; [exact Hforms|].
  exact (record_file_layout sample_sort sample_features sample_proba
           sample_predict
           [press Predict default_input; press Predict noted_input]
           sample_features_well_formed eq_refl Hforms).
Defined.

(** The file after the two sample assessments. *)
Example record_file_of_samples :
  (w <- session sample_sort sample_features sample_proba sample_predict
          [press Predict default_input; press Predict noted_input] fresh_world ;;
   Ok (record_file w))
  = Ok (Some {| header := record_columns sample_features;
                body := [written_row sample_record; written_row noted_record] |}).
Proof. reflexivity. Qed.

(** C6, as stated, fails: the empty store is the frame without columns
    (the record file is missing, or the store was cleared), and its export
    writes no cell at all; the worksheet has no header row. *)
Lemma export_of_empty_store_lacks_header :
  (w <- session sample_sort sample_features sample_proba sample_predict
          [press Export default_input] fresh_world ;;
   Ok (Pd.empty (patient_records w), export_file w)) = Ok (true, Some []) /\
  (w <- session sample_sort sample_features sample_proba sample_predict
          [press Predict default_input; press Clear default_input;
           press Export default_input] fresh_world ;;
   Ok (Pd.empty (patient_records w), export_file w)) = Ok (true, Some []) /\
  has_header_row [] = false.
Proof. repeat split; reflexivity. Qed.

(** C6, amended.  In every state a session reaches, an empty store is the
    frame without columns, and exporting it produces a worksheet without
    any cell: no data rows and no header row either. *)
Theorem export_of_empty_store
  (quicksort : Row number -> Row number)
  (expected_features : list string) (predict_proba : Row number -> float)
  (predict : Row number -> Z) (uis : list Interaction) (w : World) :
  well_formed_features expected_features ->
  Forall (fun ui => form_accepts (form ui) = true) uis ->
  session quicksort expected_features predict_proba predict uis fresh_world = Ok w ->
  Pd.empty (patient_records w) = true ->
  patient_records w = Pd.empty_frame /\
  export_file (exportAll w) = Some [] /\
  has_header_row (Pd.to_excel (patient_records w)) = false.
Proof.
  intros Hwf Hforms Hsess Hempty.
  destruct (session_shape quicksort expected_features predict_proba predict Hwf uis
              O fresh_world Hforms eq_refl (or_introl eq_refl))
    as (w' & Hsess' & _ & Hstore).
  assert (w' = w) by congruence. subst w'.
  destruct Hstore as [Hdf|[Hcols Hrows]].
  - unfold exportAll. simpl. rewrite Hdf. now repeat split.
  - exfalso. unfold Pd.empty in Hempty. rewrite Hcols in Hempty.
    unfold record_columns in Hempty.
    destruct (rows (patient_records w)); [contradiction | discriminate].
Qed.

Lemma export_of_empty_store_witness :
  well_formed_features sample_features /\
  Forall (fun ui => form_accepts (form ui) = true)
         [press Predict default_input; press Clear default_input] /\
  session sample_sort sample_features sample_proba sample_predict
    [press Predict default_input; press Clear default_input] fresh_world
    = Ok fresh_world /\
  Pd.empty (patient_records fresh_world) = true /\
  patient_records fresh_world = Pd.empty_frame /\
  export_file (exportAll fresh_world) = Some [] /\
  has_header_row (Pd.to_excel (patient_records fresh_world)) = false.
Proof.
  assert (Hforms : Forall (fun ui => form_accepts (form ui) = true)
                     [press Predict default_input; press Clear default_input])
    by (repeat constructor).
  split; [exact sample_features_well_formed|]. split; [exact Hforms|].
  split; [reflexivity|]. split; [reflexivity|].
  exact (export_of_empty_store sample_sort sample_features sample_proba sample_predict
           [press Predict default_input; press Clear default_input] fresh_world
           sample_features_well_formed Hforms eq_refl eq_refl).
Defined.

(** A store with records is exported with its header row. *)
Example export_of_samples :
  (w <- session sample_sort sample_features sample_proba sample_predict
          [press Predict default_input; press Export default_input] fresh_world ;;
   Ok (option_map has_header_row (export_file w),
       option_map (@List.length ExcelCell) (export_file w)))
  = Ok (Some true, Some 28%nat).
Proof. reflexivity. Qed.

(** C7.  Clearing leaves the session with the frame without columns and
    removes the record file, and a load after it returns the empty store;
    loading without a record file returns the empty store and raises
    nothing; and so does a run of the script in which Clear is pressed,
    whenever the run reaches line 158. *)
Theorem clear_then_load :
  (forall w,
      patient_records (clear w) = Pd.empty_frame /\
      record_file (clear w) = None /\
      load (clear w) = Ok (clear w)) /\
  (forall w, record_file w = None ->
             exists w', load w = Ok w' /\
                        patient_records w' = Pd.empty_frame /\
                        record_file w' = None) /\
  (forall quicksort features proba predict ui w w',
      pressed ui = Some Clear ->
      run quicksort features proba predict ui w = Ok w' ->
      patient_records w' = Pd.empty_frame /\ record_file w' = None /\
      exists w'', load w' = Ok w'' /\ patient_records w'' = Pd.empty_frame).
Proof.
  split; [|split].
  - intros w. repeat split.
  - intros w Hfile. unfold load. rewrite Hfile. cbn [bind].
    eexists. split; [reflexivity|]. now split.
  - intros quicksort features proba predict ui w w' Hclear Hrun.
    unfold run in Hrun. rewrite Hclear in Hrun.
    destruct (load w) as [w1|]; [|discriminate]. cbn [bind] in Hrun.
    destruct (input_data features (form ui)); [|discriminate].
    cbn [bind] in Hrun.
    destruct (if show_history ui then list_records w1 else Ok None);
      [|discriminate].
    cbn [bind] in Hrun. injection Hrun as <-.
    repeat split. eexists. split; reflexivity.
Qed.

Lemma clear_then_load_witness :
  record_file fresh_world = None /\
  exists w', load fresh_world = Ok w' /\
             patient_records w' = Pd.empty_frame /\
             record_file w' = None.
Proof.
  split; [reflexivity|].
  exact (proj1 (proj2 clear_then_load) fresh_world eq_refl).
Defined.

(** C5, as stated, fails: a record whose note reads "N/A" is written
    with that note; the next assessment loads the file, where the note is
    read as a missing value, and writes the line again with an empty
    note. *)
Lemma na_note_erased_by_next_append :
  (w <- session sample_sort sample_features sample_proba sample_predict
          [press Predict na_note_input] fresh_world ;;
   Ok (file_column "DoctorNote" (record_file w)))
    = Ok [Some (CText "N/A")] /\
  (w <- session sample_sort sample_features sample_proba sample_predict
          [press Predict na_note_input; press Predict default_input] fresh_world ;;
   Ok (file_column "DoctorNote" (record_file w)))
    = Ok [Some (CText ""); Some (CText "")].
Proof. split; reflexivity. Qed.

Lemma file_of_shape cols done :
  Forall (kept_as_written cols) done ->
  file_shape cols (List.length done) (file_of cols done).
Proof.
  intros Hdone. destruct done as [|r done]; [reflexivity|].
  unfold file_of, file_shape. cbn [header body].
  split; [reflexivity|]. split; [now rewrite length_map|].
  split; [discriminate|].
  apply Forall_forall. intros line Hline. apply in_map_iff in Hline.
  destruct Hline as (r' & <- & Hr'). apply written_row_length.
  rewrite Forall_forall in Hdone. now apply Hdone.
Qed.

Section AppendOnly.

Variable quicksort : Row number -> Row number.
Variable expected_features : list string.
Variable predict_proba : Row number -> float.
Variable predict : Row number -> Z.
Hypothesis Hwf : well_formed_features expected_features.

(** What a run of the script on an accepted form comes to: the store is
    loaded and then, by the button pressed, extended, exported, cleared or
    left alone. *)
Lemma run_cases n ui w :
  form_accepts (form ui) = true ->
  file_shape (record_columns expected_features) n (record_file w) ->
  exists w1 record,
    load w = Ok w1 /\
    assessment quicksort expected_features predict_proba predict (form ui) = Ok record /\
    Frame.labels record = record_columns expected_features /\
    run quicksort expected_features predict_proba predict ui w =
    Ok match pressed ui with
       | Some Predict => append record w1
       | Some Export => exportAll w1
       | Some Clear => clear w1
       | None => w1
       end.
Proof.
  intros Hform Hshape.
  destruct (load_store_shape expected_features n w Hshape)
    as (w1 & Hload & Hfile1 & Hexp1 & Hstore1).
  destruct (assessment_labels quicksort expected_features predict_proba predict Hwf
              (form ui) Hform) as (d & record & Hd & Hrec & Hlab).
  exists w1, record. split; [exact Hload|]. split.
  { unfold assessment. rewrite Hd. exact Hrec. }
  split; [exact Hlab|].
  unfold run. rewrite Hload, Hd. cbn [bind].
  destruct (pressed ui) as [[| |]|].
  - rewrite Hrec. cbn [bind].
    destruct (append_run_shape expected_features Hwf n record w Hshape Hlab)
      as (w2 & Happ & _ & Hstore2 & _).
    unfold append_run in Happ. rewrite Hload in Happ. cbn [bind] in Happ.
    injection Happ as Happ. rewrite Happ.
    destruct (shown_or_not expected_features (show_history ui) w2 Hstore2)
      as (t & ->).
    reflexivity.
  - cbn [bind].
    destruct (shown_or_not expected_features (show_history ui) w1 Hstore1)
      as (t & ->).
    reflexivity.
  - cbn [bind].
    destruct (shown_or_not expected_features (show_history ui) w1 Hstore1)
      as (t & ->).
    reflexivity.
  - cbn [bind].
    destruct (shown_or_not expected_features (show_history ui) w1 Hstore1)
      as (t & ->).
    reflexivity.
Qed.

End AppendOnly.

(** C5, amended.  On a record file whose records have the schema of the
    model's records (feature names of printable ASCII characters that are
    not empty, int64 integers and short decimals) and whose texts are
    ordinary (without control characters) or empty, and for a form whose
    name and note hold no control character and whose note is an ASCII
    text, a run of the script in which Predict is pressed adds exactly one
    record at the end - of the file and of the store in the session - and
    leaves every earlier record as it was; a run in which Clear is pressed
    erases all records, file included; any other run leaves the record
    file as it is. *)
Theorem append_only
  (quicksort : Row number -> Row number)
  (expected_features : list string) (predict_proba : Row number -> float)
  (predict : Row number -> Z) (ui : Interaction) (w : World)
  (done : list (Row value)) :
  well_formed_features expected_features ->
  column_names expected_features = true ->
  form_accepts (form ui) = true ->
  keeps_lines (form ui) = true ->
  is_ascii (doctor_note (form ui)) = true ->
  Forall (conforms (record_schema expected_features)) done ->
  record_file w = file_of (record_columns expected_features) done ->
  exists w',
    run quicksort expected_features predict_proba predict ui w = Ok w' /\
    match pressed ui with
    | Some Predict =>
        exists record,
          assessment quicksort expected_features predict_proba predict (form ui)
            = Ok record /\
          record_file w' =
            file_of (record_columns expected_features) (done ++ [record]) /\
          rows (patient_records w') =
            map (fun r => map blank_as_missing (map snd r)) done
            ++ [map snd record]
    | Some Clear =>
        record_file w' = None /\ patient_records w' = Pd.empty_frame
    | _ => record_file w' = record_file w
    end.
Proof.
  intros Hwf _ Hform _ _ Hconf Hfile.
  pose proof (conforms_all_kept _ _ Hconf) as Hdone.
  rewrite record_schema_columns in Hdone.
  set (cols := record_columns expected_features) in *.
  assert (Hshape : file_shape cols (List.length done) (record_file w)).
  { rewrite Hfile. now apply file_of_shape. }
  destruct (run_cases quicksort expected_features predict_proba predict Hwf
              (List.length done) ui w Hform Hshape)
    as (w1 & record & Hload & Hrec & Hlab & Hrun).
  assert (Hne : cols <> []) by discriminate.
  pose proof (load_file_of cols done w Hne Hfile Hdone) as Hload'.
  rewrite Hload in Hload'. injection Hload' as Hw1.
  eexists. split; [exact Hrun|].
  destruct (pressed ui) as [[| |]|].
  - exists record. split; [exact Hrec|].
    destruct (append_run_file cols done record w
                (record_columns_NoDup expected_features Hwf) Hne Hfile Hdone Hlab)
      as (w2 & Happ & Hfile2 & _).
    unfold append_run in Happ. rewrite Hload in Happ. cbn [bind] in Happ.
    injection Happ as Happ. rewrite Happ. split; [exact Hfile2|].
    rewrite <- Happ. unfold append. cbn [patient_records].
    rewrite Hw1. cbn [patient_records].
    destruct done as [|r0 done0].
    + rewrite concat_empty; [reflexivity|].
      rewrite Hlab. now apply record_columns_NoDup.
    + rewrite concat_same; cbn [columns rows].
      * reflexivity.
      * now apply record_columns_NoDup.
      * exact Hlab.
      * apply Forall_forall. intros r Hr. apply in_map_iff in Hr.
        destruct Hr as (r' & <- & Hr'). rewrite !length_map.
        rewrite Forall_forall in Hdone. destruct (Hdone r' Hr') as [Hl _].
        rewrite <- Hl. unfold Frame.labels. now rewrite length_map.
  - rewrite Hw1. reflexivity.
  - split; reflexivity.
  - rewrite Hw1. reflexivity.
Qed.

Lemma append_only_witness :
  well_formed_features sample_features /\
  column_names sample_features = true /\
  form_accepts (form (press Predict noted_input)) = true /\
  keeps_lines (form (press Predict noted_input)) = true /\
  is_ascii (doctor_note (form (press Predict noted_input))) = true /\
  Forall (conforms (record_schema sample_features)) [sample_record] /\
  record_file stored_world =
    file_of (record_columns sample_features) [sample_record] /\
  exists w',
    run sample_sort sample_features sample_proba sample_predict
        (press Predict noted_input) stored_world = Ok w' /\
    exists record,
      assessment sample_sort sample_features sample_proba sample_predict noted_input
        = Ok record /\
      record_file w' =
        file_of (record_columns sample_features) ([sample_record] ++ [record]) /\
      rows (patient_records w') =
        map (fun r => map blank_as_missing (map snd r)) [sample_record]
        ++ [map snd record].
Proof.
  assert (Hdone : Forall (conforms (record_schema sample_features))
                         [sample_record]) by (repeat constructor).
  split; [exact sample_features_well_formed|].
  do 4 (split; [reflexivity|]).
  split; [exact Hdone|]. split; [reflexivity|].
  exact (append_only sample_sort sample_features sample_proba sample_predict
           (press Predict noted_input) stored_world [sample_record]
           sample_features_well_formed eq_refl eq_refl eq_refl eq_refl
           Hdone eq_refl).
Defined.

(** ** The records the script builds are storable *)

Lemma ordinary_storable s : ordinary_text s = true -> storable_text s = true.
Proof. destruct s; [reflexivity | trivial]. Qed.

Lemma printable_app (a b : string) :
  printable (a ++ b)%string = printable a && printable b.
Proof.
  induction a as [|x a IH]; simpl; [reflexivity|].
  now rewrite IH, andb_assoc.
Qed.

Lemma string_app_nil_r (a : string) : (a ++ "")%string = a.
Proof. induction a as [|x a IH]; simpl; [reflexivity | now rewrite IH]. Qed.

Lemma candidate_printable n : In n risk_factors -> printable n = true.
Proof.
  unfold risk_factors. simpl. intros H.
  repeat (destruct H as [<-|H]; [reflexivity|]). contradiction.
Qed.

(** The names of candidate fields joined with ", " hold no control
    character. *)
Lemma join_candidates_printable names :
  (forall n, In n names -> In n risk_factors) ->
  printable (Py.join ", " names) = true.
Proof.
  unfold Py.join. induction names as [|n rest IH]; intros Hin; [reflexivity|].
  assert (Hn : printable n = true) by (apply candidate_printable, Hin; now left).
  assert (Hrest : printable (String.concat ", " rest) = true).
  { apply IH. intros m Hm. apply Hin. now right. }
  cbn [String.concat]. destruct rest as [|n' rest]; [exact Hn|].
  rewrite !printable_app, Hn, Hrest. reflexivity.
Qed.

(** A text that begins with the name of a candidate field, and goes on
    without control characters, is ordinary. *)
Lemma candidate_prefix_ordinary n t :
  In n risk_factors -> printable t = true -> ordinary_text (n ++ t) = true.
Proof.
  intros H Ht.
  assert (Hp : printable (n ++ t) = true).
  { now rewrite printable_app, (candidate_printable n H), Ht. }
  revert Hp. unfold risk_factors in H. simpl in H.
  repeat (destruct H as [<-|H];
          [ unfold ordinary_text; cbn [String.append]; cbv beta iota;
            intros ->; vm_compute; reflexivity |]).
  contradiction.
Qed.

Lemma join_candidates_storable names :
  (forall n, In n names -> In n risk_factors) ->
  storable_text (Py.join ", " names) = true.
Proof.
  destruct names as [|n rest]; intros Hin; [reflexivity|].
  assert (Hn : In n risk_factors) by (apply Hin; now left).
  apply ordinary_storable. unfold Py.join. cbn [String.concat].
  destruct rest as [|n' rest].
  - rewrite <- (string_app_nil_r n). now apply candidate_prefix_ordinary.
  - apply candidate_prefix_ordinary; [exact Hn|].
    change (printable (", " ++ Py.join ", " (n' :: rest)) = true).
    rewrite printable_app. cbn [andb printable is_printable].
    rewrite join_candidates_printable; [reflexivity|].
    intros m Hm. apply Hin. now right.
Qed.

Lemma narrative_texts_storable (prediction age : Z) (r : float) :
  storable_text (label prediction) = true /\
  storable_text (risk_level r) = true /\
  storable_text (age_group age) = true /\
  storable_text (action r) = true.
Proof.
  unfold label, risk_level, age_group, action.
  destruct (prediction =? 1), (r <? 30)%float, (r <? 70)%float,
    (age <? 13), (age <? 60), (70 <=? r)%float, (40 <=? r)%float;
    repeat split; reflexivity.
Qed.

Lemma slider_int64 lo hi x :
  int64 lo = true -> int64 hi = true -> slider_int lo hi x = true ->
  int64 x = true.
Proof.
  unfold int64, slider_int. change (2 ^ 63) with 9223372036854775808.
  rewrite !andb_true_iff, !Z.leb_le, !Z.ltb_lt. lia.
Qed.

Lemma selectbox_int64 x : selectbox [0; 1] x = true -> int64 x = true.
Proof.
  unfold selectbox. cbn [existsb]. rewrite !orb_true_iff, !Z.eqb_eq.
  intros [->|[->|H]]; [reflexivity | reflexivity | discriminate H].
Qed.

#[local] Arguments int64 : simpl never.
#[local] Arguments short_decimal : simpl never.

(** The kind of a feature column does not depend on the form, for an
    accepted form whose floats are short decimals. *)
Lemma declared_kind p ratio col :
  form_accepts p = true ->
  short_decimal (bmi p) = true -> short_decimal (fev1 p) = true ->
  short_decimal (fvc p) = true -> short_decimal ratio = true ->
  kind_of (VNum (declared_value (input_dict p ratio) col))
  = Some (collected_kind col).
Proof.
  intros Hform Hbmi Hfev1 Hfvc Hratio. unfold form_accepts in Hform.
  do 14 (apply andb_prop in Hform; destruct Hform as [Hform ?]).
  repeat match goal with
         | H : slider_int _ _ _ = true |- _ =>
             apply slider_int64 in H; [|reflexivity|reflexivity]
         | H : selectbox _ _ = true |- _ => apply selectbox_int64 in H
         end.
  unfold declared_value, Frame.get, input_dict, collected_kind.
  cbn [find fst snd option_map existsb].
  repeat match goal with
         | |- context [String.eqb ?k col] =>
             destruct (String.eqb_spec k col) as [<-|?];
             [simpl;
              repeat match goal with
                     | H : int64 _ = true |- _ => rewrite H; clear H
                     | H : short_decimal _ = true |- _ => rewrite H; clear H
                     end;
              reflexivity|]
         end.
  repeat match goal with
         | |- context [String.eqb col ?k] =>
             destruct (String.eqb_spec col k) as [->|?]; [congruence|]
         end.
  reflexivity.
Qed.

Section StorableRecords.

Variable quicksort : Row number -> Row number.
Variable expected_features : list string.
Variable predict_proba : Row number -> float.
Variable predict : Row number -> Z.
Hypothesis Hkind : sorts_ascending quicksort.
Hypothesis Hwf : well_formed_features expected_features.
Hypothesis Hpercent :
  forall d, short_decimal (risk_percent (predict_proba d)) = true.

(** A patient name and a stripped note that are ordinary or empty, and
    floats that are short decimals, make the record one of the schema of
    the model. *)
Lemma assessment_storable p :
  form_accepts p = true ->
  short_floats p = true ->
  storable_text (patient_name p) = true ->
  storable_text (Py.strip (doctor_note p)) = true ->
  exists record,
    assessment quicksort expected_features predict_proba predict p = Ok record /\
    conforms (record_schema expected_features) record.
Proof.
  intros Hform Hshort Hname Hnote. destruct Hwf as [Hnd _].
  unfold short_floats in Hshort.
  apply andb_prop in Hshort. destruct Hshort as [Hshort Hsratio].
  apply andb_prop in Hshort. destruct Hshort as [Hshort Hsfvc].
  apply andb_prop in Hshort. destruct Hshort as [Hsbmi Hsfev1].
  destruct (top_risks_ranked quicksort expected_features p Hkind Hnd Hform)
    as (d & ranked & Hd & Htop & Hperm & _).
  destruct (input_data_aligned expected_features p Hform)
    as (ratio & d' & Hratio & Hd' & Hlab & Hmap).
  assert (d' = d) as -> by congruence.
  rewrite (ratio_defined p Hform) in Hratio. injection Hratio as <-.
  assert (Hstr : top_risk_str quicksort d = Ok (Py.join ", " (map fst (firstn 3 ranked)))).
  { unfold top_risk_str. rewrite Htop. reflexivity. }
  pose proof (assess_record quicksort expected_features predict_proba predict Hwf
                p d _ Hlab Hstr) as Hrec.
  eexists. split; [unfold assessment; rewrite Hd; exact Hrec|].
  assert (Hjoin : storable_text (Py.join ", " (map fst (firstn 3 ranked))) = true).
  { apply join_candidates_storable. intros n Hn.
    apply in_map_iff in Hn. destruct Hn as (kv & <- & Hkv).
    apply In_firstn in Hkv. apply (Permutation_in _ Hperm) in Hkv.
    apply filter_In in Hkv. destruct Hkv as [Hkv _].
    change risk_factors with (map fst (risk_values p)). now apply in_map. }
  destruct (narrative_texts_storable (predict d) (age p)
              (risk_percent (predict_proba d))) as (H1 & H2 & H3 & H4).
  unfold conforms, record_schema.
  cbn [map fst snd kind_of]. rewrite Hname.
  rewrite !map_app. cbn [map fst snd kind_of].
  rewrite H1, H2, H3, H4, Hjoin, Hnote, Hpercent. do 2 f_equal.
  rewrite Hmap, !map_map. cbn [fst snd]. apply map_ext. intros col.
  now rewrite declared_kind.
Qed.

(** The session in which Predict is pressed on one form after the other
    is the sequence of appends of their records. *)
Lemma session_of_predicts ps : forall done w,
  Forall (fun p => form_accepts p = true /\
                   short_floats p = true /\
                   storable_text (patient_name p) = true /\
                   storable_text (Py.strip (doctor_note p)) = true) ps ->
  Forall (conforms (record_schema expected_features)) done ->
  record_file w = file_of (record_columns expected_features) done ->
  exists records w',
    Forall2 (fun p r =>
               assessment quicksort expected_features predict_proba predict p = Ok r)
            ps records /\
    Forall (conforms (record_schema expected_features)) records /\
    session quicksort expected_features predict_proba predict
            (map (press Predict) ps) w = Ok w' /\
    record_file w' = file_of (record_columns expected_features) (done ++ records).
Proof.
  induction ps as [|p ps IH]; intros done w Hps Hconf Hfile.
  - exists [], w. rewrite app_nil_r. repeat split; try constructor. assumption.
  - inversion Hps as [|? ? (Hform & Hshort & Hname & Hnote) Hps']; subst.
    destruct (assessment_storable p Hform Hshort Hname Hnote)
      as (record & Hrec & Hkept).
    pose proof (conforms_all_kept _ _ Hconf) as Hdone.
    rewrite record_schema_columns in Hdone.
    assert (Hshape : file_shape (record_columns expected_features)
                       (List.length done) (record_file w)).
    { rewrite Hfile. now apply file_of_shape. }
    destruct (run_cases quicksort expected_features predict_proba predict Hwf _
                (press Predict p) w Hform Hshape)
      as (w1 & record' & Hload & Hrec' & Hlab & Hrun).
    cbn [press form pressed] in Hrec', Hrun.
    assert (record' = record) by congruence. subst record'.
    destruct (append_run_file (record_columns expected_features) done record w
                (record_columns_NoDup expected_features Hwf)
                (record_columns_nonempty expected_features) Hfile Hdone Hlab)
      as (w2 & Happ & Hfile2 & _).
    unfold append_run in Happ. rewrite Hload in Happ. cbn [bind] in Happ.
    injection Happ as Happ.
    destruct (IH (done ++ [record]) w2 Hps') as (records & w' & Hall & Hkepts & Hsess & Hfile');
      [apply Forall_app; split; [assumption | now constructor] | assumption |].
    exists (record :: records), w'. repeat split.
    + now constructor.
    + now constructor.
    + cbn [map session]. rewrite Hrun, Happ. cbn [bind]. exact Hsess.
    + rewrite <- app_assoc in Hfile'. exact Hfile'.
Qed.

End StorableRecords.

(** X12.  The round trip through the script.  For a sort that meets the
    guarantee of the library, a model with well-formed feature names of
    printable ASCII characters whose risk percentages are short decimals,
    and accepted forms whose floats
    are short decimals, whose patient name is an ordinary text or empty,
    and whose note is an ASCII text that, stripped, is ordinary or empty:
    when Predict is pressed on one form after the other, starting without
    a record file, every run succeeds, and a load of the record file
    returns one row per form, in order, under the columns of the records;
    the row holds the values of the record the script built for the form,
    an empty text (a blank note) as the missing value. *)
Theorem script_round_trip
  (quicksort : Row number -> Row number)
  (expected_features : list string) (predict_proba : Row number -> float)
  (predict : Row number -> Z) (ps : list PatientInput) :
  sorts_ascending quicksort ->
  well_formed_features expected_features ->
  column_names expected_features = true ->
  (forall d, short_decimal (risk_percent (predict_proba d)) = true) ->
  Forall (fun p => form_accepts p = true /\
                   short_floats p = true /\
                   storable_text (patient_name p) = true /\
                   is_ascii (doctor_note p) = true /\
                   storable_text (Py.strip (doctor_note p)) = true) ps ->
  exists records w w',
    Forall2 (fun p r =>
               assessment quicksort expected_features predict_proba predict p = Ok r)
            ps records /\
    session quicksort expected_features predict_proba predict
            (map (press Predict) ps) fresh_world = Ok w /\
    load w = Ok w' /\
    (ps <> [] -> columns (patient_records w') = record_columns expected_features) /\
    rows (patient_records w') =
      map (fun r => map blank_as_missing (map snd r)) records.
Proof.
  intros Hkind Hwf _ Hpercent Hps.
  assert (Hps' : Forall (fun p => form_accepts p = true /\
                                  short_floats p = true /\
                                  storable_text (patient_name p) = true /\
                                  storable_text (Py.strip (doctor_note p)) = true)
                        ps).
  { eapply Forall_impl; [|exact Hps]. cbv beta. intros p H. tauto. }
  destruct (session_of_predicts quicksort expected_features predict_proba predict
              Hkind Hwf Hpercent ps [] fresh_world Hps' (Forall_nil _) eq_refl)
    as (records & w & Hall & Hconf & Hsess & Hfile).
  cbn [app] in Hfile.
  pose proof (conforms_all_kept _ _ Hconf) as Hkept.
  rewrite record_schema_columns in Hkept.
  exists records, w. eexists. split; [exact Hall|]. split; [exact Hsess|].
  split.
  - apply (load_file_of (record_columns expected_features) records w
             (record_columns_nonempty expected_features) Hfile Hkept).
  - cbn [patient_records]. destruct Hall as [|p r ps' records' _ _].
    + split; [intros H; now contradiction H | reflexivity].
    + split; reflexivity.
Qed.

Lemma script_round_trip_witness :
  sorts_ascending sample_sort /\
  well_formed_features sample_features /\
  column_names sample_features = true /\
  (forall d, short_decimal (risk_percent (sample_proba d)) = true) /\
  Forall (fun p => form_accepts p = true /\
                   short_floats p = true /\
                   storable_text (patient_name p) = true /\
                   is_ascii (doctor_note p) = true /\
                   storable_text (Py.strip (doctor_note p)) = true)
         [default_input; noted_input] /\
  exists records w w',
    Forall2 (fun p r =>
               assessment sample_sort sample_features sample_proba sample_predict p = Ok r)
            [default_input; noted_input] records /\
    session sample_sort sample_features sample_proba sample_predict
            (map (press Predict) [default_input; noted_input]) fresh_world = Ok w /\
    load w = Ok w' /\
    ([default_input; noted_input] <> [] ->
     columns (patient_records w') = record_columns sample_features) /\
    rows (patient_records w') =
      map (fun r => map blank_as_missing (map snd r)) records.
Proof.
  assert (Hpercent : forall d,
             short_decimal (risk_percent (sample_proba d)) = true).
  { intros d. vm_compute. reflexivity. }
  assert (Hps : Forall (fun p => form_accepts p = true /\
                                 short_floats p = true /\
                                 storable_text (patient_name p) = true /\
                                 is_ascii (doctor_note p) = true /\
                                 storable_text (Py.strip (doctor_note p)) = true)
                       [default_input; noted_input]).
  { repeat constructor. }
  split; [exact stable_sort_sorts_ascending|].
  split; [exact sample_features_well_formed|]. split; [reflexivity|].
  split; [exact Hpercent|]. split; [exact Hps|].
  exact (script_round_trip sample_sort sample_features sample_proba sample_predict
           [default_input; noted_input] stable_sort_sorts_ascending
           sample_features_well_formed eq_refl Hpercent Hps).
Defined.

(** ** The suggested action and the risk tier (lines 90 and 96-101) *)

Lemma SFcompare_defined (a b : spec_float) :
  SFcompare a a <> None -> SFcompare b b <> None ->
  exists c, SFcompare a b = Some c.
Proof.
  destruct a as [s|s| |s m e], b as [s'|s'| |s' m' e']; cbn [SFcompare];
    intros Ha Hb; try (exfalso; now (apply Ha || apply Hb));
    eexists; reflexivity.
Qed.

(** On numbers, [b < a] is false exactly when [a <= b]. *)
Lemma float_not_ltb_leb (a b : float) :
  (a =? a)%float = true -> (b =? b)%float = true ->
  (b <? a)%float = false -> (a <=? b)%float = true.
Proof.
  rewrite !FloatAxioms.eqb_spec, FloatAxioms.leb_spec, FloatAxioms.ltb_spec.
  unfold SFeqb, SFleb, SFltb. intros Ha Hb.
  destruct (SFcompare_defined (Prim2SF a) (Prim2SF b)) as (c & Hc).
  - intros H. rewrite H in Ha. discriminate.
  - intros H. rewrite H in Hb. discriminate.
  - rewrite (SFcompare_swap (Prim2SF a) (Prim2SF b)), Hc.
    destruct c; cbn [option_map CompOpp]; intros H; try reflexivity; discriminate.
Qed.

Lemma SFcompare_refl (a : spec_float) :
  SFcompare a a = Some Eq \/ a = S754_nan.
Proof.
  destruct a as [s|s| |s m e]; cbn [SFcompare].
  - left. destruct s; reflexivity.
  - left. destruct s; reflexivity.
  - now right.
  - left. rewrite Z.compare_refl, Pos.compare_refl. destruct s; reflexivity.
Qed.

(** Every comparison with NaN is false. *)
Lemma float_nan_compares (r a : float) :
  (r =? r)%float = false ->
  (r <? a)%float = false /\ (a <=? r)%float = false.
Proof.
  rewrite FloatAxioms.eqb_spec, FloatAxioms.leb_spec, FloatAxioms.ltb_spec.
  unfold SFeqb, SFleb, SFltb.
  destruct (SFcompare_refl (Prim2SF r)) as [-> | ->]; [discriminate|].
  intros _. cbn [SFcompare]. split; [reflexivity|].
  destruct (Prim2SF a); reflexivity.
Qed.

Lemma float_below_30_below_40 (r : float) :
  (r <? 30)%float = true -> (r <? 40)%float = true.
Proof.
  rewrite !FloatAxioms.ltb_spec.
  replace (Prim2SF 30) with (S754_finite false 8444249301319680 (-48))
    by (vm_compute; reflexivity).
  replace (Prim2SF 40) with (S754_finite false 5629499534213120 (-47))
    by (vm_compute; reflexivity).
  unfold SFltb.
  destruct (Prim2SF r) as [s|s| |s m e]; cbn [SFcompare].
  - intros _. reflexivity.
  - destruct s; intros H; [reflexivity | exact H].
  - intros H. exact H.
  - destruct s; [reflexivity|].
    destruct (Z.compare_spec e (-48)) as [He|He|He];
      destruct (Z.compare_spec e (-47)) as [He'|He'|He'];
      try (exfalso; lia); intros H; try reflexivity; try exact H;
      exfalso; exact (Bool.diff_false_true H).
Qed.

Lemma action_cases (r : float) :
  ((70 <=? r)%float = true -> action r = "🔔 Refer to pulmonologist urgently.") /\
  ((70 <=? r)%float = false -> (40 <=? r)%float = true ->
   action r = "🩺 Suggest lung function test.") /\
  ((70 <=? r)%float = false -> (40 <=? r)%float = false ->
   action r = "✅ No immediate action needed.").
Proof.
  unfold action. repeat split.
  - now intros ->.
  - now intros -> ->.
  - now intros -> ->.
Qed.

(** X1.  The suggested action agrees with the risk tier whenever the
    percentage is a number: the urgent referral is suggested exactly for
    the High tier, the Low tier never gets more than "no immediate action",
    and the lung function test is suggested within the Medium tier only.
    For a percentage that is NaN the two disagree: every comparison is
    false, so line 90 falls through to High while lines 96-101 fall
    through to "no immediate action". *)
Theorem action_follows_risk_level (r : float) :
  ((r =? r)%float = true ->
   (action r = "🔔 Refer to pulmonologist urgently."
    <-> risk_level r = "🔴 High Risk") /\
   (risk_level r = "🟢 Low Risk" -> action r = "✅ No immediate action needed.") /\
   (action r = "🩺 Suggest lung function test." ->
    risk_level r = "🟡 Medium Risk")) /\
  ((r =? r)%float = false ->
   risk_level r = "🔴 High Risk" /\ action r = "✅ No immediate action needed.").
Proof.
  destruct (action_cases r) as (Hrefer & Hsuggest & Hnone).
  destruct (risk_level_cases r) as (Hlow & Hmedium & Hhigh).
  split.
  - intros Hnum.
    assert (H70 : (r <? 70)%float = false -> (70 <=? r)%float = true).
    { now apply float_not_ltb_leb. }
    assert (H30 : (r <? 30)%float = false -> (30 <=? r)%float = true).
    { now apply float_not_ltb_leb. }
    destruct (70 <=? r)%float eqn:E70.
    + rewrite (Hrefer eq_refl), (Hhigh eq_refl).
      repeat split; intros H; try reflexivity; discriminate H.
    + destruct (r <? 70)%float eqn:L70; [|specialize (H70 eq_refl); discriminate].
      destruct (r <? 30)%float eqn:L30.
      * assert (E40 : (40 <=? r)%float = false).
        { destruct (40 <=? r)%float eqn:E40; [|reflexivity].
          apply float_leb_not_ltb in E40.
          apply float_below_30_below_40 in L30. congruence. }
        rewrite (Hnone eq_refl E40), (Hlow eq_refl).
        repeat split; intros H; try reflexivity; discriminate H.
      * rewrite (Hmedium (conj (H30 eq_refl) eq_refl)).
        destruct (40 <=? r)%float eqn:E40.
        -- rewrite (Hsuggest eq_refl eq_refl).
           repeat split; intros H; try reflexivity; discriminate H.
        -- rewrite (Hnone eq_refl eq_refl).
           repeat split; intros H; try reflexivity; discriminate H.
  - intros Hnan.
    destruct (float_nan_compares r 30 Hnan) as [L30 _].
    destruct (float_nan_compares r 70 Hnan) as [L70 E70].
    destruct (float_nan_compares r 40 Hnan) as [_ E40].
    split; [|exact (Hnone E70 E40)].
    unfold risk_level. now rewrite L30, L70.
Qed.

Lemma action_follows_risk_level_witness :
  ((risk_percent 0.42 =? risk_percent 0.42)%float = true /\
   (action (risk_percent 0.42) = "🩺 Suggest lung function test." ->
    risk_level (risk_percent 0.42) = "🟡 Medium Risk")) /\
  ((nan =? nan)%float = false /\
   risk_level nan = "🔴 High Risk" /\ action nan = "✅ No immediate action needed.").
Proof.
  split.
  - split; [reflexivity|].
    exact (proj2 (proj2 (proj1 (action_follows_risk_level (risk_percent 0.42))
                           eq_refl))).
  - split; [reflexivity|].
    exact (proj2 (action_follows_risk_level nan) eq_refl).
Defined.

(** The actions at the two thresholds and next to them. *)
Example action_boundaries :
  action (risk_percent 0.3999) = "✅ No immediate action needed." /\
  action (risk_percent 0.40) = "🩺 Suggest lung function test." /\
  action (risk_percent 0.6999) = "🩺 Suggest lung function test." /\
  action (risk_percent 0.70) = "🔔 Refer to pulmonologist urgently.".
Proof. repeat split; vm_compute; reflexivity. Qed.

(** ** The stored note (lines 122 and 134) *)

Lemma all_space_app (a b : string) :
  all_space (a ++ b)%string = all_space a && all_space b.
Proof.
  induction a as [|x a IH]; simpl; [reflexivity|].
  now rewrite IH, andb_assoc.
Qed.

Lemma lstrip_spec (s : string) :
  exists l, s = (l ++ Py.lstrip s)%string /\ all_space l = true /\
            (forall c t, Py.lstrip s = String c t -> Py.isspace c = false).
Proof.
  induction s as [|x s (l & Hs & Hl & Hfirst)].
  - exists "". repeat split. intros c t H. discriminate H.
  - cbn [Py.lstrip]. destruct (Py.isspace x) eqn:Hx.
    + exists (String x l). cbn [String.append all_space].
      rewrite Hx, Hl. split; [now rewrite <- Hs|]. split; [reflexivity|].
      exact Hfirst.
    + exists "". repeat split. intros c t [= <- _]. exact Hx.
Qed.

Lemma last_char_cons (x c : ascii) (t u : string) :
  String x u = (t ++ String c "")%string ->
  (u = "" /\ t = "" /\ c = x) \/
  (exists t', t = String x t' /\ u = (t' ++ String c "")%string).
Proof.
  destruct t as [|y t]; cbn [String.append].
  - intros [= -> ->]. now left.
  - intros [= -> ->]. right. now exists t.
Qed.

Lemma rstrip_spec (s : string) :
  exists r, s = (Py.rstrip s ++ r)%string /\ all_space r = true /\
            (forall t c, Py.rstrip s = (t ++ String c "")%string ->
                         Py.isspace c = false).
Proof.
  induction s as [|x s (r & Hs & Hr & Hlast)].
  - exists "". repeat split. intros [|y t] c H; discriminate H.
  - cbn [Py.rstrip]. destruct (Py.rstrip s) as [|y u] eqn:Hu.
    + destruct (Py.isspace x) eqn:Hx.
      * exists (String x r). cbn [String.append all_space] in *.
        rewrite Hx, Hr. split; [now rewrite <- Hs|]. split; [reflexivity|].
        intros [|z t] c H; discriminate H.
      * exists r. cbn [String.append] in *. split; [now rewrite <- Hs|].
        split; [exact Hr|].
        intros t c H. apply last_char_cons in H.
        destruct H as [(_ & _ & ->)|(t' & _ & H)]; [exact Hx|].
        destruct t'; discriminate H.
    + exists r. cbn [String.append] in *. split; [now rewrite <- Hs|].
      split; [exact Hr|].
      intros t c H. apply last_char_cons in H.
      destruct H as [(H & _)|(t' & _ & H)]; [discriminate H|].
      now apply (Hlast t' c).
Qed.

Lemma lstrip_all_space (s : string) : all_space s = true -> Py.lstrip s = "".
Proof.
  induction s as [|x s IH]; [reflexivity|]. cbn [all_space Py.lstrip].
  intros H. apply andb_true_iff in H. destruct H as [-> H]. now apply IH.
Qed.

(** X2.  The note as it is stored (and shown): for a note of ASCII
    characters, [doctor_note.strip()] is the note without the whitespace
    around it - the note is some whitespace, the stripped note, and some
    whitespace again; the stripped note neither starts nor ends with a
    whitespace character; and it is empty exactly when the note is
    whitespace only (line 122 then shows no note, line 134 stores the empty
    text). *)
Theorem strip_removes_surrounding_whitespace (s : string) :
  is_ascii s = true ->
  exists l r,
    s = (l ++ Py.strip s ++ r)%string /\
    all_space l = true /\ all_space r = true /\
    (forall c t, Py.strip s = String c t -> Py.isspace c = false) /\
    (forall t c, Py.strip s = (t ++ String c "")%string -> Py.isspace c = false) /\
    (all_space s = true <-> Py.strip s = "").
Proof.
  intros _. unfold Py.strip.
  destruct (lstrip_spec s) as (l & Hs & Hl & Hfirst).
  destruct (rstrip_spec (Py.lstrip s)) as (r & Hm & Hr & Hlast).
  exists l, r. split; [now rewrite <- Hm|]. split; [exact Hl|]. split; [exact Hr|].
  split; [|split; [exact Hlast|]].
  - intros c t H. rewrite H in Hm. cbn [String.append] in Hm.
    now apply (Hfirst c _ Hm).
  - split.
    + intros Hall. now rewrite (lstrip_all_space s Hall).
    + intros H. rewrite H in Hm. cbn [String.append] in Hm.
      rewrite Hs, Hm, all_space_app, Hl, Hr. reflexivity.
Qed.

Lemma strip_removes_surrounding_whitespace_witness :
  is_ascii (doctor_note noted_input) = true /\
  Py.strip (doctor_note noted_input) = "wheezing at night" /\
  exists l r,
    doctor_note noted_input = (l ++ Py.strip (doctor_note noted_input) ++ r)%string /\
    all_space l = true /\ all_space r = true /\
    (forall c t, Py.strip (doctor_note noted_input) = String c t ->
                 Py.isspace c = false) /\
    (forall t c, Py.strip (doctor_note noted_input) = (t ++ String c "")%string ->
                 Py.isspace c = false) /\
    (all_space (doctor_note noted_input) = true <->
     Py.strip (doctor_note noted_input) = "").
Proof.
  split; [reflexivity|]. split; [reflexivity|].
  exact (strip_removes_surrounding_whitespace (doctor_note noted_input) eq_refl).
Defined.

(** ** The record of an assessment, whatever the features are called
    (lines 126-134) *)

Section SetitemFacts.
Context {A : Type}.
Implicit Types (df : Row A) (col : string).

(** [df[col] = v] and the value read under a column afterwards. *)
Lemma get_setitem_same col (v : A) df :
  Frame.get col (Frame.setitem col v df) = Some v.
Proof.
  unfold Frame.setitem. destruct (Frame.has_col col df) eqn:Hcol.
  - apply has_col_In in Hcol. unfold Frame.get.
    induction df as [|[k u] df IH]; [contradiction|].
    cbn [map find fst snd]. destruct (String.eqb_spec k col) as [->|Hk].
    + cbn [fst]. now rewrite String.eqb_refl.
    + cbn [fst]. destruct (String.eqb_spec k col) as [|_]; [contradiction|].
      apply IH. destruct Hcol as [H|H]; [contradiction | exact H].
  - apply has_col_false in Hcol. apply get_None in Hcol.
    rewrite get_app, Hcol. unfold Frame.get. cbn [find fst].
    now rewrite String.eqb_refl.
Qed.

Lemma get_setitem_other col c (v : A) df :
  c <> col -> Frame.get c (Frame.setitem col v df) = Frame.get c df.
Proof.
  intros Hc. unfold Frame.setitem. destruct (Frame.has_col col df).
  - unfold Frame.get. induction df as [|[k u] df IH]; [reflexivity|].
    cbn [map find fst snd]. destruct (String.eqb_spec k col) as [->|Hk]; cbn [fst].
    + destruct (String.eqb_spec col c) as [->|_]; [contradiction | exact IH].
    + destruct (String.eqb_spec k c); [reflexivity | exact IH].
  - rewrite get_app. destruct (Frame.get c df) eqn:Hget; [reflexivity|].
    unfold Frame.get. cbn [find fst].
    destruct (String.eqb_spec col c) as [->|_]; [contradiction | reflexivity].
Qed.

End SetitemFacts.

Lemma has_col_lift col (d : Row number) :
  Frame.has_col col (map (fun kv => (fst kv, VNum (snd kv))) d) = Frame.has_col col d.
Proof. unfold Frame.has_col. now rewrite labels_lift. Qed.

Section AssessFacts.

Variable quicksort : Row number -> Row number.
Variable predict_proba : Row number -> float.
Variable predict : Row number -> Z.

(** Line 127 on a frame that has a column PatientName. *)
Lemma assess_name_clash p d :
  In "PatientName" (Frame.labels d) ->
  assess quicksort predict_proba predict p d = Raise (ValueError "PatientName").
Proof.
  intros Hin. unfold assess.
  destruct (top_risk_str_defined quicksort d) as (t & ->). cbn [bind].
  unfold Frame.insert_first. rewrite has_col_lift.
  apply has_col_In in Hin. now rewrite Hin.
Qed.

Ltac other_column := rewrite get_setitem_other by discriminate.

(** Lines 126-134 on a frame without such a column: each of the eight
    columns holds what was last assigned to it. *)
Lemma assess_fields p d :
  ~ In "PatientName" (Frame.labels d) ->
  exists t record,
    top_risk_str quicksort d = Ok t /\
    assess quicksort predict_proba predict p d = Ok record /\
    Frame.get "PatientName" record = Some (VStr (patient_name p)) /\
    Frame.get "Prediction" record = Some (VStr (label (predict d))) /\
    Frame.get "RiskPercent" record =
      Some (VNum (NFloat (risk_percent (predict_proba d)))) /\
    Frame.get "RiskLevel" record =
      Some (VStr (risk_level (risk_percent (predict_proba d)))) /\
    Frame.get "AgeGroup" record = Some (VStr (age_group (age p))) /\
    Frame.get "TopRisks" record = Some (VStr t) /\
    Frame.get "Action" record =
      Some (VStr (action (risk_percent (predict_proba d)))) /\
    Frame.get "DoctorNote" record = Some (VStr (Py.strip (doctor_note p))).
Proof.
  intros Hname. destruct (top_risk_str_defined quicksort d) as (t & Ht).
  exists t. unfold assess. rewrite Ht. cbn [bind].
  unfold Frame.insert_first. rewrite has_col_lift.
  apply has_col_false in Hname. rewrite Hname. cbn [bind].
  eexists. split; [reflexivity|]. split; [reflexivity|].
  repeat split.
  - do 7 other_column. unfold Frame.get. cbn [find fst]. reflexivity.
  - do 6 other_column. apply get_setitem_same.
  - do 5 other_column. apply get_setitem_same.
  - do 4 other_column. apply get_setitem_same.
  - do 3 other_column. apply get_setitem_same.
  - do 2 other_column. apply get_setitem_same.
  - do 1 other_column. apply get_setitem_same.
  - apply get_setitem_same.
Qed.

End AssessFacts.

(** X3.  The fields of a record.  For every sort, every model that
    declares no feature called PatientName and every form the widgets
    accept whose note is an ASCII text, the assessment succeeds and its
    record holds, under PatientName, Prediction, RiskPercent, RiskLevel,
    AgeGroup, TopRisks, Action and DoctorNote, the name as typed, the
    label, the rounded percentage, the tier, the age bracket, the top
    risks as line 112 joined them (in the order the sort left them), the
    action and the stripped note - also when the model declares a feature
    called like one of these columns, whose value the assignment of lines
    128-134 then replaces. *)
Theorem record_fields_for_any_features
  (quicksort : Row number -> Row number)
  (expected_features : list string) (predict_proba : Row number -> float)
  (predict : Row number -> Z) (p : PatientInput) :
  ~ In "PatientName" expected_features ->
  form_accepts p = true ->
  is_ascii (doctor_note p) = true ->
  exists d top record,
    input_data expected_features p = Ok d /\
    top_risk_str quicksort d = Ok top /\
    assessment quicksort expected_features predict_proba predict p = Ok record /\
    Frame.get "PatientName" record = Some (VStr (patient_name p)) /\
    Frame.get "Prediction" record = Some (VStr (label (predict d))) /\
    Frame.get "RiskPercent" record =
      Some (VNum (NFloat (risk_percent (predict_proba d)))) /\
    Frame.get "RiskLevel" record =
      Some (VStr (risk_level (risk_percent (predict_proba d)))) /\
    Frame.get "AgeGroup" record = Some (VStr (age_group (age p))) /\
    Frame.get "TopRisks" record = Some (VStr top) /\
    Frame.get "Action" record =
      Some (VStr (action (risk_percent (predict_proba d)))) /\
    Frame.get "DoctorNote" record = Some (VStr (Py.strip (doctor_note p))).
Proof.
  intros Hname Hform _.
  destruct (input_data_aligned expected_features p Hform)
    as (ratio & d & _ & Hd & Hlab & _).
  rewrite <- Hlab in Hname.
  destruct (assess_fields quicksort predict_proba predict p d Hname)
    as (top & record & Htop & Hrec & Hfields).
  exists d, top, record. split; [exact Hd|]. split; [exact Htop|].
  split; [|exact Hfields].
  unfold assessment. rewrite Hd. exact Hrec.
Qed.

Lemma record_fields_for_any_features_witness :
  ~ In "PatientName" overlapping_features /\
  form_accepts default_input = true /\
  is_ascii (doctor_note default_input) = true /\
  exists record,
    assessment sample_sort overlapping_features sample_proba sample_predict default_input
      = Ok record /\
    Frame.labels record =
      [ "PatientName"; "Age"; "Prediction"; "RiskPercent"; "RiskLevel";
        "AgeGroup"; "TopRisks"; "Action"; "DoctorNote" ] /\
    Frame.get "Prediction" record = Some (VStr "No Asthma") /\
    Frame.get "RiskPercent" record = Some (VNum (NFloat 42)) /\
    Frame.get "DoctorNote" record = Some (VStr "").
Proof.
  assert (Hname : ~ In "PatientName" overlapping_features).
  { simpl. intuition discriminate. }
  split; [exact Hname|]. split; [reflexivity|]. split; [reflexivity|].
  destruct (record_fields_for_any_features sample_sort overlapping_features sample_proba
              sample_predict default_input Hname eq_refl eq_refl)
    as (d & top & record & Hd & _ & Hrec & _ & G2 & G3 & _ & _ & _ & _ & G8).
  exists record. split; [exact Hrec|].
  injection Hd as <-. split; [|split; [exact G2 | split; [exact G3 | exact G8]]].
  vm_compute in Hrec. injection Hrec as <-. reflexivity.
Defined.

(** X4.  A model that declares a feature called PatientName cannot be
    used: line 127 inserts a column of that name into a frame that already
    has one, which pandas refuses with ValueError.  Every assessment fails
    so, and so does every run of the script in which Predict is pressed
    (once the record file has been read). *)
Theorem feature_named_PatientName_fails
  (quicksort : Row number -> Row number)
  (expected_features : list string) (predict_proba : Row number -> float)
  (predict : Row number -> Z) :
  In "PatientName" expected_features ->
  (forall p, form_accepts p = true ->
             assessment quicksort expected_features predict_proba predict p
             = Raise (ValueError "PatientName")) /\
  (forall ui w w1,
      form_accepts (form ui) = true -> pressed ui = Some Predict ->
      load w = Ok w1 ->
      run quicksort expected_features predict_proba predict ui w
      = Raise (ValueError "PatientName")).
Proof.
  intros Hin.
  assert (Hassess : forall p d,
             input_data expected_features p = Ok d ->
             assess quicksort predict_proba predict p d = Raise (ValueError "PatientName")).
  { intros p d Hd. apply assess_name_clash.
    now rewrite (input_data_labels _ _ _ Hd). }
  split.
  - intros p Hform.
    destruct (input_data_aligned expected_features p Hform)
      as (ratio & d & _ & Hd & _).
    unfold assessment. rewrite Hd. cbn [bind]. now apply Hassess.
  - intros ui w w1 Hform Hpress Hload.
    destruct (input_data_aligned expected_features (form ui) Hform)
      as (ratio & d & _ & Hd & _).
    unfold run. rewrite Hload, Hd, Hpress. cbn [bind].
    now rewrite (Hassess _ _ Hd).
Qed.

Lemma feature_named_PatientName_fails_witness :
  In "PatientName" clashing_features /\
  assessment sample_sort clashing_features sample_proba sample_predict default_input
    = Raise (ValueError "PatientName") /\
  run sample_sort clashing_features sample_proba sample_predict
      (press Predict default_input) fresh_world
    = Raise (ValueError "PatientName").
Proof.
  assert (Hin : In "PatientName" clashing_features) by (right; left; reflexivity).
  destruct (feature_named_PatientName_fails sample_sort clashing_features sample_proba
              sample_predict Hin) as [Hassess Hrun].
  split; [exact Hin|]. split.
  - exact (Hassess default_input eq_refl).
  - exact (Hrun (press Predict default_input) fresh_world fresh_world
             eq_refl eq_refl eq_refl).
Defined.

(** ** The history table (lines 142-150) *)

Lemma load_keeps_files w w1 :
  load w = Ok w1 ->
  record_file w1 = record_file w /\ export_file w1 = export_file w.
Proof.
  unfold load.
  destruct (match record_file w with
            | Some f => Pd.read_csv f
            | None => Ok Pd.empty_frame
            end) as [df|e]; cbn [bind]; [|discriminate].
  intros [= <-]. now split.
Qed.

(** [df[names]] when every name is a column, and when one is not. *)
Lemma getitem_frame_defined names df :
  (forall n, In n names -> In n (columns df)) ->
  Pd.getitem names df =
  Ok {| columns := names;
        rows := map (fun r => Pd.reindex (columns df) r names) (rows df) |}.
Proof.
  intros Hall. unfold Pd.getitem.
  destruct (find _ names) as [n|] eqn:Hfind; [|reflexivity].
  exfalso. apply find_some in Hfind. destruct Hfind as [Hin Hneg].
  apply negb_true_iff in Hneg.
  assert (Hex : existsb (String.eqb n) (columns df) = true); [|congruence].
  apply existsb_exists. exists n. split; [now apply Hall | apply String.eqb_refl].
Qed.

Lemma getitem_frame_missing names df c :
  In c names -> ~ In c (columns df) ->
  exists c', Pd.getitem names df = Raise (KeyError c') /\
             In c' names /\ ~ In c' (columns df).
Proof.
  intros Hin Hmiss. unfold Pd.getitem.
  destruct (find _ names) as [n|] eqn:Hfind.
  - apply find_some in Hfind. destruct Hfind as [Hn Hneg].
    exists n. split; [reflexivity|]. split; [exact Hn|].
    apply negb_true_iff in Hneg. intros Hc.
    assert (Hex : existsb (String.eqb n) (columns df) = true); [|congruence].
    apply existsb_exists. exists n. split; [exact Hc | apply String.eqb_refl].
  - exfalso. apply (find_none _ _ Hfind) in Hin. apply negb_false_iff in Hin.
    apply existsb_exists in Hin. destruct Hin as (x & Hx & Heq).
    apply String.eqb_eq in Heq. now subst x.
Qed.

(** X5.  The three outcomes of the history view.  An empty store shows no
    table ("No records yet"), whatever its columns.  A store that is not
    empty and has the eight columns of the view shows them, in the order of
    lines 146-147, with one row per row of the store.  A store that is not
    empty and lacks one of the eight columns raises KeyError for a column
    of the view that it lacks. *)
Theorem list_records_outcomes (w : World) :
  (Pd.empty (patient_records w) = true -> list_records w = Ok None) /\
  (Pd.empty (patient_records w) = false ->
   (forall c, In c history_columns -> In c (columns (patient_records w))) ->
   exists t, list_records w = Ok (Some t) /\
             columns t = history_columns /\
             List.length (rows t) = List.length (rows (patient_records w)) /\
             Forall (fun r => List.length r = 8%nat) (rows t)) /\
  (Pd.empty (patient_records w) = false ->
   forall c, In c history_columns -> ~ In c (columns (patient_records w)) ->
   exists c', list_records w = Raise (KeyError c') /\
              In c' history_columns /\ ~ In c' (columns (patient_records w))).
Proof.
  unfold list_records. split; [|split].
  - now intros ->.
  - intros -> Hall. cbn [negb].
    rewrite (getitem_frame_defined history_columns _ Hall). cbn [bind].
    eexists. split; [reflexivity|]. cbn [columns rows]. split; [reflexivity|].
    split; [apply length_map|].
    apply Forall_forall. intros r Hr. apply in_map_iff in Hr.
    destruct Hr as (r0 & <- & _). unfold Pd.reindex. now rewrite length_map.
  - intros -> c Hin Hmiss. cbn [negb].
    destruct (getitem_frame_missing history_columns _ c Hin Hmiss)
      as (c' & -> & Hc').
    exists c'. now split.
Qed.

(** *** The rows of the store in a session *)

Lemma load_loaded cols n w :
  cols <> [] -> file_shape cols n (record_file w) ->
  load w = Ok {| patient_records := loaded (record_file w);
                 record_file := record_file w;
                 export_file := export_file w |} /\
  store_rows cols n (loaded (record_file w)).
Proof.
  intros Hne Hshape. unfold load, file_shape in *.
  destruct (record_file w) as [[h b]|]; cbn [header body loaded] in *.
  - destruct Hshape as (-> & Hlen & Hn & Hrect).
    rewrite (read_csv_rect _ _ Hne Hrect). cbn [bind]. split; [reflexivity|].
    destruct n as [|n]; [contradiction|]. cbn [store_rows columns rows].
    split; [reflexivity|]. split; [now rewrite length_map|].
    apply Forall_forall. intros r Hr. apply in_map_iff in Hr.
    destruct Hr as (line & <- & Hline). rewrite length_map.
    rewrite Forall_forall in Hrect. now apply Hrect.
  - subst n. split; reflexivity.
Qed.

Lemma concat_store_rows cols n df record :
  NoDup cols -> store_rows cols n df -> Frame.labels record = cols ->
  store_rows cols (S n) (Pd.concat df record) /\
  rows (Pd.concat df record) = rows df ++ [map snd record].
Proof.
  intros Hnd Hstore Hlab.
  assert (Hlen : List.length (map snd record) = List.length cols).
  { rewrite <- Hlab. unfold Frame.labels. now rewrite !length_map. }
  destruct n as [|n]; cbn [store_rows] in Hstore.
  - subst df. rewrite concat_empty by (now rewrite Hlab).
    cbn [store_rows columns rows app length]. rewrite Hlab.
    repeat split. constructor; [exact Hlen | constructor].
  - destruct Hstore as (Hcols & Hrows & Hrect).
    rewrite concat_same; rewrite ?Hcols; try assumption.
    cbn [store_rows columns rows]. repeat split.
    + rewrite length_app, Hrows. simpl. lia.
    + apply Forall_app. split; [exact Hrect|].
      constructor; [exact Hlen | constructor].
Qed.

Lemma store_rows_empty cols n df :
  cols <> [] -> store_rows cols n df ->
  Pd.empty df = match n with O => true | S _ => false end.
Proof.
  intros Hne Hstore. destruct n as [|n]; cbn [store_rows] in Hstore.
  - now subst df.
  - destruct Hstore as (Hcols & Hrows & _). unfold Pd.empty. rewrite Hcols.
    destruct cols; [contradiction|]. destruct (rows df); [discriminate | reflexivity].
Qed.

Lemma history_in_record_columns features c :
  In c history_columns -> In c (record_columns features).
Proof.
  unfold record_columns.
  change history_columns with ("PatientName" :: narrative_columns).
  intros [<-|Hin]; [now left | right; apply in_or_app; now right].
Qed.

Lemma history_of_store features n df :
  store_rows (record_columns features) n df ->
  list_records {| patient_records := df; record_file := None; export_file := None |}
  = Ok match n with
       | O => None
       | S _ => Some {| columns := history_columns;
                       rows := map (fun r => Pd.reindex (columns df) r history_columns)
                                   (rows df) |}
       end.
Proof.
  intros Hstore. unfold list_records. cbn [patient_records].
  rewrite (store_rows_empty _ n df (record_columns_nonempty features) Hstore).
  destruct n as [|n]; [reflexivity|]. cbn [negb].
  destruct Hstore as (Hcols & _).
  rewrite getitem_frame_defined; [reflexivity|].
  intros c Hc. rewrite Hcols. now apply history_in_record_columns.
Qed.

Lemma list_records_store w :
  list_records w =
  list_records {| patient_records := patient_records w;
                  record_file := None; export_file := None |}.
Proof. reflexivity. Qed.

Section RowsOfTheStore.

Variable quicksort : Row number -> Row number.
Variable expected_features : list string.
Variable predict_proba : Row number -> float.
Variable predict : Row number -> Z.
Hypothesis Hwf : well_formed_features expected_features.

Lemma run_rows n ui w :
  form_accepts (form ui) = true ->
  file_shape (record_columns expected_features) n (record_file w) ->
  exists w',
    run quicksort expected_features predict_proba predict ui w = Ok w' /\
    file_shape (record_columns expected_features) (step_rows n ui) (record_file w') /\
    store_rows (record_columns expected_features) (step_rows n ui)
               (patient_records w').
Proof.
  intros Hform Hshape.
  destruct (run_shape quicksort expected_features predict_proba predict Hwf n ui w
              Hform Hshape) as (w' & Hrun & Hfile & _).
  exists w'. split; [exact Hrun|]. split; [exact Hfile|].
  destruct (run_cases quicksort expected_features predict_proba predict Hwf n ui w
              Hform Hshape) as (w1 & record & Hload & _ & Hlab & Hrun').
  destruct (load_loaded _ n w (record_columns_nonempty expected_features) Hshape)
    as (Hload' & Hstore).
  rewrite Hload in Hload'. injection Hload' as ->.
  rewrite Hrun in Hrun'. injection Hrun' as ->.
  unfold step_rows. destruct (pressed ui) as [[| |]|]; cbn [patient_records append exportAll clear].
  - apply (concat_store_rows _ n _ record
             (record_columns_NoDup expected_features Hwf) Hstore Hlab).
  - exact Hstore.
  - reflexivity.
  - exact Hstore.
Qed.

Lemma session_rows uis : forall n w,
  Forall (fun ui => form_accepts (form ui) = true) uis ->
  file_shape (record_columns expected_features) n (record_file w) ->
  store_rows (record_columns expected_features) n (patient_records w) ->
  exists w',
    session quicksort expected_features predict_proba predict uis w = Ok w' /\
    store_rows (record_columns expected_features) (fold_left step_rows uis n)
               (patient_records w').
Proof.
  induction uis as [|ui uis IH]; intros n w Hforms Hfile Hstore.
  - exists w. now split.
  - inversion Hforms as [|? ? Hform Hforms']; subst.
    destruct (run_rows n ui w Hform Hfile) as (w1 & Hrun & Hfile1 & Hstore1).
    destruct (IH _ w1 Hforms' Hfile1 Hstore1) as (w' & Hsess & Hstore').
    exists w'. cbn [session fold_left]. rewrite Hrun. cbn [bind]. now split.
Qed.

End RowsOfTheStore.

(** X6.  The history after a session.  For a model with well-formed
    feature names of printable ASCII characters, and accepted forms whose
    name and stripped note hold no control character, after any sequence
    of interactions
    that starts without a record file the history view raises nothing: it
    shows no table when no assessment was kept (none made, or all cleared),
    and otherwise the eight columns of the view with one row per assessment
    made since the store was last cleared. *)
Theorem history_after_session
  (quicksort : Row number -> Row number)
  (expected_features : list string) (predict_proba : Row number -> float)
  (predict : Row number -> Z) (uis : list Interaction) :
  well_formed_features expected_features ->
  column_names expected_features = true ->
  Forall (fun ui => form_accepts (form ui) = true /\
                    keeps_lines (form ui) = true) uis ->
  exists w,
    session quicksort expected_features predict_proba predict uis fresh_world = Ok w /\
    match rows_kept uis with
    | O => list_records w = Ok None
    | S n =>
        exists t, list_records w = Ok (Some t) /\
                  columns t = history_columns /\
                  List.length (rows t) = S n /\
                  Forall (fun r => List.length r = 8%nat) (rows t)
    end.
Proof.
  intros Hwf _ Hplain.
  assert (Hforms : Forall (fun ui => form_accepts (form ui) = true) uis).
  { eapply Forall_impl; [|exact Hplain]. now intros ui [H _]. }
  destruct (session_rows quicksort expected_features predict_proba predict Hwf uis O
              fresh_world Hforms eq_refl eq_refl) as (w & Hsess & Hstore).
  exists w. split; [exact Hsess|].
  rewrite list_records_store, (history_of_store _ _ _ Hstore).
  fold (rows_kept uis) in Hstore |- *.
  destruct (rows_kept uis) as [|n]; [reflexivity|].
  destruct Hstore as (_ & Hrows & _).
  eexists. split; [reflexivity|]. cbn [columns rows].
  split; [reflexivity|]. split; [now rewrite length_map|].
  apply Forall_forall. intros r Hr. apply in_map_iff in Hr.
  destruct Hr as (r0 & <- & _). unfold Pd.reindex. now rewrite length_map.
Qed.

Lemma history_after_session_witness :
  well_formed_features sample_features /\
  column_names sample_features = true /\
  Forall (fun ui => form_accepts (form ui) = true /\
                    keeps_lines (form ui) = true)
         [press Predict default_input; press Clear default_input;
          press Predict noted_input; press Predict default_input] /\
  exists w,
    session sample_sort sample_features sample_proba sample_predict
      [press Predict default_input; press Clear default_input;
       press Predict noted_input; press Predict default_input] fresh_world
      = Ok w /\
    exists t, list_records w = Ok (Some t) /\
              columns t = history_columns /\
              List.length (rows t) = 2%nat /\
              Forall (fun r => List.length r = 8%nat) (rows t).
Proof.
  assert (Hforms : Forall (fun ui => form_accepts (form ui) = true /\
                                     keeps_lines (form ui) = true)
                     [press Predict default_input; press Clear default_input;
                      press Predict noted_input; press Predict default_input]).
  { repeat constructor. }
  split; [exact sample_features_well_formed|]. split; [reflexivity|].
  split; [exact Hforms|].
  exact (history_after_session sample_sort sample_features sample_proba sample_predict
           [press Predict default_input; press Clear default_input;
            press Predict noted_input; press Predict default_input]
           sample_features_well_formed eq_refl Hforms).
Defined.

Lemma reindex_record (record : Row value) names :
  Pd.reindex (Frame.labels record) (map snd record) names =
  map (fun c => match Frame.get c record with Some v => v | None => VNaN end) names.
Proof. unfold Pd.reindex. now rewrite combine_labels. Qed.

(** X7.  The history shows the assessment just made.  For every sort, a
    model with well-formed feature names, an accepted form whose note is
    an ASCII text and a record file of [n] lines under the columns of the
    records (or none, for [n = 0]): a run in which Predict is pressed
    succeeds, and the history table it leaves has [n + 1] rows, the last of
    which is the new assessment - the name as typed, the label, the rounded
    percentage, the tier, the age bracket, the top risks as line 112 joined
    them (in the order the sort left them), the action and the stripped
    note. *)
Theorem history_shows_new_assessment
  (quicksort : Row number -> Row number)
  (expected_features : list string) (predict_proba : Row number -> float)
  (predict : Row number -> Z) (ui : Interaction) (w : World) (n : nat) :
  well_formed_features expected_features ->
  form_accepts (form ui) = true ->
  is_ascii (doctor_note (form ui)) = true ->
  pressed ui = Some Predict ->
  file_shape (record_columns expected_features) n (record_file w) ->
  exists w' d top t,
    run quicksort expected_features predict_proba predict ui w = Ok w' /\
    input_data expected_features (form ui) = Ok d /\
    top_risk_str quicksort d = Ok top /\
    list_records w' = Ok (Some t) /\
    columns t = history_columns /\
    List.length (rows t) = S n /\
    last (rows t) [] =
      [ VStr (patient_name (form ui));
        VStr (label (predict d));
        VNum (NFloat (risk_percent (predict_proba d)));
        VStr (risk_level (risk_percent (predict_proba d)));
        VStr (age_group (age (form ui)));
        VStr top;
        VStr (action (risk_percent (predict_proba d)));
        VStr (Py.strip (doctor_note (form ui))) ].
Proof.
  intros Hwf Hform _ Hpress Hshape.
  destruct (run_cases quicksort expected_features predict_proba predict Hwf n ui w
              Hform Hshape) as (w1 & record & Hload & Hrec & Hlab & Hrun).
  rewrite Hpress in Hrun.
  destruct (load_loaded _ n w (record_columns_nonempty expected_features) Hshape)
    as (Hload' & Hstore).
  rewrite Hload in Hload'. injection Hload' as ->.
  destruct (concat_store_rows _ n _ record
              (record_columns_NoDup expected_features Hwf) Hstore Hlab)
    as (Hstore' & Hrows).
  unfold assessment in Hrec.
  destruct (input_data expected_features (form ui)) as [d|e] eqn:Hd;
    [|discriminate]. cbn [bind] in Hrec.
  assert (Hname : ~ In "PatientName" (Frame.labels d)).
  { rewrite (input_data_labels _ _ _ Hd). destruct Hwf as [_ Hfresh].
    apply Hfresh. right. now left. }
  destruct (assess_fields quicksort predict_proba predict (form ui) d Hname)
    as (top & record' & Htop & Hrec' & G1 & G2 & G3 & G4 & G5 & G6 & G7 & G8).
  rewrite Hrec in Hrec'. injection Hrec' as <-.
  eexists. exists d, top. eexists.
  split; [exact Hrun|]. split; [reflexivity|]. split; [exact Htop|].
  rewrite list_records_store. cbn [append patient_records].
  rewrite (history_of_store _ _ _ Hstore').
  split; [reflexivity|]. cbn [columns rows]. split; [reflexivity|].
  destruct Hstore' as (Hcols & Hlen & _).
  split; [now rewrite length_map|].
  rewrite Hrows, map_app. cbn [map]. rewrite last_last.
  rewrite Hcols, <- Hlab, reindex_record. unfold history_columns. cbn [map].
  now rewrite G1, G2, G3, G4, G5, G6, G7, G8.
Qed.

Lemma history_shows_new_assessment_witness :
  well_formed_features sample_features /\
  form_accepts (form (press Predict noted_input)) = true /\
  is_ascii (doctor_note (form (press Predict noted_input))) = true /\
  pressed (press Predict noted_input) = Some Predict /\
  file_shape (record_columns sample_features) 1 (record_file stored_world) /\
  exists w' t,
    run sample_sort sample_features sample_proba sample_predict
        (press Predict noted_input) stored_world = Ok w' /\
    list_records w' = Ok (Some t) /\
    columns t = history_columns /\
    List.length (rows t) = 2%nat /\
    last (rows t) [] =
      [ VStr "Jane Roe"; VStr "No Asthma"; VNum (NFloat 42);
        VStr "🟡 Medium Risk"; VStr "🧑 Adult";
        VStr "DustExposure, SymptomScore, Smoking";
        VStr "🩺 Suggest lung function test."; VStr "wheezing at night" ].
Proof.
  assert (Hshape : file_shape (record_columns sample_features) 1
                     (record_file stored_world)).
  { apply (file_of_shape (record_columns sample_features) [sample_record]).
    repeat constructor. }
  split; [exact sample_features_well_formed|]. split; [reflexivity|].
  split; [reflexivity|]. split; [reflexivity|]. split; [exact Hshape|].
  destruct (history_shows_new_assessment sample_sort sample_features sample_proba
              sample_predict (press Predict noted_input) stored_world 1
              sample_features_well_formed eq_refl eq_refl eq_refl Hshape)
    as (w' & d & top & t & Hrun & Hd & Htop & Hlist & Hcols & Hlen & Hlast).
  exists w', t. split; [exact Hrun|]. split; [exact Hlist|].
  split; [exact Hcols|]. split; [exact Hlen|].
  injection Hd as <-. injection Htop as <-. exact Hlast.
Defined.

(** ** The exported worksheet (lines 153-155) *)

Lemma sheet_at_app r c a b :
  sheet_at r c (a ++ b) =
  match sheet_at r c a with
  | Some v => Some v
  | None => sheet_at r c b
  end.
Proof.
  unfold sheet_at. induction a as [|x a IH]; [reflexivity|].
  cbn [app find]. destruct ((xl_row x =? r)%nat && (xl_col x =? c)%nat);
    [reflexivity | exact IH].
Qed.

Lemma sheet_at_cells_from r r' c cs : forall k,
  sheet_at r c
    (map (fun jc => {| xl_row := r'; xl_col := fst jc; xl_value := snd jc |})
         (combine (seq k (List.length cs)) cs)) =
  if (r' =? r)%nat
  then if (k <=? c)%nat then nth_error cs (c - k) else None
  else None.
Proof.
  unfold sheet_at. induction cs as [|x cs IH]; intros k.
  - cbn [List.length seq combine map find option_map].
    destruct (r' =? r)%nat; [|reflexivity].
    destruct (k <=? c)%nat; [|reflexivity]. now destruct (c - k)%nat.
  - cbn [List.length seq combine map find xl_row xl_col fst snd].
    destruct (r' =? r)%nat eqn:Hr; cbn [andb].
    + destruct (Nat.eqb_spec k c) as [->|Hk].
      * rewrite Nat.leb_refl, Nat.sub_diag. reflexivity.
      * rewrite IH. destruct (Nat.leb_spec (S k) c) as [Hle|Hgt].
        -- destruct (Nat.leb_spec k c) as [_|Hlt]; [|lia].
           replace (c - k)%nat with (S (c - S k)) by lia. reflexivity.
        -- destruct (Nat.leb_spec k c) as [Hle|_]; [lia | reflexivity].
    + apply IH.
Qed.

Lemma sheet_at_row_cells r r' c cs :
  sheet_at r c (Pd.row_cells r' cs) =
  if (r' =? r)%nat then nth_error cs c else None.
Proof.
  unfold Pd.row_cells. rewrite sheet_at_cells_from. cbn [Nat.leb].
  now rewrite Nat.sub_0_r.
Qed.

Lemma sheet_at_rows_from r c (rs : list (list value)) : forall k,
  sheet_at r c
    (flat_map (fun ir => Pd.row_cells (S (fst ir)) (map Pd.write_cell (snd ir)))
              (combine (seq k (List.length rs)) rs)) =
  match r with
  | O => None
  | S i =>
      if (k <=? i)%nat
      then match nth_error rs (i - k) with
           | Some row => option_map Pd.write_cell (nth_error row c)
           | None => None
           end
      else None
  end.
Proof.
  induction rs as [|row rs IH]; intros k.
  - cbn [List.length seq combine flat_map]. destruct r as [|i]; [reflexivity|].
    destruct (k <=? i)%nat; [|reflexivity]. now destruct (i - k)%nat.
  - cbn [List.length seq combine flat_map fst snd].
    rewrite sheet_at_app, sheet_at_row_cells, IH.
    destruct r as [|i]; [reflexivity|].
    change (S k =? S i)%nat with (k =? i)%nat.
    destruct (Nat.eqb_spec k i) as [->|Hk].
    + rewrite Nat.leb_refl, Nat.sub_diag. cbn [nth_error].
      rewrite nth_error_map.
      destruct (nth_error row c) as [v|] eqn:Hv; [reflexivity|].
      cbn [option_map].
      destruct (Nat.leb_spec (S i) i) as [Hle|_]; [lia | reflexivity].
    + destruct (Nat.leb_spec (S k) i) as [Hle|Hgt].
      * destruct (Nat.leb_spec k i) as [_|Hlt]; [|lia].
        replace (i - k)%nat with (S (i - S k)) by lia. reflexivity.
      * destruct (Nat.leb_spec k i) as [Hle|_]; [lia | reflexivity].
Qed.

Lemma to_excel_cells (df : DataFrame) :
  (forall j, sheet_at 0 j (Pd.to_excel df) =
             option_map CText (nth_error (columns df) j)) /\
  (forall i j, sheet_at (S i) j (Pd.to_excel df) =
               match nth_error (rows df) i with
               | Some row => option_map Pd.write_cell (nth_error row j)
               | None => None
               end).
Proof.
  unfold Pd.to_excel. split.
  - intros j. rewrite sheet_at_app, sheet_at_row_cells, sheet_at_rows_from.
    cbn [Nat.eqb]. rewrite nth_error_map.
    now destruct (nth_error (columns df) j).
  - intros i j. rewrite sheet_at_app, sheet_at_row_cells, sheet_at_rows_from.
    cbn [Nat.eqb Nat.leb]. now rewrite Nat.sub_0_r.
Qed.

(** X8.  The export mirrors the record file.  For a model with well-formed
    feature names of printable ASCII characters and a record file that
    holds records of the model's schema (int64 integers, short decimals,
    texts that are ordinary - without control characters - or empty): a
    run in which Export is pressed succeeds and leaves the record file as
    it is; the worksheet it writes is empty when there is no record, and
    otherwise it has the column names of the records in its first row and,
    in row [i + 1], the cells of line [i] of the record file, column by
    column, and nothing else. *)
Theorem export_mirrors_record_file
  (quicksort : Row number -> Row number)
  (expected_features : list string) (predict_proba : Row number -> float)
  (predict : Row number -> Z) (ui : Interaction) (w : World)
  (done : list (Row value)) :
  well_formed_features expected_features ->
  column_names expected_features = true ->
  form_accepts (form ui) = true ->
  pressed ui = Some Export ->
  Forall (conforms (record_schema expected_features)) done ->
  record_file w = file_of (record_columns expected_features) done ->
  exists w' sheet,
    run quicksort expected_features predict_proba predict ui w = Ok w' /\
    export_file w' = Some sheet /\
    record_file w' = record_file w /\
    match done with
    | [] => sheet = []
    | _ =>
        (forall j, sheet_at 0 j sheet =
                   option_map CText (nth_error (record_columns expected_features) j)) /\
        (forall i j, sheet_at (S i) j sheet =
                     match nth_error done i with
                     | Some record => nth_error (written_row record) j
                     | None => None
                     end)
    end.
Proof.
  intros Hwf _ Hform Hpress Hconf Hfile.
  pose proof (conforms_all_kept _ _ Hconf) as Hdone.
  rewrite record_schema_columns in Hdone.
  assert (Hshape : file_shape (record_columns expected_features)
                     (List.length done) (record_file w)).
  { rewrite Hfile. now apply file_of_shape. }
  destruct (run_cases quicksort expected_features predict_proba predict Hwf _ ui w
              Hform Hshape) as (w1 & record & Hload & _ & _ & Hrun).
  rewrite Hpress in Hrun.
  pose proof (load_file_of _ done w (record_columns_nonempty expected_features)
                Hfile Hdone) as Hload'.
  rewrite Hload in Hload'. injection Hload' as ->.
  eexists. eexists. split; [exact Hrun|].
  cbn [exportAll export_file record_file patient_records].
  split; [reflexivity|]. split; [reflexivity|].
  destruct done as [|r0 done0]; [reflexivity|].
  cbv beta iota. generalize (r0 :: done0). intros records. unfold Row in *.
  destruct (to_excel_cells
              {| columns := record_columns expected_features;
                 rows := map (fun r => map blank_as_missing (map snd r)) records |})
    as [Hhead Hbody].
  cbn [columns rows] in Hhead, Hbody. split; [exact Hhead|].
  intros i j. rewrite Hbody, nth_error_map.
  destruct (nth_error records i) as [r|]; [|reflexivity].
  cbn [option_map]. unfold written_row. rewrite !nth_error_map.
  destruct (nth_error r j) as [kv|]; [|reflexivity].
  cbn [option_map]. now rewrite write_blank_as_missing.
Qed.

Lemma export_mirrors_record_file_witness :
  well_formed_features sample_features /\
  column_names sample_features = true /\
  form_accepts (form (press Export default_input)) = true /\
  pressed (press Export default_input) = Some Export /\
  Forall (conforms (record_schema sample_features)) [sample_record] /\
  record_file stored_world =
    file_of (record_columns sample_features) [sample_record] /\
  exists w' sheet,
    run sample_sort sample_features sample_proba sample_predict
        (press Export default_input) stored_world = Ok w' /\
    export_file w' = Some sheet /\
    record_file w' = record_file stored_world /\
    (forall j, sheet_at 0 j sheet =
               option_map CText (nth_error (record_columns sample_features) j)) /\
    (forall i j, sheet_at (S i) j sheet =
                 match nth_error [sample_record] i with
                 | Some record => nth_error (written_row record) j
                 | None => None
                 end).
Proof.
  assert (Hdone : Forall (conforms (record_schema sample_features))
                         [sample_record]) by (repeat constructor).
  split; [exact sample_features_well_formed|]. split; [reflexivity|].
  split; [reflexivity|].
  split; [reflexivity|]. split; [exact Hdone|]. split; [reflexivity|].
  exact (export_mirrors_record_file sample_sort sample_features sample_proba sample_predict
           (press Export default_input) stored_world [sample_record]
           sample_features_well_formed eq_refl eq_refl eq_refl Hdone eq_refl).
Defined.

(** The worksheet of the sample: the name in its first column, the blank
    note as an empty cell in its last. *)
Example export_cells_of_sample :
  (w <- run sample_sort sample_features sample_proba sample_predict
          (press Export default_input) stored_world ;;
   Ok (option_map (fun sheet => (sheet_at 0 0 sheet, sheet_at 1 0 sheet,
                                 sheet_at 1 13 sheet, sheet_at 2 0 sheet))
                  (export_file w)))
  = Ok (Some (Some (CText "PatientName"), Some (CText "John Doe"),
              Some (CText ""), None)).
Proof. vm_compute. reflexivity. Qed.

(** A run leaves the export file alone unless Export is pressed. *)
Lemma run_export_file
  (quicksort : Row number -> Row number)
  (expected_features : list string) (predict_proba : Row number -> float)
  (predict : Row number -> Z) ui w w' :
  run quicksort expected_features predict_proba predict ui w = Ok w' ->
  export_file w' =
  match pressed ui with
  | Some Export => Some (Pd.to_excel (patient_records w'))
  | _ => export_file w
  end.
Proof.
  unfold run. destruct (load w) as [w1|e] eqn:Hload; [|discriminate].
  destruct (load_keeps_files w w1 Hload) as [_ Hexp]. cbn [bind].
  destruct (input_data expected_features (form ui)) as [d|e]; [|discriminate].
  cbn [bind]. destruct (pressed ui) as [[| |]|].
  - destruct (assess quicksort predict_proba predict (form ui) d) as [record|e];
      [|discriminate]. cbn [bind].
    destruct (if show_history ui then _ else _) as [t|e]; [|discriminate].
    cbn [bind]. intros [= <-]. exact Hexp.
  - cbn [bind]. destruct (if show_history ui then _ else _) as [t|e]; [|discriminate].
    cbn [bind]. intros [= <-]. reflexivity.
  - cbn [bind]. destruct (if show_history ui then _ else _) as [t|e]; [|discriminate].
    cbn [bind]. intros [= <-]. exact Hexp.
  - cbn [bind]. destruct (if show_history ui then _ else _) as [t|e]; [|discriminate].
    cbn [bind]. intros [= <-]. exact Hexp.
Qed.

(** X9.  The exported worksheet changes only when Export is pressed: in
    a session that succeeds and in which Export is never pressed, the
    export file at the end is the one of the start.  In particular Clear,
    which erases the store and the record file, leaves an earlier export -
    and the records in it - in place. *)
Theorem export_file_changes_only_on_export
  (quicksort : Row number -> Row number)
  (expected_features : list string) (predict_proba : Row number -> float)
  (predict : Row number -> Z) (uis : list Interaction) (w w' : World) :
  session quicksort expected_features predict_proba predict uis w = Ok w' ->
  Forall (fun ui => pressed ui <> Some Export) uis ->
  export_file w' = export_file w.
Proof.
  revert w w'. induction uis as [|ui uis IH]; intros w w'; cbn [session].
  - now intros [= <-] _.
  - destruct (run quicksort expected_features predict_proba predict ui w) as [w1|e] eqn:Hrun;
      [|discriminate]. cbn [bind]. intros Hsess Hall.
    inversion Hall as [|? ? Hui Hall']; subst.
    rewrite (IH w1 w' Hsess Hall'),
      (run_export_file quicksort expected_features predict_proba predict ui w w1 Hrun).
    destruct (pressed ui) as [[| |]|]; try reflexivity. now contradiction Hui.
Qed.

Lemma export_file_changes_only_on_export_witness :
  Forall (fun ui => pressed ui <> Some Export)
         [press Clear default_input; press Predict noted_input] /\
  option_map (@List.length ExcelCell) (export_file exported_world) = Some 28%nat /\
  exists w',
    session sample_sort sample_features sample_proba sample_predict
      [press Clear default_input; press Predict noted_input] exported_world
      = Ok w' /\
    export_file w' = export_file exported_world.
Proof.
  assert (Hall : Forall (fun ui => pressed ui <> Some Export)
                        [press Clear default_input; press Predict noted_input]).
  { repeat constructor; discriminate. }
  split; [exact Hall|]. split; [vm_compute; reflexivity|].
  eexists. split; [vm_compute; reflexivity|].
  eapply (export_file_changes_only_on_export sample_sort sample_features sample_proba
            sample_predict
            [press Clear default_input; press Predict noted_input]
            exported_world);
    [vm_compute; reflexivity | exact Hall].
Defined.

(** ** What can fail in a run, and what a change of model does *)

Lemma filter_none {A : Type} (f : A -> bool) (l : list A) :
  (forall x, In x l -> f x = false) -> filter f l = [].
Proof.
  induction l as [|x l IH]; intros Hall; [reflexivity|]. cbn [filter].
  rewrite (Hall x (or_introl eq_refl)). apply IH. intros y Hy. apply Hall. now right.
Qed.

Lemma existsb_eqb_In (c : string) (l : list string) :
  existsb (String.eqb c) l = true <-> In c l.
Proof.
  rewrite existsb_exists. split.
  - intros (x & Hx & Heq). apply String.eqb_eq in Heq. now subst.
  - intros H. exists c. split; [exact H | apply String.eqb_refl].
Qed.

Lemma existsb_eqb_not_In (c : string) (l : list string) :
  ~ In c l -> existsb (String.eqb c) l = false.
Proof.
  intros H. destruct (existsb (String.eqb c) l) eqn:E; [|reflexivity].
  apply existsb_eqb_In in E. contradiction.
Qed.

(** The columns a record of the model [new] adds to a store of the model
    [old]: the features only [new] declares. *)
Lemma new_columns old new :
  well_formed_features new ->
  filter (fun c => negb (existsb (String.eqb c) (record_columns old)))
         (record_columns new)
  = filter (fun c => negb (declares old c)) new.
Proof.
  intros [_ Hfresh]. unfold record_columns at 2.
  cbn [filter]. 
  replace (existsb (String.eqb "PatientName") (record_columns old)) with true
    by (symmetry; apply existsb_eqb_In; now left).
  cbn [negb]. rewrite filter_app.
  rewrite (filter_none _ narrative_columns).
  - rewrite app_nil_r. apply filter_ext_in. intros c Hc. f_equal.
    unfold record_columns, declares. cbn [existsb].
    destruct (String.eqb_spec c "PatientName") as [->|_].
    + exfalso. apply (Hfresh "PatientName"); [right; now left | exact Hc].
    + cbn [orb]. rewrite existsb_app.
      rewrite (existsb_eqb_not_In c narrative_columns); [apply orb_false_r|].
      intros Hin. apply (Hfresh c); [right; now right | exact Hc].
  - intros c Hc. apply negb_false_iff. apply existsb_eqb_In.
    unfold record_columns. right. apply in_or_app. now right.
Qed.

Lemma concat_has_record_columns df (record : Row value) c :
  In c (Frame.labels record) -> In c (columns (Pd.concat df record)).
Proof.
  intros Hc. unfold Pd.concat. cbn [columns]. apply in_or_app.
  destruct (existsb (String.eqb c) (columns df)) eqn:E.
  - left. now apply existsb_eqb_In.
  - right. apply filter_In. split; [exact Hc | now rewrite E].
Qed.

Lemma get_Some_label {A : Type} c (df : Row A) v :
  Frame.get c df = Some v -> In c (Frame.labels df).
Proof.
  intros H. destruct (in_dec string_dec c (Frame.labels df)) as [Hin|Hout];
    [exact Hin|]. apply get_None in Hout. congruence.
Qed.

Lemma history_after_append (record : Row value) w :
  (forall c, In c history_columns -> In c (Frame.labels record)) ->
  exists t, list_records (append record w) = Ok t.
Proof.
  intros Hall. unfold list_records.
  destruct (negb (Pd.empty (patient_records (append record w))));
    [|eexists; reflexivity].
  rewrite getitem_frame_defined; [eexists; reflexivity|].
  intros c Hc. cbn [append patient_records].
  apply concat_has_record_columns. now apply Hall.
Qed.

(** What a run comes to once the store is loaded, when Predict is not
    pressed. *)
Lemma run_without_predict
  (quicksort : Row number -> Row number)
  (expected_features : list string) (predict_proba : Row number -> float)
  (predict : Row number -> Z) ui w w1 :
  form_accepts (form ui) = true ->
  pressed ui <> Some Predict ->
  load w = Ok w1 ->
  run quicksort expected_features predict_proba predict ui w =
  (_ <- (if show_history ui then list_records w1 else Ok None) ;;
   Ok match pressed ui with
      | Some Export => exportAll w1
      | Some Clear => clear w1
      | _ => w1
      end).
Proof.
  intros Hform Hpress Hload.
  destruct (input_data_aligned expected_features (form ui) Hform)
    as (ratio & d & _ & Hd & _).
  unfold run. rewrite Hload, Hd. cbn [bind].
  destruct (pressed ui) as [[| |]|]; [now contradiction Hpress | | |];
    cbn [bind];
    destruct (if show_history ui then list_records w1 else Ok None);
    reflexivity.
Qed.

(** X10.  The failures of a run, for a model with well-formed feature
    names and an accepted form.  On a record file of zero bytes the run
    stops at line 28 with EmptyDataError, whatever is pressed - Clear
    included, so that the script cannot remove such a file.  On a record
    file that holds records of one schema (distinct column names, not
    empty and of printable ASCII characters; int64 integers, short decimals,
    texts ordinary or empty), whatever its columns are: a run in which
    Predict is pressed succeeds, since the record brings the columns of
    the history view; any other run succeeds when there is no record, when
    the history is not shown, or when the file has the eight columns of
    the view, and raises KeyError for a column of the view that the file
    lacks otherwise. *)
Theorem failures_of_a_run
  (quicksort : Row number -> Row number)
  (expected_features : list string) (predict_proba : Row number -> float)
  (predict : Row number -> Z) (ui : Interaction) :
  well_formed_features expected_features ->
  form_accepts (form ui) = true ->
  (forall w, record_file w = Some empty_file ->
             run quicksort expected_features predict_proba predict ui w
             = Raise EmptyDataError) /\
  (forall (schema : list (string * kind)) (done : list (Row value)) (w : World),
      NoDup (map fst schema) -> column_names (map fst schema) = true ->
      schema <> [] ->
      Forall (conforms schema) done ->
      record_file w = file_of (map fst schema) done ->
      match pressed ui with
      | Some Predict =>
          exists w',
            run quicksort expected_features predict_proba predict ui w = Ok w'
      | _ =>
          if show_history ui
          then match done with
               | [] =>
                   exists w',
                     run quicksort expected_features predict_proba predict ui w
                     = Ok w'
               | _ =>
                   ((forall c, In c history_columns -> In c (map fst schema)) ->
                    exists w',
                      run quicksort expected_features predict_proba predict ui w
                      = Ok w') /\
                   (forall c, In c history_columns -> ~ In c (map fst schema) ->
                    exists c',
                      run quicksort expected_features predict_proba predict ui w
                      = Raise (KeyError c') /\
                      In c' history_columns /\ ~ In c' (map fst schema))
               end
          else exists w',
                 run quicksort expected_features predict_proba predict ui w = Ok w'
      end).
Proof.
  intros [_ Hfresh] Hform.
  assert (Hname : ~ In "PatientName" expected_features).
  { apply Hfresh. right. now left. }
  destruct (input_data_aligned expected_features (form ui) Hform)
    as (ratio & d & _ & Hd & Hlab & _).
  split.
  - intros w Hfile. unfold run, load. rewrite Hfile. reflexivity.
  - intros schema done w Hnd _ Hschema Hconf Hfile.
    assert (Hne : map fst schema <> [])
      by (destruct schema; [congruence | discriminate]).
    pose proof (load_file_of (map fst schema) done w Hne Hfile
                  (conforms_all_kept schema done Hconf)) as Hload.
    destruct (pressed ui) as [[| |]|] eqn:Hpress.
    + unfold run. rewrite Hload, Hd, Hpress. cbn [bind].
      rewrite <- Hlab in Hname.
      destruct (assess_fields quicksort predict_proba predict (form ui) d Hname)
        as (top & record & _ & Hrec & G1 & G2 & G3 & G4 & G5 & G6 & G7 & G8).
      rewrite Hrec. cbn [bind].
      match goal with
      | |- context [append record ?w1] =>
          destruct (history_after_append record w1) as (t & Ht)
      end.
      { unfold history_columns. intros c Hc. cbn [In] in Hc.
        repeat (destruct Hc as [<-|Hc]; [eapply get_Some_label; eassumption|]).
        contradiction. }
      rewrite Ht. destruct (show_history ui); cbn [bind]; eexists; reflexivity.
    + rewrite (run_without_predict quicksort expected_features predict_proba
                 predict ui w _ Hform ltac:(congruence) Hload), Hpress.
      destruct (show_history ui); [|cbn [bind]; eexists; reflexivity].
      destruct done as [|r0 done0]; [cbn [bind]; eexists; reflexivity|].
      unfold list_records. cbn [patient_records Pd.empty columns rows map].
      destruct (map fst schema) as [|c0 cols0] eqn:Hcols; [contradiction|].
      cbn [negb]. split.
      * intros Hall. rewrite getitem_frame_defined by exact Hall.
        cbn [bind]. eexists. reflexivity.
      * intros c Hin Hmiss.
        match goal with
        | |- context [Pd.getitem history_columns ?df] =>
            destruct (getitem_frame_missing history_columns df c Hin Hmiss)
              as (c' & -> & Hc')
        end.
        exists c'. now split.
    + rewrite (run_without_predict quicksort expected_features predict_proba
                 predict ui w _ Hform ltac:(congruence) Hload), Hpress.
      destruct (show_history ui); [|cbn [bind]; eexists; reflexivity].
      destruct done as [|r0 done0]; [cbn [bind]; eexists; reflexivity|].
      unfold list_records. cbn [patient_records Pd.empty columns rows map].
      destruct (map fst schema) as [|c0 cols0] eqn:Hcols; [contradiction|].
      cbn [negb]. split.
      * intros Hall. rewrite getitem_frame_defined by exact Hall.
        cbn [bind]. eexists. reflexivity.
      * intros c Hin Hmiss.
        match goal with
        | |- context [Pd.getitem history_columns ?df] =>
            destruct (getitem_frame_missing history_columns df c Hin Hmiss)
              as (c' & -> & Hc')
        end.
        exists c'. now split.
    + rewrite (run_without_predict quicksort expected_features predict_proba
                 predict ui w _ Hform ltac:(congruence) Hload), Hpress.
      destruct (show_history ui); [|cbn [bind]; eexists; reflexivity].
      destruct done as [|r0 done0]; [cbn [bind]; eexists; reflexivity|].
      unfold list_records. cbn [patient_records Pd.empty columns rows map].
      destruct (map fst schema) as [|c0 cols0] eqn:Hcols; [contradiction|].
      cbn [negb]. split.
      * intros Hall. rewrite getitem_frame_defined by exact Hall.
        cbn [bind]. eexists. reflexivity.
      * intros c Hin Hmiss.
        match goal with
        | |- context [Pd.getitem history_columns ?df] =>
            destruct (getitem_frame_missing history_columns df c Hin Hmiss)
              as (c' & -> & Hc')
        end.
        exists c'. now split.
Qed.

Lemma failures_of_a_run_witness :
  well_formed_features sample_features /\
  form_accepts (form (press Clear default_input)) = true /\
  record_file unreadable_world = Some empty_file /\
  run sample_sort sample_features sample_proba sample_predict
      (press Clear default_input) unreadable_world = Raise EmptyDataError.
Proof.
  split; [exact sample_features_well_formed|]. split; [reflexivity|].
  split; [reflexivity|].
  exact (proj1 (failures_of_a_run sample_sort sample_features sample_proba
                  sample_predict (press Clear default_input)
                  sample_features_well_formed eq_refl)
           unreadable_world eq_refl).
Defined.

(** X11.  A change of model keeps the columns of the record file.  When
    the record file holds records written for a model with the features
    [old_features] and the script then runs with another model, a run in
    which Predict is pressed succeeds: the file keeps its columns, in
    order, and gets the features that only the new model declares as
    further columns at the end; it has one line more than before; and
    every line has a cell for every column.  The cells of the earlier
    lines may be written anew in another form (an integer of a column
    that the new record lacks as a float): nothing is stated of them.
    (Both models with well-formed feature names of printable ASCII
    characters; the stored records of the schema of the old model, with
    int64 integers, short decimals and texts that are ordinary or empty;
    the name and the stripped note of the form without control
    characters.) *)
Theorem predict_after_model_change
  (quicksort : Row number -> Row number)
  (old_features expected_features : list string)
  (predict_proba : Row number -> float) (predict : Row number -> Z)
  (ui : Interaction) (w : World) (done : list (Row value)) :
  well_formed_features old_features ->
  well_formed_features expected_features ->
  column_names old_features = true ->
  column_names expected_features = true ->
  form_accepts (form ui) = true ->
  keeps_lines (form ui) = true ->
  pressed ui = Some Predict ->
  done <> [] ->
  Forall (conforms (record_schema old_features)) done ->
  record_file w = file_of (record_columns old_features) done ->
  exists w',
    run quicksort expected_features predict_proba predict ui w = Ok w' /\
    file_shape
      (record_columns old_features
       ++ filter (fun c => negb (declares old_features c)) expected_features)
      (S (List.length done)) (record_file w') /\
    columns (patient_records w') =
      record_columns old_features
      ++ filter (fun c => negb (declares old_features c)) expected_features /\
    List.length (rows (patient_records w')) = S (List.length done).
Proof.
  intros Hold Hnew _ _ Hform _ Hpress Hdone Hconf Hfile.
  pose proof (conforms_all_kept _ _ Hconf) as Hkept.
  rewrite record_schema_columns in Hkept.
  assert (Hshape : file_shape (record_columns old_features) (List.length done)
                     (record_file w)).
  { rewrite Hfile. now apply file_of_shape. }
  destruct (List.length done) as [|n] eqn:Hn;
    [destruct done; [now contradiction Hdone | discriminate]|].
  destruct (load_loaded _ (S n) w (record_columns_nonempty old_features) Hshape)
    as (Hload & Hcols & Hrows & _).
  destruct (assessment_labels quicksort expected_features predict_proba predict Hnew
              (form ui) Hform) as (d & record & Hd & Hrec & Hlab).
  destruct (history_after_append record
              {| patient_records := loaded (record_file w);
                 record_file := record_file w;
                 export_file := export_file w |}) as (t & Ht).
  { intros c Hc. rewrite Hlab. now apply history_in_record_columns. }
  unfold run. rewrite Hload, Hd, Hpress. cbn [bind]. rewrite Hrec. cbn [bind].
  assert (Hshown : exists t',
             (if show_history ui
              then list_records
                     (append record
                        {| patient_records := loaded (record_file w);
                           record_file := record_file w;
                           export_file := export_file w |})
              else Ok None) = Ok t').
  { destruct (show_history ui); [now exists t | now eexists]. }
  destruct Hshown as (t' & ->). cbn [bind].
  eexists. split; [reflexivity|].
  cbn [append patient_records record_file]. unfold Pd.concat, Pd.to_csv.
  cbn [columns rows header body file_shape].
  rewrite Hcols, Hlab, (new_columns old_features expected_features Hnew).
  repeat split.
  - rewrite length_map, length_app, length_map, Hrows. simpl. lia.
  - discriminate.
  - apply Forall_forall. intros line Hline. apply in_map_iff in Hline.
    destruct Hline as (r & <- & Hr). rewrite length_map.
    apply in_app_or in Hr. destruct Hr as [Hr|[<-|[]]].
    + apply in_map_iff in Hr. destruct Hr as (r0 & <- & _).
      unfold Pd.reindex. now rewrite length_map.
    + unfold Pd.reindex. now rewrite length_map.
  - rewrite length_app, length_map, Hrows. simpl. lia.
Qed.

Lemma predict_after_model_change_witness :
  well_formed_features sample_features /\
  well_formed_features other_features /\
  column_names sample_features = true /\
  column_names other_features = true /\
  form_accepts (form (press Predict default_input)) = true /\
  keeps_lines (form (press Predict default_input)) = true /\
  pressed (press Predict default_input) = Some Predict /\
  [sample_record] <> [] /\
  Forall (conforms (record_schema sample_features)) [sample_record] /\
  record_file stored_world =
    file_of (record_columns sample_features) [sample_record] /\
  exists w',
    run sample_sort other_features sample_proba sample_predict
        (press Predict default_input) stored_world = Ok w' /\
    file_shape (record_columns sample_features ++ ["PollenExposure"]) 2
               (record_file w') /\
    columns (patient_records w') =
      record_columns sample_features ++ ["PollenExposure"] /\
    List.length (rows (patient_records w')) = 2%nat.
Proof.
  assert (Hdone : Forall (conforms (record_schema sample_features))
                         [sample_record]) by (repeat constructor).
  assert (Hne : [sample_record] <> []) by discriminate.
  split; [exact sample_features_well_formed|].
  split; [exact other_features_well_formed|].
  do 5 (split; [reflexivity|]). split; [exact Hne|].
  split; [exact Hdone|]. split; [reflexivity|].
  exact (predict_after_model_change sample_sort sample_features other_features
           sample_proba sample_predict (press Predict default_input)
           stored_world [sample_record]
           sample_features_well_formed other_features_well_formed
           eq_refl eq_refl eq_refl eq_refl eq_refl Hne Hdone eq_refl).
Defined.

(** X13.  The store is read anew on every run: what a run (and hence a
    session) does depends on the two files only, never on the frame that
    an earlier run left in the session state, which lines 27-30 overwrite
    before anything reads it. *)
Theorem store_is_reloaded_on_every_run
  (quicksort : Row number -> Row number)
  (expected_features : list string) (predict_proba : Row number -> float)
  (predict : Row number -> Z) (ui : Interaction) (uis : list Interaction)
  (w w' : World) :
  record_file w = record_file w' ->
  export_file w = export_file w' ->
  run quicksort expected_features predict_proba predict ui w
  = run quicksort expected_features predict_proba predict ui w' /\
  session quicksort expected_features predict_proba predict (ui :: uis) w
  = session quicksort expected_features predict_proba predict (ui :: uis) w'.
Proof.
  intros Hfile Hexp.
  assert (Hload : load w = load w').
  { unfold load. now rewrite Hfile, Hexp. }
  assert (Hrun : run quicksort expected_features predict_proba predict ui w
                 = run quicksort expected_features predict_proba predict ui w').
  { unfold run. now rewrite Hload. }
  split; [exact Hrun|]. cbn [session]. now rewrite Hrun.
Qed.

Lemma store_is_reloaded_on_every_run_witness :
  record_file stale_world = record_file fresh_world /\
  export_file stale_world = export_file fresh_world /\
  run sample_sort sample_features sample_proba sample_predict
      (press Predict default_input) stale_world
  = run sample_sort sample_features sample_proba sample_predict
      (press Predict default_input) fresh_world /\
  session sample_sort sample_features sample_proba sample_predict
      [press Predict default_input; press Export default_input] stale_world
  = session sample_sort sample_features sample_proba sample_predict
      [press Predict default_input; press Export default_input] fresh_world.
Proof.
  split; [reflexivity|]. split; [reflexivity|].
  exact (store_is_reloaded_on_every_run sample_sort sample_features sample_proba
           sample_predict (press Predict default_input)
           [press Export default_input] stale_world fresh_world
           eq_refl eq_refl).
Defined.
